(** * Colour-difference analysis and history engine of basler-wrk

    A shallow embedding of the analysis core of
    [sorc/glob_basler_cmd_delta_2v.py] and [sorc/lib_basler_cmd_delta_2v.py]:
    the quality classifier, [AdvancedColorAnalyzer] (sample size, sampling
    rectangle, CIE76 / CIEDE2000) and [AdvancedDataManager] (bounded history,
    save / load).

    Numbers.  A Python [float] / [numpy.float64] is modelled by a real number
    ([R]): the arithmetic is the exact one, without rounding error, overflow,
    infinities or NaN.  Module [Binary64] transcribes the two delta-E functions
    a second time over IEEE-754 binary64 values ([PrimFloat]), where overflow
    and NaN exist, to follow non-finite values through the code.  A statement
    over the reals that an overflow would break is made for standard LAB
    values ([standard_lab]), whose steps stay far from it.  Python [int]s
    are [Z]. *)

From Stdlib Require Import Reals Lra Lia ZArith List String Bool.
From Stdlib Require PrimFloat Floats.
Import ListNotations.

(** ** Python and numpy primitives over the reals *)

Module Py.

Local Open Scope R_scope.

Definition leb (x y : R) : bool := if Rle_dec x y then true else false.
Definition ltb (x y : R) : bool := if Rlt_dec x y then true else false.
Definition eqb (x y : R) : bool := if Req_dec_T x y then true else false.

(** [int(x)] on a float: truncation towards zero. *)
Definition int (x : R) : Z :=
  if leb 0 x then Int_part x else (- Int_part (- x))%Z.

(** [np.rint]: to the nearest integer, ties to the even one. *)
Definition rint (x : R) : Z :=
  let f := Int_part x in
  let r := x - IZR f in
  if ltb r (1 / 2) then f
  else if ltb (1 / 2) r then (f + 1)%Z
  else if Z.even f then f else (f + 1)%Z.

(** [round(x, ndigits)] as [numpy.float64.__round__] computes it: scale by
    [10 ** ndigits], [rint], scale back. *)
Definition round (x : R) (ndigits : nat) : R :=
  IZR (rint (x * 10 ^ ndigits)) / 10 ^ ndigits.

(** [np.arctan2(y, x)], the angle of the point [(x, y)] in [(-pi, pi]]. *)
Definition arctan2 (y x : R) : R :=
  if ltb 0 x then atan (y / x)
  else if ltb x 0 then
    (if leb 0 y then atan (y / x) + PI else atan (y / x) - PI)
  else if ltb 0 y then PI / 2
  else if ltb y 0 then - (PI / 2)
  else 0.

Definition degrees (x : R) : R := x * (180 / PI).
Definition radians (x : R) : R := x * (PI / 180).

(** [a or b] on an optional float argument: [None] and [0.0] are falsy. *)
Definition or_default (a : option R) (b : R) : R :=
  match a with
  | Some v => if eqb v 0 then b else v
  | None => b
  end.

End Py.

(** ** glob_basler_cmd_delta_2v.py *)

Module gb.

Local Open Scope R_scope.
Local Open Scope string_scope.

Definition REFERENCE_LAB : list R := [50; 0; 0].

Definition DEFAULT_SAMPLE_SIZE_CM : R := 1.
Definition MIN_SAMPLE_SIZE_CM : R := 1 / 10.
Definition MAX_SAMPLE_SIZE_CM : R := 5.

Definition COLOR_DIFF_PRECISION : nat := 1.

Definition HISTORY_SIZE : nat := 1000.

Definition QUALITY_GRADE_EXCELLENT : R := 1.
Definition QUALITY_GRADE_GOOD : R := 2.
Definition QUALITY_GRADE_ACCEPTABLE : R := 3.
Definition QUALITY_GRADE_DEFECTIVE : R := 5.

Definition WARNING_THRESHOLD_DE : R := 3.
Definition CRITICAL_THRESHOLD_DE : R := 5.

Definition HISTORY_AUTO_SAVE_INTERVAL : Z := 10.

Definition VERSION : string := "1.0.0".

Definition DE_METHOD_CIE76 : string := "CIE76".
Definition DE_METHOD_CIE2000 : string := "CIE2000".
Definition DEFAULT_DE_METHOD : string := DE_METHOD_CIE76.

Definition CIEDE2000_KL : R := 1.
Definition CIEDE2000_KC : R := 1.
Definition CIEDE2000_KH : R := 1.

(** The five grades, the strings ['excellent'] ... ['out_of_range']. *)
Inductive grade : Set :=
  | excellent
  | good
  | acceptable
  | defective
  | out_of_range.

Definition get_quality_grade (de_value : R) : grade :=
  let abs_de := Rabs de_value in
  if Py.leb abs_de QUALITY_GRADE_EXCELLENT then excellent
  else if Py.leb abs_de QUALITY_GRADE_GOOD then good
  else if Py.leb abs_de QUALITY_GRADE_ACCEPTABLE then acceptable
  else if Py.leb abs_de QUALITY_GRADE_DEFECTIVE then defective
  else out_of_range.

End gb.

(** ** Python dictionaries that cross the component boundary

    A dictionary with a fixed set of string keys is a record; a key that may
    be absent ([d['k']] then raises [KeyError], [d.get('k', v)] yields [v]) is
    an [option] field. *)

Module Dict.

Record Rect : Set := mkRect { x1 : Z; y1 : Z; x2 : Z; y2 : Z }.

Record Lab : Type := mkLab { l : R; a : R; b : R }.
Record Rgb : Type := mkRgb { r : R; g : R; b' : R }.

(** The bundle returned by [calculate_color_differences]. *)
Record ColorDiffs : Type := mkColorDiffs {
  dl : option R; da : option R; db : option R; dc : option R; dh : option R;
  de76 : option R; de2000 : option R; de : option R
}.

(** The result of [analyze_frame], the argument of [add_data_point]. *)
Record AnalysisResult : Type := mkAnalysisResult {
  bgr : option Rgb;
  rgb : option Rgb;
  lab : option Lab;
  color_diffs : option ColorDiffs;
  sampling_area : option Rect;
  sample_size_cm : option R;
  pixels_per_cm : option R;
  calibrated : option bool;
  de_method : option string;
  timestamp : option R;
  depth_meters : option R
}.

End Dict.

(** ** lib_basler_cmd_delta_2v.py: AdvancedColorAnalyzer *)

Module AdvancedColorAnalyzer.

Local Open Scope R_scope.

(** A 1-D [np.ndarray] of [float64]; a LAB triple is [[L; a; b]]. *)
Definition ndarray : Type := list R.

Record t : Type := mk {
  reference_lab : ndarray;
  calibration_lab : option ndarray;
  is_calibrated : bool;
  sample_size_cm : R;
  pixels_per_cm : R;
  de_method : string
}.

Definition __init__ : t :=
  {| reference_lab := gb.REFERENCE_LAB;
     calibration_lab := None;
     is_calibrated := false;
     sample_size_cm := gb.DEFAULT_SAMPLE_SIZE_CM;
     pixels_per_cm := 50;
     de_method := gb.DEFAULT_DE_METHOD |}.

Definition set_sample_size (self : t) (size_cm : R) : bool * t :=
  if Py.leb gb.MIN_SAMPLE_SIZE_CM size_cm && Py.leb size_cm gb.MAX_SAMPLE_SIZE_CM
  then (true,
        {| reference_lab := reference_lab self;
           calibration_lab := calibration_lab self;
           is_calibrated := is_calibrated self;
           sample_size_cm := size_cm;
           pixels_per_cm := pixels_per_cm self;
           de_method := de_method self |})
  else (false, self).

(** [calibrate] assigns the array and the flag first; the log line that
    follows reads three items, so for a shorter array it raises and the
    handler returns [False] with the two assignments in place. *)
Definition calibrate (self : t) (lab_value : ndarray) : bool * t :=
  (Nat.leb 3 (List.length lab_value),
   {| reference_lab := reference_lab self;
      calibration_lab := Some lab_value;
      is_calibrated := true;
      sample_size_cm := sample_size_cm self;
      pixels_per_cm := pixels_per_cm self;
      de_method := de_method self |}).

Definition reset_calibration (self : t) : t :=
  {| reference_lab := reference_lab self;
     calibration_lab := None;
     is_calibrated := false;
     sample_size_cm := sample_size_cm self;
     pixels_per_cm := pixels_per_cm self;
     de_method := de_method self |}.

(** [lab[i]]: [None] stands for the [IndexError]. *)
Definition item (lab : ndarray) (i : nat) : option R := nth_error lab i.

(** The LAB triples that [convert_opencv_lab_to_standard] makes of 8-bit
    OpenCV values: a lightness in [0, 100], [a] and [b] in [-128, 127]. *)
Definition standard_lab (L a b : R) : Prop :=
  0 <= L <= 100 /\ -128 <= a <= 127 /\ -128 <= b <= 127.

Definition bind {A B : Type} (o : option A) (k : A -> option B) : option B :=
  match o with
  | Some v => k v
  | None => None
  end.

Notation "x <- e ;; k" := (bind e (fun x => k))
  (at level 61, e at next level, right associativity).

Definition convert_opencv_lab_to_standard (lab_opencv : ndarray) : option ndarray :=
  l0 <- item lab_opencv 0 ;;
  a0 <- item lab_opencv 1 ;;
  b0 <- item lab_opencv 2 ;;
  Some [l0 * 100 / 255; a0 - 128; b0 - 128].

Definition calculate_delta_e_76 (lab1 lab2 : ndarray) : option R :=
  l2 <- item lab2 0 ;; l1 <- item lab1 0 ;;
  a2 <- item lab2 1 ;; a1 <- item lab1 1 ;;
  b2 <- item lab2 2 ;; b1 <- item lab1 2 ;;
  Some (sqrt ((l2 - l1) ^ 2 + (a2 - a1) ^ 2 + (b2 - b1) ^ 2)).

(** Step 5 of [calculate_delta_e_2000], written once for both colours: the
    hue angle in degrees, [0.0] when [a'] and [b] are both zero. *)
Definition h_prime (a_prime b : R) : R :=
  if negb (Py.eqb a_prime 0 && Py.eqb b 0) then
    let h := Py.arctan2 b a_prime in
    let h := if Py.ltb h 0 then h + 2 * PI else h in
    Py.degrees h
  else 0.

(** Step 6, the hue difference by the shortest arc. *)
Definition delta_h_prime (C_prime1 C_prime2 h_prime1 h_prime2 : R) : R :=
  if negb (Py.eqb (C_prime1 * C_prime2) 0) then
    let d := h_prime2 - h_prime1 in
    if Py.ltb 180 d then d - 360
    else if Py.ltb d (-180) then d + 360
    else d
  else 0.

(** Step 7, the mean hue. *)
Definition h_prime_avg (C_prime1 C_prime2 h_prime1 h_prime2 : R) : R :=
  let s := h_prime1 + h_prime2 in
  if negb (Py.eqb (C_prime1 * C_prime2) 0) then
    (if Py.ltb 180 (Rabs (h_prime1 - h_prime2)) then
       (if Py.ltb (h_prime1 + h_prime2) 360 then s + 360 else s - 360)
     else s) / 2
  else s.

(** The values that steps 1 to 9 of [calculate_delta_e_2000] hand to step 10,
    and the three divisors met on the way. *)
Record Steps : Type := mkSteps {
  delta_L_prime : R;
  delta_C_prime : R;
  delta_H_prime : R;
  S_L : R;
  S_C : R;
  S_H : R;
  R_T : R;
  G_divisor : R;
  S_L_divisor : R;
  R_C_divisor : R
}.

(** The body of the [try] block of [calculate_delta_e_2000] after the two
    triples are unpacked: steps 1 to 9. *)
Definition ciede2000_steps (L1 a1 b1 L2 a2 b2 : R) : Steps :=
  let C1 := sqrt (a1 ^ 2 + b1 ^ 2) in
  let C2 := sqrt (a2 ^ 2 + b2 ^ 2) in
  let C_avg := (C1 + C2) / 2 in
  let C_avg_pow7 := C_avg ^ 7 in
  let G := (1 / 2) * (1 - sqrt (C_avg_pow7 / (C_avg_pow7 + 25 ^ 7))) in
  let a_prime1 := (1 + G) * a1 in
  let a_prime2 := (1 + G) * a2 in
  let C_prime1 := sqrt (a_prime1 ^ 2 + b1 ^ 2) in
  let C_prime2 := sqrt (a_prime2 ^ 2 + b2 ^ 2) in
  let h_prime1 := h_prime a_prime1 b1 in
  let h_prime2 := h_prime a_prime2 b2 in
  let delta_L_prime := L2 - L1 in
  let delta_C_prime := C_prime2 - C_prime1 in
  let delta_h := delta_h_prime C_prime1 C_prime2 h_prime1 h_prime2 in
  let delta_H_prime :=
    2 * sqrt (C_prime1 * C_prime2) * sin (Py.radians delta_h / 2) in
  let L_prime_avg := (L1 + L2) / 2 in
  let C_prime_avg := (C_prime1 + C_prime2) / 2 in
  let h_avg := h_prime_avg C_prime1 C_prime2 h_prime1 h_prime2 in
  let T := 1 - (17 / 100) * cos (Py.radians (h_avg - 30))
             + (24 / 100) * cos (Py.radians (2 * h_avg))
             + (32 / 100) * cos (Py.radians (3 * h_avg + 6))
             - (20 / 100) * cos (Py.radians (4 * h_avg - 63)) in
  let S_L := 1 + ((15 / 1000) * (L_prime_avg - 50) ^ 2)
                 / sqrt (20 + (L_prime_avg - 50) ^ 2) in
  let S_C := 1 + (45 / 1000) * C_prime_avg in
  let S_H := 1 + (15 / 1000) * C_prime_avg * T in
  let delta_theta := 30 * exp (- (((h_avg - 275) / 25) ^ 2)) in
  let R_C := 2 * sqrt (C_prime_avg ^ 7 / (C_prime_avg ^ 7 + 25 ^ 7)) in
  let R_T := - R_C * sin (Py.radians (2 * delta_theta)) in
  {| delta_L_prime := delta_L_prime;
     delta_C_prime := delta_C_prime;
     delta_H_prime := delta_H_prime;
     S_L := S_L; S_C := S_C; S_H := S_H; R_T := R_T;
     G_divisor := C_avg_pow7 + 25 ^ 7;
     S_L_divisor := sqrt (20 + (L_prime_avg - 50) ^ 2);
     R_C_divisor := C_prime_avg ^ 7 + 25 ^ 7 |}.

(** Step 10. *)
Definition ciede2000 (L1 a1 b1 L2 a2 b2 k_L k_C k_H : R) : R :=
  let s := ciede2000_steps L1 a1 b1 L2 a2 b2 in
  sqrt ((delta_L_prime s / (k_L * S_L s)) ^ 2
        + (delta_C_prime s / (k_C * S_C s)) ^ 2
        + (delta_H_prime s / (k_H * S_H s)) ^ 2
        + R_T s * (delta_C_prime s / (k_C * S_C s))
                * (delta_H_prime s / (k_H * S_H s))).

(** [calculate_delta_e_2000]: the unpacking of anything but a triple raises,
    and the handler returns the CIE76 value (which raises in turn, [None],
    when an array is shorter than three).  No arithmetic step raises. *)
Definition calculate_delta_e_2000
    (lab1 lab2 : ndarray) (k_L k_C k_H : option R) : option R :=
  let k_L := Py.or_default k_L gb.CIEDE2000_KL in
  let k_C := Py.or_default k_C gb.CIEDE2000_KC in
  let k_H := Py.or_default k_H gb.CIEDE2000_KH in
  match lab1, lab2 with
  | [L1; a1; b1], [L2; a2; b2] =>
      Some (ciede2000 L1 a1 b1 L2 a2 b2 k_L k_C k_H)
  | _, _ => calculate_delta_e_76 lab1 lab2
  end.

Definition rnd (x : R) : option R := Some (Py.round x gb.COLOR_DIFF_PRECISION).

(** The dictionary of the [except] branch of [calculate_color_differences]. *)
Definition zero_differences : Dict.ColorDiffs :=
  {| Dict.dl := Some 0; Dict.da := Some 0; Dict.db := Some 0;
     Dict.dc := Some 0; Dict.dh := Some 0;
     Dict.de76 := Some 0; Dict.de2000 := Some 0; Dict.de := Some 0 |}.

Definition is_cie2000 (self : t) : bool :=
  String.eqb (de_method self) gb.DE_METHOD_CIE2000.

Definition calculate_color_differences
    (self : t) (lab1 lab2 : ndarray) : Dict.ColorDiffs :=
  let attempt : option Dict.ColorDiffs :=
    l2 <- item lab2 0 ;; l1 <- item lab1 0 ;;
    let dl := l2 - l1 in
    a2 <- item lab2 1 ;; a1 <- item lab1 1 ;;
    let da := a2 - a1 in
    b2 <- item lab2 2 ;; b1 <- item lab1 2 ;;
    let db := b2 - b1 in
    let c1 := sqrt (a1 ^ 2 + b1 ^ 2) in
    let c2 := sqrt (a2 ^ 2 + b2 ^ 2) in
    let dc := c2 - c1 in
    let h1 := if Py.ltb 0 c1 then Py.arctan2 b1 a1 else 0 in
    let h2 := if Py.ltb 0 c2 then Py.arctan2 b2 a2 else 0 in
    let dhue := h2 - h1 in
    let dhue := if Py.ltb PI dhue then dhue - 2 * PI
                else if Py.ltb dhue (- PI) then dhue + 2 * PI
                else dhue in
    let dh := if Py.eqb (c1 * c2) 0 then 0
              else 2 * sqrt (c1 * c2) * sin (dhue / 2) in
    de_76 <- calculate_delta_e_76 lab1 lab2 ;;
    de_2000 <- (if is_cie2000 self
                then calculate_delta_e_2000 lab1 lab2 None None None
                else Some de_76) ;;
    Some {| Dict.dl := rnd dl; Dict.da := rnd da; Dict.db := rnd db;
            Dict.dc := rnd dc; Dict.dh := rnd dh;
            Dict.de76 := rnd de_76;
            Dict.de2000 := rnd de_2000;
            Dict.de := rnd (if is_cie2000 self then de_2000 else de_76) |} in
  match attempt with
  | Some d => d
  | None => zero_differences
  end.

Definition calculate_pixels_per_cm (depth_in_meters : R) : R :=
  let depth_in_meters :=
    if Py.leb depth_in_meters 0 then 3 / 10 else depth_in_meters in
  let base_pixels_per_cm := 30 in
  let scale_factor := (3 / 10) / depth_in_meters in
  Rmax 10 (base_pixels_per_cm * scale_factor).

(** A frame as [analyze_frame] sees it: its shape, and the means that OpenCV
    computes over a region ([cv2.mean] of the BGR region and of the region of
    the [cv2.cvtColor(frame, COLOR_BGR2LAB)] image). *)
Record Frame : Type := mkFrame {
  height : Z;
  width : Z;
  mean_bgr : Dict.Rect -> R * R * R;
  mean_lab : Dict.Rect -> R * R * R
}.

Definition size (frame : Frame) : Z := height frame * width frame * 3.

(** Lines 588-600 of [analyze_frame]: the sampling rectangle. *)
Definition sampling_bounds (width height sample_size_pixels : Z) : Dict.Rect :=
  let center_x := (width / 2)%Z in
  let center_y := (height / 2)%Z in
  let half_size := (sample_size_pixels / 2)%Z in
  {| Dict.x1 := Z.max 0 (center_x - half_size);
     Dict.y1 := Z.max 0 (center_y - half_size);
     Dict.x2 := Z.min width (center_x + half_size);
     Dict.y2 := Z.min height (center_y + half_size) |}.

(** [analyze_frame(frame, depth_meters)] at clock reading [now]; the
    analyzer keeps the recomputed [pixels_per_cm]. *)
Definition analyze_frame (self : t) (frame : option Frame)
    (depth_meters : R) (now : R) : option Dict.AnalysisResult * t :=
  match frame with
  | None => (None, self)
  | Some frame =>
    if (size frame =? 0)%Z then (None, self) else
    let ppc := calculate_pixels_per_cm depth_meters in
    let self :=
      {| reference_lab := reference_lab self;
         calibration_lab := calibration_lab self;
         is_calibrated := is_calibrated self;
         sample_size_cm := sample_size_cm self;
         pixels_per_cm := ppc;
         de_method := de_method self |} in
    let sample_size_pixels := Py.int (sample_size_cm self * pixels_per_cm self) in
    let area := sampling_bounds (width frame) (height frame) sample_size_pixels in
    let '(avg_b, avg_g, avg_r) := mean_bgr frame area in
    let '(avg_l_opencv, avg_a_opencv, avg_b_lab_opencv) := mean_lab frame area in
    match convert_opencv_lab_to_standard
            [avg_l_opencv; avg_a_opencv; avg_b_lab_opencv] with
    | None => (None, self)
    | Some current_lab_standard =>
      (* A calibrated analyzer holds an array; indexing [None] would raise
         as indexing an empty array does. *)
      let reference :=
        if is_calibrated self
        then match calibration_lab self with Some c => c | None => [] end
        else reference_lab self in
      let color_diffs :=
        calculate_color_differences self reference current_lab_standard in
      let rl := Py.round (nth 0 current_lab_standard 0) gb.COLOR_DIFF_PRECISION in
      let ra := Py.round (nth 1 current_lab_standard 0) gb.COLOR_DIFF_PRECISION in
      let rb := Py.round (nth 2 current_lab_standard 0) gb.COLOR_DIFF_PRECISION in
      (Some {| Dict.bgr := Some (Dict.mkRgb avg_r avg_g avg_b);
               Dict.rgb := Some (Dict.mkRgb avg_r avg_g avg_b);
               Dict.lab := Some (Dict.mkLab rl ra rb);
               Dict.color_diffs := Some color_diffs;
               Dict.sampling_area := Some area;
               Dict.sample_size_cm := Some (sample_size_cm self);
               Dict.pixels_per_cm := Some (pixels_per_cm self);
               Dict.calibrated := Some (is_calibrated self);
               Dict.de_method := Some (de_method self);
               Dict.timestamp := Some now;
               Dict.depth_meters := Some depth_meters |}, self)
    end
  end.

End AdvancedColorAnalyzer.

(** ** collections.deque(maxlen=n) *)

Module Deque.

Record deque (A : Type) : Type := mk { items : list A; maxlen : nat }.
Arguments mk {A} _ _.
Arguments items {A} _.
Arguments maxlen {A} _.

Definition empty {A : Type} (n : nat) : deque A := mk [] n.

(** [append] adds on the right and then trims one item on the left when the
    length exceeds [maxlen]. *)
Definition append {A : Type} (d : deque A) (x : A) : deque A :=
  let l := items d ++ [x] in
  mk (if Nat.ltb (maxlen d) (List.length l) then tl l else l) (maxlen d).

Definition clear {A : Type} (d : deque A) : deque A := mk [] (maxlen d).

Definition len {A : Type} (d : deque A) : nat := List.length (items d).

(** The last [n] items of a list. *)
Definition lastn {A : Type} (n : nat) (l : list A) : list A :=
  skipn (List.length l - n) l.

End Deque.

(** ** lib_basler_cmd_delta_2v.py: AdvancedDataManager *)

Module AdvancedDataManager.

Import Deque.
Local Open Scope R_scope.

Record DataPoint : Type := mkDataPoint {
  time : R;
  absolute_time : R;
  de : R; de76 : R; de2000 : R;
  dl : R; da : R; db : R; dc : R; dh : R;
  lab : Dict.Lab;
  rgb : Dict.Rgb;
  calibrated : bool;
  sample_size_cm : R;
  de_method : string
}.

(** The ['settings'] entry of a snapshot. *)
Record Settings : Type := mkSettings {
  history_size : nat;
  s_de_method : string;
  warning_threshold : R;
  critical_threshold : R
}.

(** The dictionary stored in [gb.HISTORY_FILE].  The graph widget writes the
    same file with other keys, so every key may be absent. *)
Record HistoryDict : Type := mkHistoryDict {
  hd_start_time : option R;
  hd_save_time : option R;
  hd_data : option (list DataPoint);
  hd_version : option string;
  hd_settings : option Settings
}.

(** The persistence medium: [gb.HISTORY_FILE] is absent, cannot be unpickled
    ([np.load] raises), or holds a dictionary; [np.save] succeeds when the
    medium is [writable] and raises otherwise, leaving the file as it was. *)
Inductive File : Type :=
  | Missing
  | Unreadable
  | Stored (h : HistoryDict).

Record Disk : Type := mkDisk { file : File; writable : bool }.

Record t : Type := mk {
  history_data : deque DataPoint;
  start_time : R;
  save_counter : Z;
  last_save_time : R;
  stats_cache : list (string * R);
  stats_cache_time : R
}.

Definition with_history (self : t) (h : deque DataPoint) : t :=
  {| history_data := h;
     start_time := start_time self;
     save_counter := save_counter self;
     last_save_time := last_save_time self;
     stats_cache := stats_cache self;
     stats_cache_time := stats_cache_time self |}.

(** [save_history]; [t_save] and [t_done] are its two clock readings. *)
Definition save_history (self : t) (disk : Disk) (t_save t_done : R)
    : bool * t * Disk :=
  if Nat.eqb (len (history_data self)) 0 then (true, self, disk)
  else
    let history_dict :=
      {| hd_start_time := Some (start_time self);
         hd_save_time := Some t_save;
         hd_data := Some (items (history_data self));
         hd_version := Some gb.VERSION;
         hd_settings :=
           Some {| history_size := gb.HISTORY_SIZE;
                   s_de_method := gb.DEFAULT_DE_METHOD;
                   warning_threshold := gb.WARNING_THRESHOLD_DE;
                   critical_threshold := gb.CRITICAL_THRESHOLD_DE |} |} in
    if writable disk then
      (true,
       {| history_data := history_data self;
          start_time := start_time self;
          save_counter := save_counter self;
          last_save_time := t_done;
          stats_cache := stats_cache self;
          stats_cache_time := stats_cache_time self |},
       {| file := Stored history_dict; writable := writable disk |})
    else (false, self, disk).

(** The copy of a stored point with its ['time'] moved to this session. *)
Definition adjusted_point (data_point : DataPoint) (time_offset : R) : DataPoint :=
  {| time := time data_point - time_offset;
     absolute_time := absolute_time data_point;
     de := de data_point; de76 := de76 data_point; de2000 := de2000 data_point;
     dl := dl data_point; da := da data_point; db := db data_point;
     dc := dc data_point; dh := dh data_point;
     lab := lab data_point;
     rgb := rgb data_point;
     calibrated := calibrated data_point;
     sample_size_cm := sample_size_cm data_point;
     de_method := de_method data_point |}.

Definition load_history (self : t) (disk : Disk) : bool * t :=
  match file disk with
  | Missing => (false, self)
  | Unreadable => (false, self)
  | Stored history_dict =>
    match hd_data history_dict with
    | Some loaded_data =>
      let saved_start_time :=
        match hd_start_time history_dict with
        | Some s => s
        | None => start_time self
        end in
      let time_offset := start_time self - saved_start_time in
      (true,
       with_history self
         (fold_left (fun h data_point =>
                       append h (adjusted_point data_point time_offset))
                    loaded_data (history_data self)))
    | None => (false, self)
    end
  end.

(** The store as [__init__] sets it up before it loads the history. *)
Definition fresh (t_start t_last : R) : t :=
  {| history_data := empty gb.HISTORY_SIZE;
     start_time := t_start;
     save_counter := 0;
     last_save_time := t_last;
     stats_cache := [];
     stats_cache_time := 0 |}.

Definition __init__ (disk : Disk) (t_start t_last : R) : t :=
  snd (load_history (fresh t_start t_last) disk).

Definition bind {A B : Type} (o : option A) (k : A -> option B) : option B :=
  match o with
  | Some v => k v
  | None => None
  end.

Notation "x <- e ;; k" := (bind e (fun x => k))
  (at level 61, e at next level, right associativity).

Definition get {A : Type} (o : option A) (default : A) : A :=
  match o with
  | Some v => v
  | None => default
  end.

(** The dictionary literal of [add_data_point]; [None] when a key is absent
    ([KeyError]). *)
Definition data_point_of (self : t) (analysis_result : Dict.AnalysisResult)
    : option DataPoint :=
  ts <- Dict.timestamp analysis_result ;;
  let relative_time := ts - start_time self in
  cd <- Dict.color_diffs analysis_result ;;
  v_de <- Dict.de cd ;;
  v_de76 <- Dict.de76 cd ;;
  v_de2000 <- Dict.de2000 cd ;;
  v_dl <- Dict.dl cd ;;
  v_da <- Dict.da cd ;;
  v_db <- Dict.db cd ;;
  v_dc <- Dict.dc cd ;;
  v_dh <- Dict.dh cd ;;
  v_lab <- Dict.lab analysis_result ;;
  v_rgb <- Dict.rgb analysis_result ;;
  v_cal <- Dict.calibrated analysis_result ;;
  Some {| time := relative_time;
          absolute_time := ts;
          de := v_de; de76 := v_de76; de2000 := v_de2000;
          dl := v_dl; da := v_da; db := v_db; dc := v_dc; dh := v_dh;
          lab := v_lab;
          rgb := v_rgb;
          calibrated := v_cal;
          sample_size_cm :=
            get (Dict.sample_size_cm analysis_result) gb.DEFAULT_SAMPLE_SIZE_CM;
          de_method :=
            get (Dict.de_method analysis_result) gb.DEFAULT_DE_METHOD |}.

(** [add_data_point]; [t_save] and [t_done] are the clock readings of the
    automatic save, when one takes place. *)
Definition add_data_point (self : t) (disk : Disk)
    (analysis_result : option Dict.AnalysisResult) (t_save t_done : R)
    : bool * t * Disk :=
  match analysis_result with
  | None => (false, self, disk)
  | Some analysis_result =>
    match data_point_of self analysis_result with
    | None => (false, self, disk)
    | Some data_point =>
      let self :=
        {| history_data := append (history_data self) data_point;
           start_time := start_time self;
           save_counter := save_counter self + 1;
           last_save_time := last_save_time self;
           stats_cache := stats_cache self;
           stats_cache_time := stats_cache_time self |} in
      let '(self, disk) :=
        if (gb.HISTORY_AUTO_SAVE_INTERVAL <=? save_counter self)%Z then
          let '(_, self, disk) := save_history self disk t_save t_done in
          ({| history_data := history_data self;
              start_time := start_time self;
              save_counter := 0;
              last_save_time := last_save_time self;
              stats_cache := stats_cache self;
              stats_cache_time := stats_cache_time self |}, disk)
        else (self, disk) in
      (true,
       {| history_data := history_data self;
          start_time := start_time self;
          save_counter := save_counter self;
          last_save_time := last_save_time self;
          stats_cache := stats_cache self;
          stats_cache_time := 0 |},
       disk)
    end
  end.

(** [get_de_values()] with its default [method='de']: times and values. *)
Definition get_de_values (self : t) : list R * list R :=
  (map time (items (history_data self)), map de (items (history_data self))).

Definition clear_history (self : t) (now : R) : t :=
  {| history_data := clear (history_data self);
     start_time := now;
     save_counter := 0;
     last_save_time := last_save_time self;
     stats_cache := [];
     stats_cache_time := 0 |}.

(** A run of [add_data_point] calls, each with its argument and the clock
    readings of its automatic save. *)
Fixpoint add_all (self : t) (disk : Disk)
    (calls : list (option Dict.AnalysisResult * R * R)) : t * Disk :=
  match calls with
  | [] => (self, disk)
  | (analysis_result, t_save, t_done) :: rest =>
    let '(_, self, disk) :=
      add_data_point self disk analysis_result t_save t_done in
    add_all self disk rest
  end.

(** The points that a run of calls appends: one for each call whose argument
    is a result with every key that [add_data_point] reads. *)
Definition points_of (self : t)
    (calls : list (option Dict.AnalysisResult * R * R)) : list DataPoint :=
  flat_map (fun c =>
              match fst (fst c) with
              | Some analysis_result =>
                match data_point_of self analysis_result with
                | Some data_point => [data_point]
                | None => []
                end
              | None => []
              end) calls.

(** The invariant of the store: it never holds more than its capacity. *)
Definition bounded (self : t) : Prop :=
  (List.length (items (history_data self)) <= maxlen (history_data self))%nat.

End AdvancedDataManager.

(** ** The two delta-E functions over IEEE-754 binary64

    The same statements of [calculate_delta_e_76] and
    [calculate_delta_e_2000], over the machine's floats.  [numpy] scalar
    arithmetic never raises: an overflow yields an infinity and an invalid
    operation a NaN (with a [RuntimeWarning]), so the [except] handler is
    reached by a failed unpacking only.  [+], [-], [*], [/] and [np.sqrt] are
    the IEEE operations; [x ** n] is taken as the [n]-fold product (the two
    agree where a result overflows or is NaN); [np.sin], [np.cos], [np.exp]
    and [np.arctan2] are those of the platform's library, a parameter [Libm],
    of which only the IEEE rule that a NaN argument gives a NaN result is
    written out. *)

Module Binary64.

Import PrimFloat.
Local Open Scope float_scope.
#[local] Set Warnings "-inexact-float".

Record Libm : Type := mkLibm {
  m_sin : float -> float;
  m_cos : float -> float;
  m_exp : float -> float;
  m_arctan2 : float -> float -> float
}.

Definition np_sin (m : Libm) (x : float) : float :=
  if is_nan x then nan else m_sin m x.
Definition np_cos (m : Libm) (x : float) : float :=
  if is_nan x then nan else m_cos m x.
Definition np_exp (m : Libm) (x : float) : float :=
  if is_nan x then nan else m_exp m x.
Definition np_arctan2 (m : Libm) (y x : float) : float :=
  if is_nan y || is_nan x then nan else m_arctan2 m y x.

Definition pi : float := 0x1.921fb54442d18p+1.
Definition degrees (x : float) : float := x * (180 / pi).
Definition radians (x : float) : float := x * (pi / 180).

Fixpoint pow (x : float) (n : nat) : float :=
  match n with
  | O => 1
  | S O => x
  | S n' => pow x n' * x
  end.

Definition or_default (a : option float) (b : float) : float :=
  match a with
  | Some v => if v =? 0 then b else v
  | None => b
  end.

Definition ndarray : Type := list float.

Definition item (lab : ndarray) (i : nat) : option float := nth_error lab i.

Definition bind {A B : Type} (o : option A) (k : A -> option B) : option B :=
  match o with
  | Some v => k v
  | None => None
  end.

Notation "x <- e ;; k" := (bind e (fun x => k))
  (at level 61, e at next level, right associativity).

Definition calculate_delta_e_76 (lab1 lab2 : ndarray) : option float :=
  l2 <- item lab2 0 ;; l1 <- item lab1 0 ;;
  a2 <- item lab2 1 ;; a1 <- item lab1 1 ;;
  b2 <- item lab2 2 ;; b1 <- item lab1 2 ;;
  Some (sqrt (pow (l2 - l1) 2 + pow (a2 - a1) 2 + pow (b2 - b1) 2)).

Definition h_prime (m : Libm) (a_prime b : float) : float :=
  if negb ((a_prime =? 0) && (b =? 0)) then
    let h := np_arctan2 m b a_prime in
    let h := if h <? 0 then h + 2 * pi else h in
    degrees h
  else 0.

Definition delta_h_prime (C_prime1 C_prime2 h_prime1 h_prime2 : float) : float :=
  if negb (C_prime1 * C_prime2 =? 0) then
    let d := h_prime2 - h_prime1 in
    if 180 <? d then d - 360
    else if d <? -180 then d + 360
    else d
  else 0.

Definition h_prime_avg (C_prime1 C_prime2 h_prime1 h_prime2 : float) : float :=
  let s := h_prime1 + h_prime2 in
  if negb (C_prime1 * C_prime2 =? 0) then
    (if 180 <? abs (h_prime1 - h_prime2) then
       (if h_prime1 + h_prime2 <? 360 then s + 360 else s - 360)
     else s) / 2
  else s.

Definition ciede2000 (m : Libm) (L1 a1 b1 L2 a2 b2 k_L k_C k_H : float) : float :=
  let C1 := sqrt (pow a1 2 + pow b1 2) in
  let C2 := sqrt (pow a2 2 + pow b2 2) in
  let C_avg := (C1 + C2) / 2 in
  let C_avg_pow7 := pow C_avg 7 in
  let G := 0.5 * (1 - sqrt (C_avg_pow7 / (C_avg_pow7 + 6103515625))) in
  let a_prime1 := (1 + G) * a1 in
  let a_prime2 := (1 + G) * a2 in
  let C_prime1 := sqrt (pow a_prime1 2 + pow b1 2) in
  let C_prime2 := sqrt (pow a_prime2 2 + pow b2 2) in
  let h_prime1 := h_prime m a_prime1 b1 in
  let h_prime2 := h_prime m a_prime2 b2 in
  let delta_L_prime := L2 - L1 in
  let delta_C_prime := C_prime2 - C_prime1 in
  let delta_h := delta_h_prime C_prime1 C_prime2 h_prime1 h_prime2 in
  let delta_H_prime :=
    2 * sqrt (C_prime1 * C_prime2) * np_sin m (radians delta_h / 2) in
  let L_prime_avg := (L1 + L2) / 2 in
  let C_prime_avg := (C_prime1 + C_prime2) / 2 in
  let h_avg := h_prime_avg C_prime1 C_prime2 h_prime1 h_prime2 in
  let T := 1 - 0.17 * np_cos m (radians (h_avg - 30))
             + 0.24 * np_cos m (radians (2 * h_avg))
             + 0.32 * np_cos m (radians (3 * h_avg + 6))
             - 0.20 * np_cos m (radians (4 * h_avg - 63)) in
  let S_L := 1 + (0.015 * pow (L_prime_avg - 50) 2)
                 / sqrt (20 + pow (L_prime_avg - 50) 2) in
  let S_C := 1 + 0.045 * C_prime_avg in
  let S_H := 1 + 0.015 * C_prime_avg * T in
  let delta_theta := 30 * np_exp m (- (pow ((h_avg - 275) / 25) 2)) in
  let R_C := 2 * sqrt (pow C_prime_avg 7 / (pow C_prime_avg 7 + 6103515625)) in
  let R_T := - R_C * np_sin m (radians (2 * delta_theta)) in
  sqrt (pow (delta_L_prime / (k_L * S_L)) 2
        + pow (delta_C_prime / (k_C * S_C)) 2
        + pow (delta_H_prime / (k_H * S_H)) 2
        + R_T * (delta_C_prime / (k_C * S_C)) * (delta_H_prime / (k_H * S_H))).

Definition calculate_delta_e_2000 (m : Libm)
    (lab1 lab2 : ndarray) (k_L k_C k_H : option float) : option float :=
  let k_L := or_default k_L 1 in
  let k_C := or_default k_C 1 in
  let k_H := or_default k_H 1 in
  match lab1, lab2 with
  | [L1; a1; b1], [L2; a2; b2] =>
      Some (ciede2000 m L1 a1 b1 L2 a2 b2 k_L k_C k_H)
  | _, _ => calculate_delta_e_76 lab1 lab2
  end.

(** Two LAB triples of finite components, ten units of lightness apart,
    whose chroma [1e60] is so large that its seventh power exceeds binary64. *)
Definition lab_huge_1 : ndarray := [50; 0x1.3e9e4e4c2f344p+199; 0].

End Binary64.

(** ** Concrete inputs used by the examples below *)

Module Fixtures.

Local Open Scope R_scope.

(** A 100 by 100 frame, black throughout. *)
Definition frame_100 : AdvancedColorAnalyzer.Frame :=
  AdvancedColorAnalyzer.mkFrame 100 100
    (fun _ => (0, 0, 0)) (fun _ => (0, 0, 0)).

(** The analyzer after [set_sample_size(0.5)]. *)
Definition analyzer_half_cm : AdvancedColorAnalyzer.t :=
  AdvancedColorAnalyzer.mk gb.REFERENCE_LAB None false (1 / 2) 50
    gb.DEFAULT_DE_METHOD.

(** A store of capacity 2, created at time 0, nothing saved yet. *)
Definition store_2 : AdvancedDataManager.t :=
  AdvancedDataManager.mk (Deque.empty 2) 0 0 0 [] 0.

(** The bundle and the analysis result of a frame at time [ts] whose
    differences are all [v]. *)
Definition bundle (v : R) : Dict.ColorDiffs :=
  Dict.mkColorDiffs (Some v) (Some v) (Some v) (Some v) (Some v)
    (Some v) (Some v) (Some v).

Definition result (ts v : R) : Dict.AnalysisResult :=
  Dict.mkAnalysisResult
    (Some (Dict.mkRgb 0 0 0)) (Some (Dict.mkRgb 0 0 0))
    (Some (Dict.mkLab 50 0 0)) (Some (bundle v))
    (Some (Dict.mkRect 0 0 1 1)) (Some 1) (Some 30) (Some false)
    (Some gb.DE_METHOD_CIE76) (Some ts) (Some (3 / 10)).

(** A result whose ['timestamp'] key is absent. *)
Definition result_without_timestamp : Dict.AnalysisResult :=
  Dict.mkAnalysisResult
    (Some (Dict.mkRgb 0 0 0)) (Some (Dict.mkRgb 0 0 0))
    (Some (Dict.mkLab 50 0 0)) (Some (bundle 1))
    (Some (Dict.mkRect 0 0 1 1)) (Some 1) (Some 30) (Some false)
    (Some gb.DE_METHOD_CIE76) None (Some (3 / 10)).

(** The data point that a store created at time 0 derives from [result ts v]. *)
Definition point (ts v : R) : AdvancedDataManager.DataPoint :=
  AdvancedDataManager.mkDataPoint (ts - 0) ts v v v v v v v v
    (Dict.mkLab 50 0 0) (Dict.mkRgb 0 0 0) false 1 gb.DE_METHOD_CIE76.

(** A snapshot of an earlier session, started at time 0, with one point. *)
Definition old_snapshot : AdvancedDataManager.HistoryDict :=
  AdvancedDataManager.mkHistoryDict (Some 0) (Some 5)
    (Some [point 1 2]) (Some gb.VERSION) None.

Definition old_disk : AdvancedDataManager.Disk :=
  AdvancedDataManager.mkDisk (AdvancedDataManager.Stored old_snapshot) true.

Definition blank_disk : AdvancedDataManager.Disk :=
  AdvancedDataManager.mkDisk AdvancedDataManager.Missing true.

(** A store created at time 0 that holds two points. *)
Definition store_ab : AdvancedDataManager.t :=
  AdvancedDataManager.mk
    (Deque.mk [point 1 2; point 3 4] gb.HISTORY_SIZE) 0 2 0 [] 0.

End Fixtures.

(** ** glob_basler_cmd_delta_2v.py: camera, sampling and display settings *)

Module gb_more.

Local Open Scope R_scope.
Local Open Scope string_scope.

Definition DEFAULT_WIDTH : Z := 1600.
Definition DEFAULT_HEIGHT : Z := 1200.
Definition SAFE_RESOLUTION_RATIO : R := 33 / 100.
Definition ALIGNMENT_SIZE : Z := 16.

Definition SAMPLING_INTERVAL : Z := 100.
Definition MIN_SAMPLING_INTERVAL : Z := 10.
Definition MAX_SAMPLING_INTERVAL : Z := 1000.

Definition STATUS_NORMAL : string := "#00AA00".
Definition STATUS_WARNING : string := "#FF8800".
Definition STATUS_ERROR : string := "#FF0000".

Definition WARNING_COOLDOWN : R := 3.
Definition SHOW_WARNING_POPUP : bool := true.

Definition SHOW_FPS : bool := true.
Definition CSV_INCLUDE_HEADERS : bool := true.

(** [ALERT_LEVELS]: the range of each grade; [None] is [float('inf')]. *)
Definition ALERT_LEVELS (g : gb.grade) : R * option R :=
  match g with
  | gb.excellent => (0, Some gb.QUALITY_GRADE_EXCELLENT)
  | gb.good => (gb.QUALITY_GRADE_EXCELLENT, Some gb.QUALITY_GRADE_GOOD)
  | gb.acceptable => (gb.QUALITY_GRADE_GOOD, Some gb.QUALITY_GRADE_ACCEPTABLE)
  | gb.defective => (gb.QUALITY_GRADE_ACCEPTABLE, Some gb.QUALITY_GRADE_DEFECTIVE)
  | gb.out_of_range => (gb.QUALITY_GRADE_DEFECTIVE, None)
  end.

Definition get_color_for_de_value (de_value : R) : string :=
  match gb.get_quality_grade de_value with
  | gb.excellent => STATUS_NORMAL
  | gb.good => STATUS_NORMAL
  | gb.acceptable => STATUS_WARNING
  | gb.defective => STATUS_ERROR
  | gb.out_of_range => STATUS_ERROR
  end.

End gb_more.

(** ** lib_basler_cmd_delta_2v.py: BaslerCameraThread

    The camera is outside the model: what it answers to a call is an
    argument of the method that makes the call. *)

Module BaslerCameraThread.

Local Open Scope R_scope.

Record t : Type := mk {
  running : bool;
  is_connected : bool;
  is_grabbing : bool;
  frame_count : Z;
  error_count : Z;
  last_fps_time : R;
  fps : R;
  sampling_interval : Z;
  apply_processing : bool
}.

Definition __init__ (now : R) : t :=
  {| running := false;
     is_connected := false;
     is_grabbing := false;
     frame_count := 0;
     error_count := 0;
     last_fps_time := now;
     fps := 0;
     sampling_interval := gb_more.SAMPLING_INTERVAL;
     apply_processing := true |}.

Definition set_sampling_interval (self : t) (interval_ms : Z) : t :=
  let interval_ms :=
    Z.max gb_more.MIN_SAMPLING_INTERVAL
      (Z.min interval_ms gb_more.MAX_SAMPLING_INTERVAL) in
  {| running := running self;
     is_connected := is_connected self;
     is_grabbing := is_grabbing self;
     frame_count := frame_count self;
     error_count := error_count self;
     last_fps_time := last_fps_time self;
     fps := fps self;
     sampling_interval := interval_ms;
     apply_processing := apply_processing self |}.

(** The region that [_configure_camera] sets on a sensor of [max_w] by
    [max_h] pixels (lines 158 to 174): width, height, offset x, offset y. *)
Definition safe_size (default_size max_size : Z) : Z :=
  let target := Z.min default_size (Py.int (IZR max_size * gb_more.SAFE_RESOLUTION_RATIO)) in
  (target / gb_more.ALIGNMENT_SIZE * gb_more.ALIGNMENT_SIZE)%Z.

Definition safe_offset (max_size safe : Z) : Z :=
  ((max_size - safe) / 2 / gb_more.ALIGNMENT_SIZE * gb_more.ALIGNMENT_SIZE)%Z.

Definition _configure_camera (max_w max_h : Z) : Z * Z * Z * Z :=
  let safe_width := safe_size gb_more.DEFAULT_WIDTH max_w in
  let safe_height := safe_size gb_more.DEFAULT_HEIGHT max_h in
  let offset_x := safe_offset max_w safe_width in
  let offset_y := safe_offset max_h safe_height in
  (safe_width, safe_height, offset_x, offset_y).

(** [start_grabbing]; [started] tells whether [StartGrabbing] returned
    rather than raised. *)
Definition start_grabbing (self : t) (started : bool) (now : R) : bool * t :=
  if negb (is_connected self) then (false, self)
  else if started then
    (true,
     {| running := running self;
        is_connected := is_connected self;
        is_grabbing := true;
        frame_count := 0;
        error_count := 0;
        last_fps_time := now;
        fps := fps self;
        sampling_interval := sampling_interval self;
        apply_processing := apply_processing self |})
  else (false, self).

(** What [RetrieveResult] answers: a grabbed image (as [grab_frame] returns
    it, converted to BGR), a result that did not succeed, or an exception. *)
Inductive GrabOutcome : Type :=
  | GrabSucceeded (img_array : AdvancedColorAnalyzer.Frame)
  | GrabFailed
  | GrabRaised.

Definition with_error (self : t) : t :=
  {| running := running self;
     is_connected := is_connected self;
     is_grabbing := is_grabbing self;
     frame_count := frame_count self;
     error_count := error_count self + 1;
     last_fps_time := last_fps_time self;
     fps := fps self;
     sampling_interval := sampling_interval self;
     apply_processing := apply_processing self |}.

Definition grab_frame (self : t) (outcome : GrabOutcome) (current_time : R)
    : option AdvancedColorAnalyzer.Frame * t :=
  if negb (is_grabbing self) then (None, self)
  else
    match outcome with
    | GrabSucceeded img_array =>
      let count := (frame_count self + 1)%Z in
      let timed :=
        gb_more.SHOW_FPS && Py.ltb 1 (current_time - last_fps_time self) in
      (Some img_array,
       {| running := running self;
          is_connected := is_connected self;
          is_grabbing := is_grabbing self;
          frame_count := if timed then 0 else count;
          error_count := 0;
          last_fps_time := if timed then current_time else last_fps_time self;
          fps := if timed
                 then IZR count / (current_time - last_fps_time self)
                 else fps self;
          sampling_interval := sampling_interval self;
          apply_processing := apply_processing self |})
    | GrabFailed => (None, with_error self)
    | GrabRaised => (None, with_error self)
    end.

(** A run of [grab_frame] calls, each with the camera's answer and the
    clock reading. *)
Fixpoint grab_all (self : t) (calls : list (GrabOutcome * R)) : t :=
  match calls with
  | [] => self
  | (outcome, current_time) :: rest =>
    grab_all (snd (grab_frame self outcome current_time)) rest
  end.

Definition succeeded (outcome : GrabOutcome) : bool :=
  match outcome with
  | GrabSucceeded _ => true
  | _ => false
  end.

(** The signals that the thread emits. *)
Inductive Signal : Type :=
  | frame_signal (color_image : AdvancedColorAnalyzer.Frame)
  | color_analysis_signal (analysis_result : Dict.AnalysisResult).

(** The pause at the end of an iteration of [run], in milliseconds. *)
Definition wait_time (self : t) : Z :=
  Z.max 1 (Z.min 10 (sampling_interval self / 10)).

(** One iteration of the loop of [run] at [current_time] milliseconds.  The
    analyzer is the object that the thread shares with the user interface;
    [t_fps] and [t_result] are the clock readings of [grab_frame] and of
    [analyze_frame].  The result is the signals emitted, in order, the
    thread, the analyzer and the new [last_sample_time]. *)
Definition run_iteration (self : t)
    (color_analyzer : option AdvancedColorAnalyzer.t)
    (last_sample_time current_time : R) (outcome : GrabOutcome)
    (t_fps t_result : R)
    : list Signal * t * option AdvancedColorAnalyzer.t * R :=
  let time_since_last_sample := current_time - last_sample_time in
  if Py.leb (IZR (sampling_interval self)) time_since_last_sample then
    let '(color_image, self) := grab_frame self outcome t_fps in
    match color_image with
    | Some color_image =>
      match color_analyzer with
      | Some analyzer =>
        if apply_processing self then
          let '(analysis_result, analyzer) :=
            AdvancedColorAnalyzer.analyze_frame analyzer (Some color_image)
              (3 / 10) t_result in
          match analysis_result with
          | Some analysis_result =>
            ([frame_signal color_image; color_analysis_signal analysis_result],
             self, Some analyzer, current_time)
          | None => ([frame_signal color_image], self, Some analyzer, current_time)
          end
        else ([frame_signal color_image], self, Some analyzer, current_time)
      | None => ([frame_signal color_image], self, None, current_time)
      end
    | None => ([], self, color_analyzer, current_time)
    end
  else ([], self, color_analyzer, last_sample_time).

End BaslerCameraThread.

(** ** numpy and Python reductions over lists of floats *)

Module Np.

Local Open Scope R_scope.

Definition sum (l : list R) : R := fold_right Rplus 0 l.

(** [np.mean]. *)
Definition mean (l : list R) : R := sum l / INR (List.length l).

(** [np.std], the population standard deviation. *)
Definition std (l : list R) : R :=
  let m := mean l in
  sqrt (mean (map (fun x => Rabs (x - m) ^ 2) l)).

Fixpoint insert (x : R) (l : list R) : list R :=
  match l with
  | [] => [x]
  | y :: l' => if Py.leb x y then x :: l else y :: insert x l'
  end.

Definition sort (l : list R) : list R := fold_right insert [] l.

(** [np.median]: the middle item of the sorted values, or the mean of the
    two middle ones. *)
Definition median (l : list R) : R :=
  let s := sort l in
  let n := List.length l in
  if Nat.even n
  then (nth (n / 2 - 1) s 0 + nth (n / 2) s 0) / 2
  else nth (n / 2) s 0.

(** [min] and [max] of a list that is not empty. *)
Definition min (l : list R) : R :=
  match l with
  | [] => 0
  | x :: l' => fold_left Rmin l' x
  end.

Definition max (l : list R) : R :=
  match l with
  | [] => 0
  | x :: l' => fold_left Rmax l' x
  end.

(** [l[i:]] for a list and an integer. *)
Definition slice_from {A : Type} (l : list A) (i : Z) : list A :=
  let n := Z.of_nat (List.length l) in
  if (i <? 0)%Z then skipn (Z.to_nat (Z.max 0 (n + i))) l
  else skipn (Z.to_nat i) l.

End Np.

(** ** lib_basler_cmd_delta_2v.py: the queries and reports of
    AdvancedDataManager *)

Module DataReports.

Import AdvancedDataManager.
Local Open Scope R_scope.
Local Open Scope string_scope.

Definition get_recent_data (self : t) (count : option Z)
    (time_window : option R) (now : R) : list DataPoint :=
  let history := Deque.items (history_data self) in
  match history with
  | [] => []
  | _ =>
    match time_window with
    | Some time_window =>
      let current_time := now - start_time self in
      let cutoff_time := current_time - time_window in
      filter (fun dp => Py.leb cutoff_time (time dp)) history
    | None =>
      match count with
      | None => history
      | Some count => Np.slice_from history (- count)
      end
    end
  end.

(** The number of items of a list, as a float. *)
Definition len (l : list R) : R := INR (List.length l).

Definition exceeding (threshold : R) (l : list R) : list R :=
  filter (fun de => Py.ltb threshold (Rabs de)) l.

(** The dictionary that [get_statistics] computes for a history that is not
    empty, its keys in the order of the source. *)
Definition statistics (history : list DataPoint) : list (string * R) :=
  let de_values := map de history in
  let de76_values := map de76 history in
  let de2000_values := map de2000 history in
  let dl_values := map dl history in
  let da_values := map da history in
  let db_values := map db history in
  let recent :=
    if Nat.leb 100 (List.length de_values)
    then Np.slice_from de_values (-100) else de_values in
  [ ("count", len de_values);
    ("time_span",
     match history with
     | first :: _ :: _ => time (last history first) - time first
     | _ => 0
     end);
    ("de_min", Np.min de_values);
    ("de_max", Np.max de_values);
    ("de_mean", Np.mean de_values);
    ("de_std", Np.std de_values);
    ("de_median", Np.median de_values);
    ("de76_mean", Np.mean de76_values);
    ("de76_std", Np.std de76_values);
    ("de2000_mean", Np.mean de2000_values);
    ("de2000_std", Np.std de2000_values);
    ("dl_mean", Np.mean dl_values);
    ("dl_std", Np.std dl_values);
    ("da_mean", Np.mean da_values);
    ("da_std", Np.std da_values);
    ("db_mean", Np.mean db_values);
    ("db_std", Np.std db_values);
    ("warning_count", len (exceeding gb.WARNING_THRESHOLD_DE de_values));
    ("critical_count", len (exceeding gb.CRITICAL_THRESHOLD_DE de_values));
    ("recent_mean", Np.mean recent);
    ("recent_std", Np.std recent) ].

Definition get_statistics (self : t) (refresh : bool) (current_time : R)
    : list (string * R) * t :=
  if negb refresh && Py.ltb 0 (stats_cache_time self)
     && Py.ltb (current_time - stats_cache_time self) 5
  then (stats_cache self, self)
  else
    match Deque.items (history_data self) with
    | [] => ([], self)
    | history =>
      let stats := statistics history in
      (stats,
       {| history_data := history_data self;
          start_time := start_time self;
          save_counter := save_counter self;
          last_save_time := last_save_time self;
          stats_cache := stats;
          stats_cache_time := current_time |})
    end.

(** [stats[key]]. *)
Fixpoint lookup (key : string) (stats : list (string * R)) : option R :=
  match stats with
  | [] => None
  | (k, v) :: rest => if String.eqb k key then Some v else lookup key rest
  end.

(** A value handed to [csv.DictWriter]. *)
Inductive Cell : Type :=
  | Num (x : R)
  | Str (s : string)
  | Flag (b : bool).

Definition fieldnames : list string :=
  [ "time"; "absolute_time"; "de"; "de76"; "de2000";
    "dl"; "da"; "db"; "dc"; "dh";
    "lab_l"; "lab_a"; "lab_b";
    "rgb_r"; "rgb_g"; "rgb_b";
    "calibrated"; "sample_size_cm"; "de_method" ].

(** The row of a data point, its values in the order of [fieldnames]. *)
Definition row (data_point : DataPoint) : list Cell :=
  [ Num (time data_point); Num (absolute_time data_point);
    Num (de data_point); Num (de76 data_point); Num (de2000 data_point);
    Num (dl data_point); Num (da data_point); Num (db data_point);
    Num (dc data_point); Num (dh data_point);
    Num (Dict.l (lab data_point)); Num (Dict.a (lab data_point));
    Num (Dict.b (lab data_point));
    Num (Dict.r (rgb data_point)); Num (Dict.g (rgb data_point));
    Num (Dict.b' (rgb data_point));
    Flag (calibrated data_point); Num (sample_size_cm data_point);
    Str (de_method data_point) ].

(** [export_csv]: the rows written to the file, [None] when nothing is
    written; [can_open] tells whether [open(filename, 'w')] succeeds. *)
Definition export_csv (self : t) (can_open : bool)
    : bool * option (list (list Cell)) :=
  match Deque.items (history_data self) with
  | [] => (false, None)
  | history =>
    if can_open then
      (true,
       Some (((if gb_more.CSV_INCLUDE_HEADERS then [map Str fieldnames] else [])
              ++ map row history)%list))
    else (false, None)
  end.

End DataReports.

(** ** gui_basler_cmd_delta_2.1v.py: the graph widget and the handlers that
    drive the analyzer's history

    Drawing is outside the model.  [DeltaEGraph] saves to [gb.HISTORY_FILE],
    the file of [AdvancedDataManager], a dictionary with the keys
    ['start_time'], ['times'] and ['values']; [HistoryDict] has a field for
    each key that [AdvancedDataManager] reads, so of these three it shows
    ['start_time'] only. *)

Module DeltaEGraph.

Local Open Scope R_scope.

Record t : Type := mk {
  times : Deque.deque R;
  de_values : Deque.deque R;
  start_time : R
}.

Definition save_history (self : t) (disk : AdvancedDataManager.Disk)
    : AdvancedDataManager.Disk :=
  let history_data :=
    AdvancedDataManager.mkHistoryDict (Some (start_time self)) None None None None in
  if AdvancedDataManager.writable disk then
    AdvancedDataManager.mkDisk (AdvancedDataManager.Stored history_data)
      (AdvancedDataManager.writable disk)
  else disk.

Definition add_point (self : t) (disk : AdvancedDataManager.Disk)
    (de_value now : R) : bool * t * AdvancedDataManager.Disk :=
  let current_time := now - start_time self in
  let self :=
    {| times := Deque.append (times self) current_time;
       de_values := Deque.append (de_values self) de_value;
       start_time := start_time self |} in
  let disk :=
    if (Z.of_nat (Deque.len (de_values self)) mod gb.HISTORY_AUTO_SAVE_INTERVAL =? 0)%Z
    then save_history self disk else disk in
  let grade := gb.get_quality_grade de_value in
  (match grade with
   | gb.defective | gb.out_of_range => true
   | _ => false
   end, self, disk).

End DeltaEGraph.

Module ColorAnalyzerTab.

Local Open Scope R_scope.

Record t : Type := mk {
  data_manager : AdvancedDataManager.t;
  de_graph : DeltaEGraph.t;
  last_warning_time : R;
  warning_cooldown : R;
  current_analysis : option Dict.AnalysisResult;
  current_lab_values : option (list R)
}.

(** [process_color_analysis].  [t_save] and [t_done] are the clock readings
    of the store's automatic save, [t_point] that of the graph and [t_warn]
    that of the warning.  The first component is the value shown in a
    warning box, when one is shown.  A [KeyError] ends the handler where it
    is raised and keeps what was assigned before. *)
Definition process_color_analysis (self : t) (disk : AdvancedDataManager.Disk)
    (analysis_result : option Dict.AnalysisResult)
    (t_save t_done t_point t_warn : R)
    : option R * t * AdvancedDataManager.Disk :=
  match analysis_result with
  | None => (None, self, disk)
  | Some analysis_result =>
    let self :=
      {| data_manager := data_manager self;
         de_graph := de_graph self;
         last_warning_time := last_warning_time self;
         warning_cooldown := warning_cooldown self;
         current_analysis := Some analysis_result;
         current_lab_values := current_lab_values self |} in
    match Dict.lab analysis_result with
    | None => (None, self, disk)
    | Some lab =>
      let self :=
        {| data_manager := data_manager self;
           de_graph := de_graph self;
           last_warning_time := last_warning_time self;
           warning_cooldown := warning_cooldown self;
           current_analysis := current_analysis self;
           current_lab_values := Some [Dict.l lab; Dict.a lab; Dict.b lab] |} in
      let '(_, manager, disk) :=
        AdvancedDataManager.add_data_point (data_manager self) disk
          (Some analysis_result) t_save t_done in
      let self :=
        {| data_manager := manager;
           de_graph := de_graph self;
           last_warning_time := last_warning_time self;
           warning_cooldown := warning_cooldown self;
           current_analysis := current_analysis self;
           current_lab_values := current_lab_values self |} in
      match AdvancedDataManager.bind (Dict.color_diffs analysis_result) Dict.de with
      | None => (None, self, disk)
      | Some de_value =>
        let '(is_warning, graph, disk) :=
          DeltaEGraph.add_point (de_graph self) disk de_value t_point in
        let shown :=
          is_warning && gb_more.SHOW_WARNING_POPUP
          && Py.ltb (warning_cooldown self) (t_warn - last_warning_time self) in
        (if shown then Some de_value else None,
         {| data_manager := data_manager self;
            de_graph := graph;
            last_warning_time :=
              if shown then t_warn else last_warning_time self;
            warning_cooldown := warning_cooldown self;
            current_analysis := current_analysis self;
            current_lab_values := current_lab_values self |},
         disk)
      end
    end
  end.

End ColorAnalyzerTab.

Module MainWindow.

(** The two saves of [closeEvent], in its order: the store, then the graph. *)
Definition closeEvent (tab : ColorAnalyzerTab.t)
    (disk : AdvancedDataManager.Disk) (t_save t_done : R)
    : ColorAnalyzerTab.t * AdvancedDataManager.Disk :=
  let '(_, manager, disk) :=
    AdvancedDataManager.save_history (ColorAnalyzerTab.data_manager tab) disk
      t_save t_done in
  let disk := DeltaEGraph.save_history (ColorAnalyzerTab.de_graph tab) disk in
  ({| ColorAnalyzerTab.data_manager := manager;
      ColorAnalyzerTab.de_graph := ColorAnalyzerTab.de_graph tab;
      ColorAnalyzerTab.last_warning_time := ColorAnalyzerTab.last_warning_time tab;
      ColorAnalyzerTab.warning_cooldown := ColorAnalyzerTab.warning_cooldown tab;
      ColorAnalyzerTab.current_analysis := ColorAnalyzerTab.current_analysis tab;
      ColorAnalyzerTab.current_lab_values := ColorAnalyzerTab.current_lab_values tab |},
   disk).

End MainWindow.

(** ** A session of an analyzer: the calls that reach it from the user
    interface and from the camera thread *)

Module AnalyzerSession.

Inductive Call : Type :=
  | SetSampleSize (size_cm : R)
  | Calibrate (lab_value : list R)
  | ResetCalibration
  | SetMethod (method : string)
  | AnalyzeFrame (frame : option AdvancedColorAnalyzer.Frame)
                 (depth_meters now : R).

(** [update_de_method] of the user interface assigns [de_method]. *)
Definition set_method (self : AdvancedColorAnalyzer.t) (method : string)
    : AdvancedColorAnalyzer.t :=
  AdvancedColorAnalyzer.mk
    (AdvancedColorAnalyzer.reference_lab self)
    (AdvancedColorAnalyzer.calibration_lab self)
    (AdvancedColorAnalyzer.is_calibrated self)
    (AdvancedColorAnalyzer.sample_size_cm self)
    (AdvancedColorAnalyzer.pixels_per_cm self)
    method.

Definition step (self : AdvancedColorAnalyzer.t) (c : Call)
    : AdvancedColorAnalyzer.t :=
  match c with
  | SetSampleSize size_cm =>
      snd (AdvancedColorAnalyzer.set_sample_size self size_cm)
  | Calibrate lab_value => snd (AdvancedColorAnalyzer.calibrate self lab_value)
  | ResetCalibration => AdvancedColorAnalyzer.reset_calibration self
  | SetMethod method => set_method self method
  | AnalyzeFrame frame depth_meters now =>
      snd (AdvancedColorAnalyzer.analyze_frame self frame depth_meters now)
  end.

Definition run (self : AdvancedColorAnalyzer.t) (calls : list Call)
    : AdvancedColorAnalyzer.t :=
  fold_left step calls self.

End AnalyzerSession.

(** ** A session of a history store: the calls that reach it, and what a
    store and its file keep through them *)

Module StoreSession.

Import AdvancedDataManager.
Local Open Scope R_scope.

Inductive Call : Type :=
  | AddDataPoint (analysis_result : option Dict.AnalysisResult) (t_save t_done : R)
  | SaveHistory (t_save t_done : R)
  | LoadHistory
  | ClearHistory (now : R)
  | GetStatistics (refresh : bool) (current_time : R).

Definition step (state : t * Disk) (c : Call) : t * Disk :=
  let '(self, disk) := state in
  match c with
  | AddDataPoint analysis_result t_save t_done =>
      let '(_, self, disk) :=
        add_data_point self disk analysis_result t_save t_done in
      (self, disk)
  | SaveHistory t_save t_done =>
      let '(_, self, disk) := save_history self disk t_save t_done in
      (self, disk)
  | LoadHistory => (snd (load_history self disk), disk)
  | ClearHistory now => (clear_history self now, disk)
  | GetStatistics refresh current_time =>
      (snd (DataReports.get_statistics self refresh current_time), disk)
  end.

Definition run (state : t * Disk) (calls : list Call) : t * Disk :=
  fold_left step calls state.

(** A point's ['time'] is its ['absolute_time'] counted from [start]. *)
Definition timed (start : R) (data_point : DataPoint) : Prop :=
  time data_point = absolute_time data_point - start.

(** A file whose points, when it has any, are timed from the start time it
    records. *)
Definition disk_ok (disk : Disk) : Prop :=
  match file disk with
  | Stored h =>
    match hd_data h with
    | Some points =>
      exists start, hd_start_time h = Some start /\ Forall (timed start) points
    | None => True
    end
  | _ => True
  end.

Definition store_ok (self : t) : Prop :=
  bounded self /\
  Deque.maxlen (history_data self) = gb.HISTORY_SIZE /\
  (0 <= save_counter self < gb.HISTORY_AUTO_SAVE_INTERVAL)%Z /\
  Forall (timed (start_time self)) (Deque.items (history_data self)).

End StoreSession.

(** ** Further concrete inputs *)

Module Fixtures2.

Local Open Scope R_scope.

(** The analyzer after [set_sample_size(0.1)]. *)
Definition analyzer_1mm : AdvancedColorAnalyzer.t :=
  AdvancedColorAnalyzer.mk gb.REFERENCE_LAB None false (1 / 10) 50
    gb.DEFAULT_DE_METHOD.

(** A 100 by 100 frame whose OpenCV LAB mean is (255, 128, 128) everywhere:
    white. *)
Definition frame_white : AdvancedColorAnalyzer.Frame :=
  AdvancedColorAnalyzer.mkFrame 100 100
    (fun _ => (255, 255, 255)) (fun _ => (255, 128, 128)).

(** The graph widget as its constructor leaves it when created at time 0
    with nothing to load, and the tab that holds it next to a store created
    at the same time. *)
Definition graph_0 : DeltaEGraph.t :=
  DeltaEGraph.mk (Deque.empty gb.HISTORY_SIZE) (Deque.empty gb.HISTORY_SIZE) 0.

Definition tab_0 : ColorAnalyzerTab.t :=
  ColorAnalyzerTab.mk (AdvancedDataManager.fresh 0 0) graph_0 0
    gb_more.WARNING_COOLDOWN None None.

(** The tab with the two points of [Fixtures.store_ab] in its store. *)
Definition tab_ab : ColorAnalyzerTab.t :=
  ColorAnalyzerTab.mk Fixtures.store_ab graph_0 0
    gb_more.WARNING_COOLDOWN None None.

(** A graph that holds as many values as its capacity allows. *)
Definition graph_full : DeltaEGraph.t :=
  DeltaEGraph.mk (Deque.mk (repeat 0 1000) gb.HISTORY_SIZE)
    (Deque.mk (repeat 0 1000) gb.HISTORY_SIZE) 0.

End Fixtures2.

(** * Properties *)

Local Open Scope R_scope.

(** ** Comparisons *)

Lemma leb_true_iff (x y : R) : Py.leb x y = true <-> x <= y.
Proof. unfold Py.leb; destruct (Rle_dec x y); split; intros; auto; discriminate. Qed.

Lemma leb_false_iff (x y : R) : Py.leb x y = false <-> y < x.
Proof.
  unfold Py.leb; destruct (Rle_dec x y); split; intros; auto; try discriminate; lra.
Qed.

Lemma ltb_true_iff (x y : R) : Py.ltb x y = true <-> x < y.
Proof. unfold Py.ltb; destruct (Rlt_dec x y); split; intros; auto; discriminate. Qed.

Lemma ltb_false_iff (x y : R) : Py.ltb x y = false <-> y <= x.
Proof.
  unfold Py.ltb; destruct (Rlt_dec x y); split; intros; auto; try discriminate; lra.
Qed.

Lemma eqb_true_iff (x y : R) : Py.eqb x y = true <-> x = y.
Proof. unfold Py.eqb; destruct (Req_dec_T x y); split; intros; auto; discriminate. Qed.

Lemma eqb_false_iff (x y : R) : Py.eqb x y = false <-> x <> y.
Proof.
  unfold Py.eqb; destruct (Req_dec_T x y); split; intros; auto; try discriminate; tauto.
Qed.

Lemma eqb_refl (x : R) : Py.eqb x x = true.
Proof. now apply eqb_true_iff. Qed.

(** Case analysis on one comparison, the outcome kept as an inequality. *)
Ltac cmp_cases x y :=
  let H := fresh "Hcmp" in
  match goal with
  | |- context [Py.leb x y] =>
      destruct (Py.leb x y) eqn:H;
      [ apply leb_true_iff in H | apply leb_false_iff in H ]
  | |- context [Py.ltb x y] =>
      destruct (Py.ltb x y) eqn:H;
      [ apply ltb_true_iff in H | apply ltb_false_iff in H ]
  | |- context [Py.eqb x y] =>
      destruct (Py.eqb x y) eqn:H;
      [ apply eqb_true_iff in H | apply eqb_false_iff in H ]
  end.

(** ** Truncation and rounding *)

Lemma Int_part_IZR (z : Z) : Int_part (IZR z) = z.
Proof.
  unfold Int_part.
  assert (H : (z + 1)%Z = up (IZR z)).
  { apply tech_up; rewrite plus_IZR; lra. }
  rewrite <- H; lia.
Qed.

Lemma int_IZR (z : Z) : (0 <= z)%Z -> Py.int (IZR z) = z.
Proof.
  intros Hz; unfold Py.int.
  assert (H : Py.leb 0 (IZR z) = true) by (apply leb_true_iff, IZR_le, Hz).
  rewrite H; apply Int_part_IZR.
Qed.

Lemma int_nonneg (x : R) : 0 <= x -> (0 <= Py.int x)%Z.
Proof.
  intros Hx; unfold Py.int.
  assert (H : Py.leb 0 x = true) by now apply leb_true_iff.
  rewrite H.
  destruct (base_Int_part x) as [_ Hlo].
  assert (Hz : IZR (-1) < IZR (Int_part x)) by lra.
  apply lt_IZR in Hz; lia.
Qed.

(** ** The quality classifier *)

(** C3.  [get_quality_grade] is total and classifies the absolute value of
    its argument against 1.0, 2.0, 3.0 and 5.0, a boundary value taking the
    lower grade; each real number gets the one grade of its interval, and
    1.0, 1.0001, 3.0, 3.0001, 5.0 and 5.0001 are graded excellent, good,
    acceptable, defective, defective and out of range. *)
Theorem get_quality_grade_thresholds :
  (forall de_value : R,
     (gb.get_quality_grade de_value = gb.excellent <-> Rabs de_value <= 1) /\
     (gb.get_quality_grade de_value = gb.good <-> 1 < Rabs de_value <= 2) /\
     (gb.get_quality_grade de_value = gb.acceptable <-> 2 < Rabs de_value <= 3) /\
     (gb.get_quality_grade de_value = gb.defective <-> 3 < Rabs de_value <= 5) /\
     (gb.get_quality_grade de_value = gb.out_of_range <-> 5 < Rabs de_value)) /\
  gb.get_quality_grade 1 = gb.excellent /\
  gb.get_quality_grade (10001 / 10000) = gb.good /\
  gb.get_quality_grade 3 = gb.acceptable /\
  gb.get_quality_grade (30001 / 10000) = gb.defective /\
  gb.get_quality_grade 5 = gb.defective /\
  gb.get_quality_grade (50001 / 10000) = gb.out_of_range.
Proof.
  assert (Hall : forall de_value : R,
     (gb.get_quality_grade de_value = gb.excellent <-> Rabs de_value <= 1) /\
     (gb.get_quality_grade de_value = gb.good <-> 1 < Rabs de_value <= 2) /\
     (gb.get_quality_grade de_value = gb.acceptable <-> 2 < Rabs de_value <= 3) /\
     (gb.get_quality_grade de_value = gb.defective <-> 3 < Rabs de_value <= 5) /\
     (gb.get_quality_grade de_value = gb.out_of_range <-> 5 < Rabs de_value)).
  { intros x; unfold gb.get_quality_grade, gb.QUALITY_GRADE_EXCELLENT,
      gb.QUALITY_GRADE_GOOD, gb.QUALITY_GRADE_ACCEPTABLE, gb.QUALITY_GRADE_DEFECTIVE.
    cmp_cases (Rabs x) 1; [|cmp_cases (Rabs x) 2; [|cmp_cases (Rabs x) 3;
      [|cmp_cases (Rabs x) 5]]];
    repeat split; intros; try discriminate; try lra; try reflexivity. }
  split; [exact Hall|].
  repeat split.
  - apply (Hall 1); rewrite Rabs_pos_eq; lra.
  - apply (Hall (10001 / 10000)); rewrite Rabs_pos_eq; lra.
  - apply (Hall 3); rewrite Rabs_pos_eq; lra.
  - apply (Hall (30001 / 10000)); rewrite Rabs_pos_eq; lra.
  - apply (Hall 5); rewrite Rabs_pos_eq; lra.
  - apply (Hall (50001 / 10000)); rewrite Rabs_pos_eq; lra.
Qed.

(** ** The analyzer's sample size *)

(** C7.  [set_sample_size] returns [False] and leaves the analyzer as it was
    for an argument below 0.1 or above 5.0, and for an argument within
    [0.1, 5.0] it returns [True] and stores the argument as the sample size,
    changing nothing else. *)
Theorem set_sample_size_bounds :
  forall (self : AdvancedColorAnalyzer.t) (size_cm : R),
    (size_cm < 1 / 10 \/ 5 < size_cm ->
       AdvancedColorAnalyzer.set_sample_size self size_cm = (false, self)) /\
    (1 / 10 <= size_cm <= 5 ->
       AdvancedColorAnalyzer.set_sample_size self size_cm =
         (true,
          AdvancedColorAnalyzer.mk
            (AdvancedColorAnalyzer.reference_lab self)
            (AdvancedColorAnalyzer.calibration_lab self)
            (AdvancedColorAnalyzer.is_calibrated self)
            size_cm
            (AdvancedColorAnalyzer.pixels_per_cm self)
            (AdvancedColorAnalyzer.de_method self))).
Proof.
  intros self size_cm.
  unfold AdvancedColorAnalyzer.set_sample_size,
    gb.MIN_SAMPLE_SIZE_CM, gb.MAX_SAMPLE_SIZE_CM.
  split; intros H.
  - cmp_cases (1 / 10) size_cm; [cmp_cases size_cm 5|]; simpl;
      try reflexivity; lra.
  - cmp_cases (1 / 10) size_cm; [cmp_cases size_cm 5|]; simpl;
      try reflexivity; lra.
Qed.

(** The arguments 0.05 and 6.0 are rejected and 2.5 is accepted. *)
Lemma set_sample_size_bounds_witness :
  AdvancedColorAnalyzer.set_sample_size AdvancedColorAnalyzer.__init__ (5 / 100)
    = (false, AdvancedColorAnalyzer.__init__) /\
  AdvancedColorAnalyzer.set_sample_size AdvancedColorAnalyzer.__init__ 6
    = (false, AdvancedColorAnalyzer.__init__) /\
  AdvancedColorAnalyzer.set_sample_size AdvancedColorAnalyzer.__init__ (25 / 10)
    = (true,
       AdvancedColorAnalyzer.mk gb.REFERENCE_LAB None false (25 / 10) 50
         gb.DEFAULT_DE_METHOD).
Proof.
  split; [|split].
  - apply (proj1 (set_sample_size_bounds AdvancedColorAnalyzer.__init__ (5 / 100))).
    left; lra.
  - apply (proj1 (set_sample_size_bounds AdvancedColorAnalyzer.__init__ 6)).
    right; lra.
  - apply (proj2 (set_sample_size_bounds AdvancedColorAnalyzer.__init__ (25 / 10))).
    lra.
Defined.

(** ** The sampling rectangle *)

Lemma calculate_pixels_per_cm_pos (depth : R) :
  10 <= AdvancedColorAnalyzer.calculate_pixels_per_cm depth.
Proof. unfold AdvancedColorAnalyzer.calculate_pixels_per_cm; apply Rmax_l. Qed.

Lemma calculate_pixels_per_cm_default :
  AdvancedColorAnalyzer.calculate_pixels_per_cm (3 / 10) = 30.
Proof.
  unfold AdvancedColorAnalyzer.calculate_pixels_per_cm.
  cmp_cases (3 / 10) 0; [lra|].
  replace (30 * (3 / 10 / (3 / 10))) with 30 by (field; lra).
  apply Rmax_right; lra.
Qed.

(** What [analyze_frame] returns for a frame of positive area: a result whose
    sampling area is [sampling_bounds] at the truncated pixel size. *)
Lemma analyze_frame_area
    (self : AdvancedColorAnalyzer.t) (frame : AdvancedColorAnalyzer.Frame)
    (depth now : R) :
  (0 < AdvancedColorAnalyzer.width frame)%Z ->
  (0 < AdvancedColorAnalyzer.height frame)%Z ->
  exists r : Dict.AnalysisResult,
    fst (AdvancedColorAnalyzer.analyze_frame self (Some frame) depth now) = Some r /\
    Dict.sampling_area r =
      Some (AdvancedColorAnalyzer.sampling_bounds
              (AdvancedColorAnalyzer.width frame)
              (AdvancedColorAnalyzer.height frame)
              (Py.int (AdvancedColorAnalyzer.sample_size_cm self
                       * AdvancedColorAnalyzer.calculate_pixels_per_cm depth))).
Proof.
  intros Hw Hh.
  unfold AdvancedColorAnalyzer.analyze_frame.
  assert (Hsz : (AdvancedColorAnalyzer.size frame =? 0)%Z = false).
  { apply Z.eqb_neq; unfold AdvancedColorAnalyzer.size; nia. }
  rewrite Hsz; cbn [AdvancedColorAnalyzer.sample_size_cm
                    AdvancedColorAnalyzer.pixels_per_cm].
  destruct (AdvancedColorAnalyzer.mean_bgr frame _) as [[avg_b avg_g] avg_r].
  destruct (AdvancedColorAnalyzer.mean_lab frame _) as [[avg_l avg_a] avg_b'].
  cbn.
  eexists; split; reflexivity.
Qed.

Lemma sampling_bounds_inside (w h p : Z) :
  (0 < w)%Z -> (0 < h)%Z -> (0 <= p)%Z ->
  let area := AdvancedColorAnalyzer.sampling_bounds w h p in
  (0 <= Dict.x1 area <= Dict.x2 area)%Z /\ (Dict.x2 area <= w)%Z /\
  (0 <= Dict.y1 area <= Dict.y2 area)%Z /\ (Dict.y2 area <= h)%Z.
Proof.
  intros Hw Hh Hp; cbn.
  assert (0 <= w / 2 <= w)%Z by (split; [apply Z.div_pos; lia | apply Z.div_le_upper_bound; lia]).
  assert (0 <= h / 2 <= h)%Z by (split; [apply Z.div_pos; lia | apply Z.div_le_upper_bound; lia]).
  assert (0 <= p / 2)%Z by (apply Z.div_pos; lia).
  lia.
Qed.

(** C4, as the code has it.  For a frame of positive width and height and a
    sample size that is not negative, [analyze_frame] returns a result whose
    sampling area is centred on [(width // 2, height // 2)] with half side
    [h = int(sample_size_cm * pixels_per_cm) // 2], each bound clamped on its
    own ([x1], [y1] from below at 0, [x2], [y2] from above at the dimension),
    so the area lies within the frame; the side before clamping is [2 * h],
    the pixel size itself when that is even and one less when it is odd; a
    side of 300 on a 100 by 100 frame gives (0,0)-(100,100). *)
Theorem analyze_frame_sampling_area :
  forall (self : AdvancedColorAnalyzer.t) (frame : AdvancedColorAnalyzer.Frame)
         (depth now : R),
    (0 < AdvancedColorAnalyzer.width frame)%Z ->
    (0 < AdvancedColorAnalyzer.height frame)%Z ->
    0 <= AdvancedColorAnalyzer.sample_size_cm self ->
    let w := AdvancedColorAnalyzer.width frame in
    let h := AdvancedColorAnalyzer.height frame in
    let p := Py.int (AdvancedColorAnalyzer.sample_size_cm self
                     * AdvancedColorAnalyzer.calculate_pixels_per_cm depth) in
    let half := (p / 2)%Z in
    (exists (r : Dict.AnalysisResult) (area : Dict.Rect),
       fst (AdvancedColorAnalyzer.analyze_frame self (Some frame) depth now) = Some r /\
       Dict.sampling_area r = Some area /\
       Dict.x1 area = Z.max 0 (w / 2 - half) /\
       Dict.y1 area = Z.max 0 (h / 2 - half) /\
       Dict.x2 area = Z.min w (w / 2 + half) /\
       Dict.y2 area = Z.min h (h / 2 + half) /\
       (0 <= Dict.x1 area <= Dict.x2 area)%Z /\ (Dict.x2 area <= w)%Z /\
       (0 <= Dict.y1 area <= Dict.y2 area)%Z /\ (Dict.y2 area <= h)%Z /\
       (half <= w / 2 -> Dict.x2 area - Dict.x1 area = 2 * half)%Z /\
       (half <= h / 2 -> Dict.y2 area - Dict.y1 area = 2 * half)%Z) /\
    (0 <= p)%Z /\
    (2 * half = if Z.even p then p else p - 1)%Z /\
    AdvancedColorAnalyzer.sampling_bounds 100 100 300 = Dict.mkRect 0 0 100 100.
Proof.
  intros self frame depth now Hw Hh Hs w h p half.
  assert (Hp : (0 <= p)%Z).
  { apply int_nonneg.
    pose proof (calculate_pixels_per_cm_pos depth).
    apply Rmult_le_pos; lra. }
  assert (Hhalf : (0 <= half)%Z) by (apply Z.div_pos; lia).
  split; [|split; [exact Hp|split]].
  - destruct (analyze_frame_area self frame depth now Hw Hh) as [r [Hr Ha]].
    exists r; eexists; split; [exact Hr|split; [exact Ha|]].
    fold w h p.
    pose proof (sampling_bounds_inside w h p Hw Hh Hp) as Hin.
    unfold AdvancedColorAnalyzer.sampling_bounds in Hin |- *;
    cbn [Dict.x1 Dict.y1 Dict.x2 Dict.y2] in Hin |- *; fold half in Hin |- *.
    assert (0 <= w / 2 <= w)%Z
      by (split; [apply Z.div_pos; lia | apply Z.div_le_upper_bound; lia]).
    assert (0 <= h / 2 <= h)%Z
      by (split; [apply Z.div_pos; lia | apply Z.div_le_upper_bound; lia]).
    assert (2 * (w / 2) <= w)%Z by (apply Z.mul_div_le; lia).
    assert (2 * (h / 2) <= h)%Z by (apply Z.mul_div_le; lia).
    repeat split; try reflexivity; try lia.
  - unfold half.
    pose proof (Z.div_mod p 2 ltac:(lia)) as Hdm.
    rewrite Zmod_even in Hdm.
    destruct (Z.even p); lia.
  - reflexivity.
Qed.

(** The default analyzer on a 100 by 100 frame at 30 cm. *)
Lemma analyze_frame_sampling_area_witness :
  exists (r : Dict.AnalysisResult) (area : Dict.Rect),
    fst (AdvancedColorAnalyzer.analyze_frame AdvancedColorAnalyzer.__init__
           (Some Fixtures.frame_100) (3 / 10) 0) = Some r /\
    Dict.sampling_area r = Some area /\
    (0 <= Dict.x1 area <= Dict.x2 area)%Z /\ (Dict.x2 area <= 100)%Z /\
    (0 <= Dict.y1 area <= Dict.y2 area)%Z /\ (Dict.y2 area <= 100)%Z.
Proof.
  destruct (analyze_frame_sampling_area AdvancedColorAnalyzer.__init__
              Fixtures.frame_100 (3 / 10) 0) as [[r [area H]] _].
  - cbn; lia.
  - cbn; lia.
  - cbn; unfold gb.DEFAULT_SAMPLE_SIZE_CM; lra.
  - exists r, area.
    destruct H as (H1 & H2 & _ & _ & _ & _ & H3 & H4 & H5 & H6 & _).
    repeat split; solve [apply H1 | apply H2 | apply H3 | apply H4 | apply H5 | apply H6].
Defined.

(** C4 as stated fails where the pixel size is odd: with a sample size of
    0.5 cm at 30 pixels per cm the requested side is 15, and on a 100 by 100
    frame, where nothing is clamped, the area is (43,43)-(57,57), of side 14. *)
Lemma sampling_side_counterexample :
  exists (r : Dict.AnalysisResult) (area : Dict.Rect),
    fst (AdvancedColorAnalyzer.analyze_frame Fixtures.analyzer_half_cm
           (Some Fixtures.frame_100) (3 / 10) 0) = Some r /\
    Dict.sampling_area r = Some area /\
    area = Dict.mkRect 43 43 57 57 /\
    AdvancedColorAnalyzer.sample_size_cm Fixtures.analyzer_half_cm
      * AdvancedColorAnalyzer.calculate_pixels_per_cm (3 / 10) = 15 /\
    IZR (Dict.x2 area - Dict.x1 area) <> 15.
Proof.
  destruct (analyze_frame_area Fixtures.analyzer_half_cm Fixtures.frame_100
              (3 / 10) 0) as [r [Hr Ha]]; [cbn; lia | cbn; lia |].
  assert (Hside : AdvancedColorAnalyzer.sample_size_cm Fixtures.analyzer_half_cm
                  * AdvancedColorAnalyzer.calculate_pixels_per_cm (3 / 10) = 15).
  { rewrite calculate_pixels_per_cm_default; cbn; lra. }
  rewrite Hside, int_IZR in Ha by lia.
  exists r, (Dict.mkRect 43 43 57 57).
  split; [exact Hr|split; [exact Ha|split; [reflexivity|split; [exact Hside|]]]].
  cbn; lra.
Qed.

(** ** Bounded deques *)

Section DequeFacts.

Context {A : Type}.
Implicit Types (l : list A) (d : Deque.deque A) (n : nat).

Lemma lastn_all n l : (List.length l <= n)%nat -> Deque.lastn n l = l.
Proof.
  intros H; unfold Deque.lastn.
  replace (List.length l - n)%nat with 0%nat by lia; reflexivity.
Qed.

Lemma lastn_length n l : List.length (Deque.lastn n l) = Nat.min n (List.length l).
Proof. unfold Deque.lastn; rewrite length_skipn; lia. Qed.

Lemma lastn_app_lastn n l1 l2 :
  Deque.lastn n (Deque.lastn n l1 ++ l2) = Deque.lastn n (l1 ++ l2).
Proof.
  unfold Deque.lastn.
  set (k := (List.length l1 - n)%nat).
  assert (Hk : skipn k l1 ++ l2 = skipn k (l1 ++ l2)).
  { rewrite skipn_app.
    replace (k - List.length l1)%nat with 0%nat by (unfold k; lia).
    reflexivity. }
  rewrite Hk, skipn_skipn, length_skipn, length_app.
  f_equal; unfold k; lia.
Qed.

Lemma append_maxlen d (x : A) : Deque.maxlen (Deque.append d x) = Deque.maxlen d.
Proof. reflexivity. Qed.

Lemma append_items d (x : A) :
  (List.length (Deque.items d) <= Deque.maxlen d)%nat ->
  Deque.items (Deque.append d x) =
    Deque.lastn (Deque.maxlen d) (Deque.items d ++ [x]).
Proof.
  intros H; unfold Deque.append, Deque.lastn; cbn [Deque.items].
  rewrite length_app; cbn [List.length].
  destruct (Nat.ltb_spec (Deque.maxlen d) (List.length (Deque.items d) + 1)) as [Hlt|Hge].
  - replace (List.length (Deque.items d) + 1 - Deque.maxlen d)%nat with 1%nat by lia.
    reflexivity.
  - replace (List.length (Deque.items d) + 1 - Deque.maxlen d)%nat with 0%nat by lia.
    reflexivity.
Qed.

Lemma append_bounded d (x : A) :
  (List.length (Deque.items d) <= Deque.maxlen d)%nat ->
  (List.length (Deque.items (Deque.append d x)) <= Deque.maxlen d)%nat.
Proof. intros H; rewrite append_items, lastn_length by exact H; lia. Qed.

(** Appending a whole list keeps the last [maxlen] items, in order. *)
Lemma fold_append {B : Type} (f : B -> A) (xs : list B) d :
  (List.length (Deque.items d) <= Deque.maxlen d)%nat ->
  let d' := fold_left (fun h x => Deque.append h (f x)) xs d in
  Deque.maxlen d' = Deque.maxlen d /\
  Deque.items d' = Deque.lastn (Deque.maxlen d) (Deque.items d ++ map f xs).
Proof.
  revert d; induction xs as [|x xs IH]; intros d H; cbn [fold_left map].
  - split; [reflexivity|]. rewrite app_nil_r, lastn_all; auto.
  - destruct (IH (Deque.append d (f x))) as [Hm Hi].
    + rewrite append_maxlen; apply append_bounded, H.
    + cbv zeta. rewrite Hm, Hi, append_maxlen, append_items by exact H.
      split; [reflexivity|].
      rewrite lastn_app_lastn, <- app_assoc; reflexivity.
Qed.

End DequeFacts.

(** ** The history store *)

Section HistoryStore.

Import AdvancedDataManager.

Lemma data_point_of_start_time (s1 s2 : AdvancedDataManager.t) r :
  start_time s1 = start_time s2 -> data_point_of s1 r = data_point_of s2 r.
Proof. intros H; unfold data_point_of; rewrite H; reflexivity. Qed.

Lemma save_history_frame (self : AdvancedDataManager.t) disk t_save t_done :
  history_data (snd (fst (save_history self disk t_save t_done))) = history_data self /\
  start_time (snd (fst (save_history self disk t_save t_done))) = start_time self.
Proof.
  unfold save_history.
  destruct (Nat.eqb _ 0); [split; reflexivity|].
  destruct (writable disk); split; reflexivity.
Qed.

Lemma add_data_point_some (self : AdvancedDataManager.t) disk r dp t_save t_done :
  data_point_of self r = Some dp ->
  fst (fst (add_data_point self disk (Some r) t_save t_done)) = true /\
  history_data (snd (fst (add_data_point self disk (Some r) t_save t_done)))
    = Deque.append (history_data self) dp /\
  start_time (snd (fst (add_data_point self disk (Some r) t_save t_done)))
    = start_time self.
Proof.
  intros H; unfold add_data_point; rewrite H.
  cbn [save_counter].
  destruct (gb.HISTORY_AUTO_SAVE_INTERVAL <=? save_counter self + 1)%Z.
  - match goal with
    | |- context [save_history ?s ?d ?a ?b] =>
        pose proof (save_history_frame s d a b) as [Hh Hs];
        destruct (save_history s d a b) as [[ok s'] d']
    end.
    cbn in Hh, Hs |- *. rewrite Hh, Hs. repeat split.
  - repeat split.
Qed.

Lemma add_data_point_failed (self : AdvancedDataManager.t) disk r t_save t_done :
  data_point_of self r = None ->
  add_data_point self disk (Some r) t_save t_done = (false, self, disk).
Proof. intros H; unfold add_data_point; rewrite H; reflexivity. Qed.

Lemma add_all_history calls : forall (s0 self : AdvancedDataManager.t) disk,
  start_time self = start_time s0 ->
  bounded self ->
  Deque.maxlen (history_data (fst (add_all self disk calls)))
    = Deque.maxlen (history_data self) /\
  Deque.items (history_data (fst (add_all self disk calls)))
    = Deque.lastn (Deque.maxlen (history_data self))
        (Deque.items (history_data self) ++ points_of s0 calls).
Proof.
  induction calls as [|[[ar t_save] t_done] calls IH]; intros s0 self disk Hst Hb.
  - cbn. split; [reflexivity|]. rewrite app_nil_r, lastn_all; auto.
  - cbn [add_all points_of flat_map fst].
    fold (points_of s0 calls).
    destruct ar as [r|]; [|cbn [add_data_point app]; apply IH; assumption].
    rewrite <- (data_point_of_start_time self s0 r Hst).
    destruct (data_point_of self r) as [dp|] eqn:Hdp;
      [|rewrite (add_data_point_failed _ _ _ _ _ Hdp); cbn [app];
        apply IH; assumption].
    destruct (add_data_point_some self disk r _ t_save t_done Hdp) as (_ & Hh & Hs).
    destruct (add_data_point self disk (Some r) t_save t_done) as [[ok self'] disk'].
    cbn in Hh, Hs.
    destruct (IH s0 self' disk') as [Hm Hi]; [congruence| |].
    + unfold bounded; rewrite Hh, append_maxlen; apply append_bounded, Hb.
    + rewrite Hm, Hi, Hh, append_maxlen, append_items by exact Hb.
      split; [reflexivity|].
      rewrite lastn_app_lastn, <- app_assoc; reflexivity.
Qed.

Lemma load_history_stored (self : AdvancedDataManager.t) disk h l :
  file disk = Stored h -> hd_data h = Some l -> bounded self ->
  let off := start_time self
             - match hd_start_time h with Some s => s | None => start_time self end in
  fst (load_history self disk) = true /\
  Deque.maxlen (history_data (snd (load_history self disk)))
    = Deque.maxlen (history_data self) /\
  Deque.items (history_data (snd (load_history self disk)))
    = Deque.lastn (Deque.maxlen (history_data self))
        (Deque.items (history_data self)
         ++ map (fun dp => adjusted_point dp off) l).
Proof.
  intros Hf Hd Hb off; unfold load_history; rewrite Hf, Hd.
  cbn [fst snd with_history history_data].
  split; [reflexivity|].
  apply (fold_append (fun dp => adjusted_point dp off) l (history_data self) Hb).
Qed.

(** C5.  The store has a fixed capacity [N] (1000 for a store made by
    [__init__]) and evicts first in, first out: after any run of
    [add_data_point] calls the capacity is unchanged and the store holds the
    last [N] of the points it held and the points the calls appended, in
    insertion order, so never more than [N]; an append to a full store drops
    exactly the oldest point; and [N + 1] distinct points appended to an empty
    store leave [N] of them, without the first and with the last. *)
Theorem add_data_point_fifo :
  forall (self : AdvancedDataManager.t) (disk : Disk)
         (calls : list (option Dict.AnalysisResult * R * R)),
    bounded self ->
    let N := Deque.maxlen (history_data self) in
    let old := Deque.items (history_data self) in
    let dps := points_of self calls in
    let new := Deque.items (history_data (fst (add_all self disk calls))) in
    Deque.maxlen (history_data (fst (add_all self disk calls))) = N /\
    new = Deque.lastn N (old ++ dps) /\
    (List.length new <= N)%nat /\
    List.length new = Nat.min N (List.length old + List.length dps) /\
    (forall dp, dps = [dp] -> List.length old = N -> (0 < N)%nat ->
       new = tl old ++ [dp]) /\
    (forall first rest, dps = first :: rest -> old = [] ->
       List.length dps = S N -> NoDup dps -> (0 < N)%nat ->
       List.length new = N /\ new = rest /\
       ~ In first new /\ In (last dps first) new) /\
    (forall d t_start t_last,
       Deque.maxlen (history_data (__init__ d t_start t_last)) = 1000%nat).
Proof.
  intros self disk calls Hb N old dps new.
  destruct (add_all_history calls self self disk eq_refl Hb) as [Hm Hi].
  fold N old dps new in Hi.
  assert (Hlen : List.length new = Nat.min N (List.length old + List.length dps)).
  { rewrite Hi, lastn_length, length_app; reflexivity. }
  split; [exact Hm|split; [exact Hi|split; [lia|split; [exact Hlen|split; [|split]]]]].
  - intros dp Hd Hfull HN. rewrite Hi, Hd. unfold Deque.lastn.
    rewrite length_app; cbn [List.length].
    replace (List.length old + 1 - N)%nat with 1%nat by lia.
    destruct old; [cbn in Hfull; lia|reflexivity].
  - intros first rest Hd Hold Hl Hnd HN.
    rewrite Hd in Hi, Hl, Hnd |- *.
    rewrite Hold in Hi; cbn [app] in Hi.
    assert (Hr : new = rest).
    { rewrite Hi; unfold Deque.lastn; rewrite Hl.
      replace (S N - N)%nat with 1%nat by lia; reflexivity. }
    rewrite Hr. cbn [List.length] in Hl.
    split; [lia|split; [reflexivity|split]].
    + inversion Hnd; assumption.
    + destruct rest as [|x rest']; [cbn in Hl; lia|].
      change (last (first :: x :: rest') first) with (last (x :: rest') first).
      generalize (x :: rest') (@nil_cons _ x rest').
      intros l Hne. destruct (exists_last (not_eq_sym Hne)) as [l' [y ->]].
      rewrite last_last; apply in_or_app; right; left; reflexivity.
  - intros d t_start t_last; unfold __init__, load_history.
    destruct (file d) as [| |h]; try reflexivity.
    destruct (hd_data h) as [l|]; [|reflexivity].
    cbn [snd with_history history_data].
    match goal with |- context [fold_left ?f l ?d0] =>
      destruct (fold_append
                  (fun dp => adjusted_point dp
                     (start_time (fresh t_start t_last)
                      - match hd_start_time h with
                        | Some s => s
                        | None => start_time (fresh t_start t_last)
                        end)) l d0) as [Hm' _]
    end.
    + cbn; lia.
    + exact Hm'.
Qed.

(** Three points into a store of capacity 2: the last two remain, in order. *)
Lemma add_data_point_fifo_witness :
  Deque.items
    (history_data
       (fst (add_all Fixtures.store_2 Fixtures.blank_disk
               [(Some (Fixtures.result 1 1), 0, 0);
                (Some (Fixtures.result 2 2), 0, 0);
                (Some (Fixtures.result 3 3), 0, 0)])))
  = [Fixtures.point 2 2; Fixtures.point 3 3].
Proof.
  destruct (add_data_point_fifo Fixtures.store_2 Fixtures.blank_disk
              [(Some (Fixtures.result 1 1), 0, 0);
               (Some (Fixtures.result 2 2), 0, 0);
               (Some (Fixtures.result 3 3), 0, 0)])
    as (_ & Hi & _).
  - unfold bounded; cbn; lia.
  - exact Hi.
Defined.

(** C9.  [add_data_point(None)] returns [False] and changes neither the
    store (history, save counter, statistics cache and the rest) nor the
    persisted snapshot; the same holds for a result that lacks a key the
    method reads, where the [KeyError] is raised before the append. *)
Theorem add_data_point_none :
  forall (self : AdvancedDataManager.t) (disk : Disk) (t_save t_done : R),
    add_data_point self disk None t_save t_done = (false, self, disk) /\
    (forall r : Dict.AnalysisResult,
       data_point_of self r = None ->
       add_data_point self disk (Some r) t_save t_done = (false, self, disk)).
Proof.
  intros self disk t_save t_done.
  split; [reflexivity|].
  intros r Hr. apply add_data_point_failed, Hr.
Qed.

(** A store with two points is offered [None] and a result without a
    ['timestamp']: both calls return [False] and leave it as it was. *)
Lemma add_data_point_none_witness :
  add_data_point Fixtures.store_ab Fixtures.old_disk None 1 2
    = (false, Fixtures.store_ab, Fixtures.old_disk) /\
  add_data_point Fixtures.store_ab Fixtures.old_disk
    (Some Fixtures.result_without_timestamp) 1 2
    = (false, Fixtures.store_ab, Fixtures.old_disk).
Proof.
  destruct (add_data_point_none Fixtures.store_ab Fixtures.old_disk 1 2)
    as [Hnone Hkey].
  split; [exact Hnone|].
  apply Hkey; reflexivity.
Defined.

(** C10.  [save_history] on a store without entries returns [True] and writes
    nothing: the store and the medium are as before, every later load reads
    what it would have read before, and where the medium holds the snapshot
    of an earlier session a fresh store loads the points of that snapshot. *)
Theorem save_history_empty_keeps_snapshot :
  forall (self : AdvancedDataManager.t) (disk : Disk) (t_save t_done : R),
    Deque.len (history_data self) = 0%nat ->
    save_history self disk t_save t_done = (true, self, disk) /\
    (forall store : AdvancedDataManager.t,
       load_history store (snd (save_history self disk t_save t_done))
       = load_history store disk) /\
    (forall h older t_start t_last,
       file disk = Stored h -> hd_data h = Some older ->
       let restored :=
         load_history (fresh t_start t_last)
           (snd (save_history self disk t_save t_done)) in
       fst restored = true /\
       Deque.items (history_data (snd restored))
       = Deque.lastn gb.HISTORY_SIZE
           (map (fun dp =>
                   adjusted_point dp
                     (t_start - match hd_start_time h with
                                | Some s => s
                                | None => t_start
                                end)) older)).
Proof.
  intros self disk t_save t_done Hlen.
  assert (Hs : save_history self disk t_save t_done = (true, self, disk)).
  { unfold save_history; rewrite Hlen; reflexivity. }
  rewrite Hs; cbn [snd].
  split; [reflexivity|split; [reflexivity|]].
  intros h older t_start t_last Hf Hd.
  destruct (load_history_stored (fresh t_start t_last) disk h older Hf Hd)
    as (Hok & _ & Hi).
  - unfold bounded; cbn; lia.
  - split; [exact Hok|exact Hi].
Qed.

(** An emptied store saved over the snapshot of an earlier session: the
    snapshot stays, and a fresh store loads its one point. *)
Lemma save_history_empty_keeps_snapshot_witness :
  save_history (fresh 10 10) Fixtures.old_disk 11 12
    = (true, fresh 10 10, Fixtures.old_disk) /\
  Deque.len
    (history_data
       (snd (load_history (fresh 20 20)
               (snd (save_history (fresh 10 10) Fixtures.old_disk 11 12)))))
    = 1%nat.
Proof.
  destruct (save_history_empty_keeps_snapshot (fresh 10 10) Fixtures.old_disk 11 12)
    as (Hs & _ & Hl); [reflexivity|].
  split; [exact Hs|].
  destruct (Hl Fixtures.old_snapshot [Fixtures.point 1 2] 20 20 eq_refl eq_refl)
    as [_ Hi].
  unfold Deque.len; rewrite Hi; reflexivity.
Defined.

(** C6, as the code has it.  Saving a history that is not empty to a medium
    that can be written, and then loading into a fresh store, gives the same
    number of entries, the same points in the same order (so the same
    delta-E values), each ['time'] moved back by the loading session's start
    time less the start time recorded in the snapshot. *)
Theorem save_then_load_roundtrip :
  forall (self : AdvancedDataManager.t) (disk : Disk)
         (t_save t_done t_start t_last : R),
    Deque.items (history_data self) <> [] ->
    (List.length (Deque.items (history_data self)) <= gb.HISTORY_SIZE)%nat ->
    writable disk = true ->
    let saved := save_history self disk t_save t_done in
    let loaded := load_history (fresh t_start t_last) (snd saved) in
    let offset := t_start - start_time self in
    let old := Deque.items (history_data self) in
    let new := Deque.items (history_data (snd loaded)) in
    fst (fst saved) = true /\ fst loaded = true /\
    new = map (fun dp => adjusted_point dp offset) old /\
    List.length new = List.length old /\
    map de new = map de old /\
    map de76 new = map de76 old /\
    map de2000 new = map de2000 old /\
    map time new = map (fun dp => time dp - offset) old /\
    snd (get_de_values (snd loaded)) = snd (get_de_values self).
Proof.
  intros self disk t_save t_done t_start t_last Hne Hcap Hw saved loaded offset old new.
  assert (Hs : saved =
    (true,
     AdvancedDataManager.mk (history_data self) (start_time self)
       (save_counter self) t_done (stats_cache self) (stats_cache_time self),
     mkDisk
       (Stored (mkHistoryDict (Some (start_time self)) (Some t_save) (Some old)
                  (Some gb.VERSION)
                  (Some (mkSettings gb.HISTORY_SIZE gb.DEFAULT_DE_METHOD
                           gb.WARNING_THRESHOLD_DE gb.CRITICAL_THRESHOLD_DE))))
       (writable disk))).
  { unfold saved, save_history, Deque.len. fold old.
    destruct old as [|x l] eqn:Ho; [contradiction|].
    cbn [List.length Nat.eqb]. rewrite Hw. reflexivity. }
  assert (Hnew : fst loaded = true /\
                 new = map (fun dp => adjusted_point dp offset) old).
  { unfold new, loaded. rewrite Hs; cbn [snd].
    match goal with |- context [load_history ?s ?d] =>
      destruct (load_history_stored s d _ old eq_refl eq_refl) as (Hok & _ & Hi)
    end.
    - unfold bounded; cbn; lia.
    - split; [exact Hok|].
      rewrite Hi. cbn [fresh history_data Deque.empty Deque.items Deque.maxlen
                       app hd_start_time start_time].
      fold offset. apply lastn_all. rewrite length_map. exact Hcap. }
  destruct Hnew as [Hok Hnew].
  split; [rewrite Hs; reflexivity|split; [exact Hok|split; [exact Hnew|]]].
  assert (Hde : map de new = map de old).
  { rewrite Hnew, map_map; reflexivity. }
  split; [rewrite Hnew, length_map; reflexivity|].
  split; [exact Hde|].
  split; [rewrite Hnew, map_map; reflexivity|].
  split; [rewrite Hnew, map_map; reflexivity|].
  split; [rewrite Hnew, map_map; reflexivity|].
  unfold get_de_values; cbn [snd]. exact Hde.
Qed.

(** Two points saved by a session started at 0 and loaded by one started at
    20: both come back, their times moved back by 20. *)
Lemma save_then_load_roundtrip_witness :
  Deque.items
    (history_data
       (snd (load_history (fresh 20 20)
               (snd (save_history Fixtures.store_ab Fixtures.blank_disk 11 12)))))
  = [adjusted_point (Fixtures.point 1 2) (20 - 0);
     adjusted_point (Fixtures.point 3 4) (20 - 0)].
Proof.
  destruct (save_then_load_roundtrip Fixtures.store_ab Fixtures.blank_disk
              11 12 20 20) as (_ & _ & Hn & _).
  - discriminate.
  - apply Nat.leb_le; reflexivity.
  - reflexivity.
  - exact Hn.
Defined.

(** C6 as stated fails for a store without entries: its save writes nothing,
    so the snapshot of an earlier session stays on the medium, and the fresh
    store that loads afterwards holds one entry where the saved store held
    none. *)
Lemma save_empty_then_load_counterexample :
  fst (fst (save_history (fresh 10 10) Fixtures.old_disk 11 12)) = true /\
  Deque.len (history_data (fresh 10 10)) = 0%nat /\
  fst (load_history (fresh 20 20)
         (snd (save_history (fresh 10 10) Fixtures.old_disk 11 12))) = true /\
  Deque.len
    (history_data
       (snd (load_history (fresh 20 20)
               (snd (save_history (fresh 10 10) Fixtures.old_disk 11 12)))))
    = 1%nat.
Proof. repeat split. Qed.

End HistoryStore.

(** ** CIE76 and CIEDE2000 *)

Section DeltaE.

Import AdvancedColorAnalyzer.

Lemma delta_h_prime_swap (C1 C2 h1 h2 : R) :
  delta_h_prime C2 C1 h2 h1 = - delta_h_prime C1 C2 h1 h2.
Proof.
  unfold delta_h_prime. rewrite (Rmult_comm C2 C1).
  destruct (negb (Py.eqb (C1 * C2) 0)); [|lra].
  cmp_cases 180 (h1 - h2); cmp_cases 180 (h2 - h1);
    try cmp_cases (h1 - h2) (-180); try cmp_cases (h2 - h1) (-180); lra.
Qed.

Lemma delta_h_prime_same (C h : R) : delta_h_prime C C h h = 0.
Proof.
  unfold delta_h_prime.
  destruct (negb (Py.eqb (C * C) 0)); [|reflexivity].
  cmp_cases 180 (h - h); [lra|].
  cmp_cases (h - h) (-180); lra.
Qed.

Lemma h_prime_avg_swap (C1 C2 h1 h2 : R) :
  h_prime_avg C2 C1 h2 h1 = h_prime_avg C1 C2 h1 h2.
Proof.
  unfold h_prime_avg.
  rewrite (Rmult_comm C2 C1), (Rplus_comm h2 h1), (Rabs_minus_sym h2 h1).
  reflexivity.
Qed.

(** Exchanging the two colours negates the three differences of steps 1 to 9
    and leaves the weights, the rotation term and the divisors as they are. *)
Lemma ciede2000_steps_swap (L1 a1 b1 L2 a2 b2 : R) :
  let s := ciede2000_steps L1 a1 b1 L2 a2 b2 in
  ciede2000_steps L2 a2 b2 L1 a1 b1 =
    {| delta_L_prime := - delta_L_prime s;
       delta_C_prime := - delta_C_prime s;
       delta_H_prime := - delta_H_prime s;
       S_L := S_L s; S_C := S_C s; S_H := S_H s; R_T := R_T s;
       G_divisor := G_divisor s;
       S_L_divisor := S_L_divisor s;
       R_C_divisor := R_C_divisor s |}.
Proof.
  unfold ciede2000_steps; cbv zeta;
    cbn [delta_L_prime delta_C_prime delta_H_prime S_L S_C S_H R_T
         G_divisor S_L_divisor R_C_divisor].
  rewrite (Rplus_comm (sqrt (a2 ^ 2 + b2 ^ 2)) (sqrt (a1 ^ 2 + b1 ^ 2))).
  set (G := 1 / 2 * (1 - sqrt _)).
  set (Cp1 := sqrt (((1 + G) * a1) ^ 2 + b1 ^ 2)).
  set (Cp2 := sqrt (((1 + G) * a2) ^ 2 + b2 ^ 2)).
  set (hp1 := h_prime ((1 + G) * a1) b1).
  set (hp2 := h_prime ((1 + G) * a2) b2).
  rewrite (h_prime_avg_swap Cp1 Cp2 hp1 hp2), (delta_h_prime_swap Cp1 Cp2 hp1 hp2).
  rewrite (Rplus_comm Cp2 Cp1), (Rmult_comm Cp2 Cp1), (Rplus_comm L2 L1).
  f_equal; try ring.
  unfold Py.radians.
  replace (- delta_h_prime Cp1 Cp2 hp1 hp2 * (PI / 180) / 2)
    with (- (delta_h_prime Cp1 Cp2 hp1 hp2 * (PI / 180) / 2)) by lra.
  rewrite sin_neg; ring.
Qed.

Lemma ciede2000_sym (L1 a1 b1 L2 a2 b2 k_L k_C k_H : R) :
  ciede2000 L1 a1 b1 L2 a2 b2 k_L k_C k_H = ciede2000 L2 a2 b2 L1 a1 b1 k_L k_C k_H.
Proof.
  unfold ciede2000; cbv zeta.
  rewrite (ciede2000_steps_swap L1 a1 b1 L2 a2 b2); cbv zeta;
    cbn [delta_L_prime delta_C_prime delta_H_prime S_L S_C S_H R_T].
  f_equal. unfold Rdiv. ring.
Qed.

Lemma ciede2000_same (L a b k_L k_C k_H : R) :
  ciede2000 L a b L a b k_L k_C k_H = 0.
Proof.
  unfold ciede2000; cbv zeta.
  assert (HL : delta_L_prime (ciede2000_steps L a b L a b) = 0)
    by (cbn; ring).
  assert (HC : delta_C_prime (ciede2000_steps L a b L a b) = 0)
    by (cbn; ring).
  assert (HH : delta_H_prime (ciede2000_steps L a b L a b) = 0).
  { cbn. rewrite delta_h_prime_same. unfold Py.radians.
    replace (0 * (PI / 180) / 2) with 0 by lra.
    rewrite sin_0; ring. }
  rewrite HL, HC, HH.
  replace (_ + _ + _ + _) with 0 by (unfold Rdiv; ring).
  apply sqrt_0.
Qed.



(** On the grey axis ([a = b = 0] for both colours) every chroma and hue
    term vanishes and CIEDE2000 is the lightness difference over [S_L]. *)
Lemma ciede2000_neutral (L1 L2 : R) :
  ciede2000 L1 0 0 L2 0 0 1 1 1
  = Rabs ((L2 - L1)
          / (1 + 15 / 1000 * ((L1 + L2) / 2 - 50) ^ 2
                 / sqrt (20 + ((L1 + L2) / 2 - 50) ^ 2))).
Proof.
  unfold ciede2000, ciede2000_steps; cbv zeta;
    cbn [delta_L_prime delta_C_prime delta_H_prime S_L S_C S_H R_T].
  assert (E0 : sqrt (0 ^ 2 + 0 ^ 2) = 0)
    by (replace (0 ^ 2 + 0 ^ 2) with 0 by ring; apply sqrt_0).
  rewrite !E0.
  replace ((0 + 0) / 2) with 0 by lra.
  replace (0 ^ 7) with 0 by ring.
  replace (0 / (0 + 25 ^ 7)) with 0 by (unfold Rdiv; ring).
  rewrite sqrt_0, !Rmult_0_r, !E0.
  replace (sqrt (0 * 0)) with 0 by (rewrite Rmult_0_l, sqrt_0; reflexivity).
  rewrite !Rmult_1_l.
  set (S := 1 + 15 / 1000 * ((L1 + L2) / 2 - 50) ^ 2
                / sqrt (20 + ((L1 + L2) / 2 - 50) ^ 2)).
  match goal with |- sqrt ?X = _ =>
    replace X with (Rsqr ((L2 - L1) / S)) by (unfold Rsqr, Rdiv; ring)
  end.
  apply sqrt_Rsqr_abs.
Qed.

Lemma rint_nearest (x : R) (z : Z) :
  IZR z - 1 / 2 < x < IZR z + 1 / 2 -> Py.rint x = z.
Proof.
  intros [Hlo Hhi]; unfold Py.rint.
  destruct (Rle_dec (IZR z) x) as [Hge|Hlt].
  - assert (Hf : z = Int_part x) by (apply Int_part_spec; lra).
    rewrite <- Hf.
    cmp_cases (x - IZR z) (1 / 2); [reflexivity|lra].
  - assert (Hf : (z - 1)%Z = Int_part x)
      by (apply Int_part_spec; rewrite minus_IZR; lra).
    rewrite <- Hf, minus_IZR.
    cmp_cases (x - (IZR z - 1)) (1 / 2); [lra|].
    cmp_cases (1 / 2) (x - (IZR z - 1)); [lia|lra].
Qed.

Lemma sqrt_45_bounds : 67 / 10 < sqrt 45 < 671 / 100.
Proof.
  split.
  - replace (67 / 10) with (sqrt (67 / 10 * (67 / 10)))
      by (apply sqrt_square; lra).
    apply sqrt_lt_1; lra.
  - replace (671 / 100) with (sqrt (671 / 100 * (671 / 100)))
      by (apply sqrt_square; lra).
    apply sqrt_lt_1; lra.
Qed.

Lemma ciede2000_50_60 :
  946 / 100 < ciede2000 50 0 0 60 0 0 1 1 1 < 948 / 100.
Proof.
  rewrite ciede2000_neutral.
  replace ((50 + 60) / 2 - 50) with 5 by lra.
  replace (20 + 5 ^ 2) with 45 by lra.
  replace (60 - 50) with 10 by lra.
  pose proof sqrt_45_bounds as [Hlo Hhi].
  set (q := 15 / 1000 * 5 ^ 2 / sqrt 45).
  assert (Hq : q * sqrt 45 = 375 / 1000) by (unfold q; field; lra).
  assert (Hq0 : 0 < q).
  { unfold q. apply Rdiv_lt_0_compat; lra. }
  assert (Hq1 : 558 / 10000 < q < 56 / 1000) by (split; nra).
  rewrite Rabs_pos_eq by (apply Rlt_le, Rdiv_lt_0_compat; lra).
  split.
  - apply (Rmult_lt_reg_r (1 + q)); [lra|].
    replace (10 / (1 + q) * (1 + q)) with 10 by (field; lra); lra.
  - apply (Rmult_lt_reg_r (1 + q)); [lra|].
    replace (10 / (1 + q) * (1 + q)) with 10 by (field; lra); lra.
Qed.

Lemma round_ciede2000_50_60 :
  Py.round (ciede2000 50 0 0 60 0 0 1 1 1) gb.COLOR_DIFF_PRECISION = 95 / 10.
Proof.
  pose proof ciede2000_50_60 as [Hlo Hhi].
  unfold Py.round, gb.COLOR_DIFF_PRECISION.
  rewrite (rint_nearest _ 95) by (simpl; lra).
  simpl; lra.
Qed.

Lemma round_10 : Py.round 10 gb.COLOR_DIFF_PRECISION = 10.
Proof.
  unfold Py.round, gb.COLOR_DIFF_PRECISION.
  rewrite (rint_nearest _ 100) by (simpl; lra).
  simpl; lra.
Qed.

Lemma calculate_color_differences_de_fields
    (self : AdvancedColorAnalyzer.t) (L1 a1 b1 L2 a2 b2 : R) :
  let bundle := calculate_color_differences self [L1; a1; b1] [L2; a2; b2] in
  let de_76 := sqrt ((L2 - L1) ^ 2 + (a2 - a1) ^ 2 + (b2 - b1) ^ 2) in
  let de_2000 := if is_cie2000 self
                 then ciede2000 L1 a1 b1 L2 a2 b2 1 1 1 else de_76 in
  Dict.de76 bundle = Some (Py.round de_76 gb.COLOR_DIFF_PRECISION) /\
  Dict.de2000 bundle = Some (Py.round de_2000 gb.COLOR_DIFF_PRECISION) /\
  Dict.de bundle = Some (Py.round de_2000 gb.COLOR_DIFF_PRECISION).
Proof.
  unfold calculate_color_differences; cbn.
  destruct (is_cie2000 self); cbn; repeat split.
Qed.

Lemma or_default_nonzero (k : option R) (d : R) : d <> 0 -> Py.or_default k d <> 0.
Proof.
  intros Hd; unfold Py.or_default.
  destruct k as [v|]; [|exact Hd].
  cmp_cases v 0; assumption.
Qed.





(** C1, as the code has it.  In the bundle of [calculate_color_differences]
    for two LAB triples, ['de2000'] is the rounded CIEDE2000 value (steps 1
    to 10 with the weights 1.0) when the selected method is CIE2000, and the
    rounded CIE76 value, the same as ['de76'], under any other method; in
    either case ['de'] is equal to ['de2000']. *)
Theorem calculate_color_differences_de2000 :
  forall (self : AdvancedColorAnalyzer.t) (L1 a1 b1 L2 a2 b2 : R),
    let lab1 := [L1; a1; b1] in
    let lab2 := [L2; a2; b2] in
    let bundle := calculate_color_differences self lab1 lab2 in
    let rounded := option_map (fun v => Py.round v gb.COLOR_DIFF_PRECISION) in
    calculate_delta_e_2000 lab1 lab2 None None None
      = Some (ciede2000 L1 a1 b1 L2 a2 b2 1 1 1) /\
    calculate_delta_e_76 lab1 lab2
      = Some (sqrt ((L2 - L1) ^ 2 + (a2 - a1) ^ 2 + (b2 - b1) ^ 2)) /\
    Dict.de76 bundle = rounded (calculate_delta_e_76 lab1 lab2) /\
    Dict.de2000 bundle =
      (if String.eqb (de_method self) gb.DE_METHOD_CIE2000
       then rounded (calculate_delta_e_2000 lab1 lab2 None None None)
       else rounded (calculate_delta_e_76 lab1 lab2)) /\
    Dict.de bundle = Dict.de2000 bundle.
Proof.
  intros self L1 a1 b1 L2 a2 b2 lab1 lab2 bundle rounded.
  destruct (calculate_color_differences_de_fields self L1 a1 b1 L2 a2 b2)
    as (H76 & H2000 & Hde).
  fold lab1 lab2 bundle in H76, H2000, Hde.
  split; [reflexivity|split; [reflexivity|]].
  split; [exact H76|].
  split; [|rewrite Hde, H2000; reflexivity].
  rewrite H2000. unfold is_cie2000.
  destruct (String.eqb (de_method self) gb.DE_METHOD_CIE2000); reflexivity.
Qed.

(** C1 as stated fails under the default method, CIE76: for (50,0,0) against
    (60,0,0) the ['de2000'] entry is 10.0, the rounded CIE76 value, while the
    ten steps of CIEDE2000 give a value that rounds to 9.5. *)
Lemma de2000_field_counterexample :
  de_method AdvancedColorAnalyzer.__init__ = gb.DE_METHOD_CIE76 /\
  Dict.de2000
    (calculate_color_differences AdvancedColorAnalyzer.__init__
       [50; 0; 0] [60; 0; 0]) = Some 10 /\
  calculate_delta_e_2000 [50; 0; 0] [60; 0; 0] None None None
    = Some (ciede2000 50 0 0 60 0 0 1 1 1) /\
  Py.round (ciede2000 50 0 0 60 0 0 1 1 1) gb.COLOR_DIFF_PRECISION = 95 / 10 /\
  Dict.de2000
    (calculate_color_differences AdvancedColorAnalyzer.__init__
       [50; 0; 0] [60; 0; 0])
  <> Some (Py.round (ciede2000 50 0 0 60 0 0 1 1 1) gb.COLOR_DIFF_PRECISION).
Proof.
  destruct (calculate_color_differences_de_fields AdvancedColorAnalyzer.__init__
              50 0 0 60 0 0) as (_ & H2000 & _).
  change (is_cie2000 AdvancedColorAnalyzer.__init__) with false in H2000.
  cbv iota in H2000.
  assert (Hs : sqrt ((60 - 50) ^ 2 + (0 - 0) ^ 2 + (0 - 0) ^ 2) = 10).
  { replace ((60 - 50) ^ 2 + (0 - 0) ^ 2 + (0 - 0) ^ 2) with (10 * 10) by ring.
    apply sqrt_square; lra. }
  rewrite Hs, round_10 in H2000.
  split; [reflexivity|split; [exact H2000|split; [reflexivity|]]].
  split; [apply round_ciede2000_50_60|].
  rewrite H2000, round_ciede2000_50_60.
  intros H; injection H; lra.
Qed.

End DeltaE.

(** ** Non-finite values in binary64 *)

Section Binary64Facts.

Import PrimFloat SpecFloat FloatOps FloatAxioms.
Local Open Scope float_scope.

(** NaN is absorbing for the arithmetic of binary64. *)
Lemma add_nan_l (x : float) : nan + x = nan.
Proof.
  apply Prim2SF_inj. rewrite add_spec.
  change (Prim2SF nan) with S754_nan. reflexivity.
Qed.


Lemma sub_nan_l (x : float) : nan - x = nan.
Proof.
  apply Prim2SF_inj. rewrite sub_spec.
  change (Prim2SF nan) with S754_nan. reflexivity.
Qed.


Lemma mul_nan_l (x : float) : nan * x = nan.
Proof.
  apply Prim2SF_inj. rewrite mul_spec.
  change (Prim2SF nan) with S754_nan. reflexivity.
Qed.

Lemma mul_nan_r (x : float) : x * nan = nan.
Proof.
  apply Prim2SF_inj. rewrite mul_spec.
  change (Prim2SF nan) with S754_nan.
  unfold SF64mul, SFmul. destruct (Prim2SF x); reflexivity.
Qed.








End Binary64Facts.

(** * Further properties *)

(** ** Display settings *)

(** X1.  The status colour of a delta-E value is the normal one exactly when
    its absolute value is at most 2.0, the warning one exactly when it is
    above 2.0 and at most 3.0, and the error one exactly when it is above
    3.0. *)
Theorem get_color_for_de_value_thresholds :
  forall de_value : R,
    (gb_more.get_color_for_de_value de_value = gb_more.STATUS_NORMAL
       <-> Rabs de_value <= 2) /\
    (gb_more.get_color_for_de_value de_value = gb_more.STATUS_WARNING
       <-> 2 < Rabs de_value <= 3) /\
    (gb_more.get_color_for_de_value de_value = gb_more.STATUS_ERROR
       <-> 3 < Rabs de_value).
Proof.
  intros x.
  unfold gb_more.get_color_for_de_value, gb.get_quality_grade,
    gb.QUALITY_GRADE_EXCELLENT, gb.QUALITY_GRADE_GOOD,
    gb.QUALITY_GRADE_ACCEPTABLE, gb.QUALITY_GRADE_DEFECTIVE.
  cmp_cases (Rabs x) 1; [|cmp_cases (Rabs x) 2; [|cmp_cases (Rabs x) 3;
    [|cmp_cases (Rabs x) 5]]];
  repeat split; intros; try discriminate; try lra; try reflexivity.
Qed.

(** X2.  [ALERT_LEVELS] and [get_quality_grade] agree: a value has grade [g]
    exactly when its absolute value lies in the range that [ALERT_LEVELS]
    gives for [g], the lower end excluded (included for 'excellent', whose
    range starts at 0.0) and the upper end included. *)
Theorem alert_levels_agree_with_grades :
  forall (de_value : R) (g : gb.grade),
    let lower := fst (gb_more.ALERT_LEVELS g) in
    let upper := snd (gb_more.ALERT_LEVELS g) in
    gb.get_quality_grade de_value = g <->
    (match g with
     | gb.excellent => lower <= Rabs de_value
     | _ => lower < Rabs de_value
     end /\
     match upper with
     | Some u => Rabs de_value <= u
     | None => True
     end).
Proof.
  intros x g.
  pose proof (Rabs_pos x) as Hpos.
  unfold gb.get_quality_grade, gb_more.ALERT_LEVELS,
    gb.QUALITY_GRADE_EXCELLENT, gb.QUALITY_GRADE_GOOD,
    gb.QUALITY_GRADE_ACCEPTABLE, gb.QUALITY_GRADE_DEFECTIVE.
  cmp_cases (Rabs x) 1; [|cmp_cases (Rabs x) 2; [|cmp_cases (Rabs x) 3;
    [|cmp_cases (Rabs x) 5]]];
  destruct g; cbn [fst snd]; split;
    try (intros _; split; lra); try (intros [? ?]; try reflexivity; lra);
    try discriminate; try (intros _; split; [lra|exact I]);
    try (intros [? ?]; reflexivity).
Qed.

(** ** The camera thread *)

Section CameraThread.

Import BaslerCameraThread.

(** X3.  [set_sampling_interval] stores the argument clamped to
    [10, 1000] ms and changes nothing else; a second call with the same
    argument changes nothing; and for the stored interval the pause of the
    loop of [run] is [interval // 10] capped at 10 ms, between 1 and 10 ms. *)
Theorem set_sampling_interval_clamps :
  forall (self : BaslerCameraThread.t) (interval_ms : Z),
    let self' := set_sampling_interval self interval_ms in
    (10 <= sampling_interval self' <= 1000)%Z /\
    sampling_interval self' = Z.max 10 (Z.min interval_ms 1000) /\
    ((10 <= interval_ms <= 1000)%Z -> sampling_interval self' = interval_ms) /\
    set_sampling_interval self' interval_ms = self' /\
    self' = BaslerCameraThread.mk (running self) (is_connected self)
              (is_grabbing self) (frame_count self) (error_count self)
              (last_fps_time self) (fps self) (sampling_interval self')
              (apply_processing self) /\
    wait_time self' = Z.min 10 (sampling_interval self' / 10) /\
    (1 <= wait_time self' <= 10)%Z /\
    (10 * wait_time self' <= sampling_interval self')%Z.
Proof.
  intros self x self'.
  assert (Hs : sampling_interval self' = Z.max 10 (Z.min x 1000)) by reflexivity.
  assert (Hr : (10 <= sampling_interval self' <= 1000)%Z) by (rewrite Hs; lia).
  assert (Hd : (1 <= sampling_interval self' / 10)%Z)
    by (apply Z.div_le_lower_bound; lia).
  assert (Hm : (10 * (sampling_interval self' / 10) <= sampling_interval self')%Z)
    by (apply Z.mul_div_le; lia).
  split; [exact Hr|split; [exact Hs|split; [intros; rewrite Hs; lia|]]].
  split.
  { unfold self', set_sampling_interval; cbn.
    unfold gb_more.MIN_SAMPLING_INTERVAL, gb_more.MAX_SAMPLING_INTERVAL.
    f_equal; lia. }
  split; [reflexivity|].
  unfold wait_time.
  split; [lia|split; lia].
Qed.

Lemma set_sampling_interval_clamps_witness :
  sampling_interval (set_sampling_interval (BaslerCameraThread.__init__ 0) 250) = 250%Z.
Proof.
  apply (set_sampling_interval_clamps (BaslerCameraThread.__init__ 0) 250); lia.
Defined.

Lemma int_upper (x : R) : 0 <= x -> IZR (Py.int x) <= x.
Proof.
  intros Hx; unfold Py.int.
  assert (H : Py.leb 0 x = true) by now apply leb_true_iff.
  rewrite H. apply (base_Int_part x).
Qed.

Lemma safe_size_facts (default_size max_size : Z) :
  (0 <= default_size)%Z -> (0 <= max_size)%Z ->
  let s := safe_size default_size max_size in
  (s mod 16 = 0)%Z /\ (0 <= s <= default_size)%Z /\ (s <= max_size)%Z.
Proof.
  intros Hd Hm s.
  assert (Hx : 0 <= IZR max_size * gb_more.SAFE_RESOLUTION_RATIO).
  { unfold gb_more.SAFE_RESOLUTION_RATIO.
    apply Rmult_le_pos; [apply IZR_le, Hm|lra]. }
  pose proof (int_nonneg _ Hx) as Hi0.
  pose proof (int_upper _ Hx) as Hi1.
  assert (Hi : (Py.int (IZR max_size * gb_more.SAFE_RESOLUTION_RATIO) <= max_size)%Z).
  { apply le_IZR. unfold gb_more.SAFE_RESOLUTION_RATIO in *.
    apply IZR_le in Hm. lra. }
  unfold s, safe_size, gb_more.ALIGNMENT_SIZE.
  set (target := Z.min default_size _).
  assert (Ht : (0 <= target)%Z) by (unfold target; lia).
  assert (Hle : (target / 16 * 16 <= target)%Z)
    by (rewrite Z.mul_comm; apply Z.mul_div_le; lia).
  assert (H0 : (0 <= target / 16)%Z) by (apply Z.div_pos; lia).
  split; [apply Z.mod_mul; lia|].
  unfold target in *; lia.
Qed.

Lemma safe_offset_facts (max_size safe : Z) :
  (0 <= safe <= max_size)%Z ->
  let o := safe_offset max_size safe in
  (o mod 16 = 0)%Z /\ (0 <= o)%Z /\ (o + safe <= max_size)%Z /\
  (0 <= (max_size - (o + safe)) - o <= 32)%Z.
Proof.
  intros Hs o. unfold o, safe_offset, gb_more.ALIGNMENT_SIZE.
  set (d := (max_size - safe)%Z).
  assert (Hd : (0 <= d)%Z) by (unfold d; lia).
  assert (Hh : (0 <= d / 2)%Z) by (apply Z.div_pos; lia).
  assert (Hh2 : (2 * (d / 2) <= d < 2 * (d / 2) + 2)%Z).
  { pose proof (Z.div_mod d 2 ltac:(lia)).
    pose proof (Z.mod_pos_bound d 2 ltac:(lia)). lia. }
  assert (Hq : (16 * (d / 2 / 16) <= d / 2 < 16 * (d / 2 / 16) + 16)%Z).
  { pose proof (Z.div_mod (d / 2) 16 ltac:(lia)).
    pose proof (Z.mod_pos_bound (d / 2) 16 ltac:(lia)). lia. }
  assert (H0 : (0 <= d / 2 / 16)%Z) by (apply Z.div_pos; lia).
  split; [apply Z.mod_mul; lia|].
  unfold d in *; lia.
Qed.

(** X4.  On a sensor of [max_w] by [max_h] pixels [_configure_camera] sets a
    region whose width and height are multiples of 16, at most 1600 and
    1200 and at most the sensor's, and whose offsets are multiples of 16
    and not negative; the region lies within the sensor, and in each
    direction the margin after it exceeds the margin before it by at most
    32 pixels. *)
Theorem configure_camera_region :
  forall max_w max_h : Z,
    (0 <= max_w)%Z -> (0 <= max_h)%Z ->
    let '(safe_width, safe_height, offset_x, offset_y) :=
      _configure_camera max_w max_h in
    (safe_width mod 16 = 0 /\ safe_height mod 16 = 0 /\
     offset_x mod 16 = 0 /\ offset_y mod 16 = 0)%Z /\
    (0 <= safe_width <= 1600 /\ 0 <= safe_height <= 1200)%Z /\
    (0 <= offset_x /\ offset_x + safe_width <= max_w)%Z /\
    (0 <= offset_y /\ offset_y + safe_height <= max_h)%Z /\
    (0 <= (max_w - (offset_x + safe_width)) - offset_x <= 32)%Z /\
    (0 <= (max_h - (offset_y + safe_height)) - offset_y <= 32)%Z.
Proof.
  intros max_w max_h Hw Hh. unfold _configure_camera.
  destruct (safe_size_facts gb_more.DEFAULT_WIDTH max_w) as (A1 & A2 & A3);
    [unfold gb_more.DEFAULT_WIDTH; lia|exact Hw|].
  destruct (safe_size_facts gb_more.DEFAULT_HEIGHT max_h) as (B1 & B2 & B3);
    [unfold gb_more.DEFAULT_HEIGHT; lia|exact Hh|].
  destruct (safe_offset_facts max_w (safe_size gb_more.DEFAULT_WIDTH max_w))
    as (C1 & C2 & C3 & C4); [lia|].
  destruct (safe_offset_facts max_h (safe_size gb_more.DEFAULT_HEIGHT max_h))
    as (D1 & D2 & D3 & D4); [lia|].
  unfold gb_more.DEFAULT_WIDTH, gb_more.DEFAULT_HEIGHT in *.
  repeat split; try assumption; lia.
Qed.

(** The sensor of the acA4024-8gc, 4024 by 3036 pixels. *)
Lemma configure_camera_region_witness :
  let '(safe_width, safe_height, offset_x, offset_y) :=
    _configure_camera 4024 3036 in
  (offset_x + safe_width <= 4024 /\ offset_y + safe_height <= 3036)%Z.
Proof.
  pose proof (configure_camera_region 4024 3036 ltac:(lia) ltac:(lia)) as H.
  destruct (_configure_camera 4024 3036) as [[[sw sh] ox] oy].
  destruct H as (_ & _ & [_ Hx] & [_ Hy] & _).
  split; assumption.
Defined.

Lemma grab_frame_grabbing (self : BaslerCameraThread.t) outcome now :
  is_grabbing (snd (grab_frame self outcome now)) = is_grabbing self.
Proof.
  unfold grab_frame. destruct (is_grabbing self) eqn:Hg; cbn;
    [|first [exact Hg|reflexivity]].
  destruct outcome; cbn; first [exact Hg|reflexivity].
Qed.

Lemma grab_frame_failure (self : BaslerCameraThread.t) outcome now :
  is_grabbing self = true -> succeeded outcome = false ->
  error_count (snd (grab_frame self outcome now)) = (error_count self + 1)%Z.
Proof.
  intros Hg Hs; unfold grab_frame; rewrite Hg.
  destruct outcome; [discriminate| |]; reflexivity.
Qed.

Lemma grab_all_failures calls : forall self : BaslerCameraThread.t,
  is_grabbing self = true ->
  forallb (fun c => negb (succeeded (fst c))) calls = true ->
  error_count (grab_all self calls)
  = (error_count self + Z.of_nat (List.length calls))%Z.
Proof.
  induction calls as [|[o now] calls IH]; intros self Hg Hf.
  - cbn; lia.
  - cbn [forallb fst] in Hf. apply andb_true_iff in Hf as [Ho Hf].
    apply negb_true_iff in Ho.
    cbn [grab_all]. rewrite IH; [|rewrite grab_frame_grabbing; exact Hg|exact Hf].
    rewrite grab_frame_failure by assumption.
    cbn [List.length]. lia.
Qed.

Lemma grab_all_app (calls1 calls2 : list (GrabOutcome * R)) :
  forall self : BaslerCameraThread.t,
  grab_all self (calls1 ++ calls2) = grab_all (grab_all self calls1) calls2.
Proof.
  induction calls1 as [|[o now] calls1 IH]; intros self; [reflexivity|].
  cbn [app grab_all]. apply IH.
Qed.

Lemma grab_all_grabbing calls : forall self : BaslerCameraThread.t,
  is_grabbing (grab_all self calls) = is_grabbing self.
Proof.
  induction calls as [|[o now] calls IH]; intros self; [reflexivity|].
  cbn [grab_all]. rewrite IH. apply grab_frame_grabbing.
Qed.

(** X5.  While the thread is not grabbing, [grab_frame] returns [None] and
    changes nothing.  While it is grabbing, it returns an image exactly
    when the camera's result succeeded, and [error_count] is the number of
    failed grabs in a row: a run of failures adds its length, and after a
    success followed by failures only it is the number of those failures. *)
Theorem grab_frame_counts_failures_in_a_row :
  forall (self : BaslerCameraThread.t) (calls : list (GrabOutcome * R)),
    (is_grabbing self = false ->
       forall outcome now, grab_frame self outcome now = (None, self)) /\
    (is_grabbing self = true ->
       (forall outcome now,
          fst (grab_frame self outcome now)
          = match outcome with
            | GrabSucceeded img_array => Some img_array
            | _ => None
            end) /\
       is_grabbing (grab_all self calls) = true /\
       (forallb (fun c => negb (succeeded (fst c))) calls = true ->
          error_count (grab_all self calls)
          = (error_count self + Z.of_nat (List.length calls))%Z) /\
       (forall before img_array now after,
          calls = before ++ (GrabSucceeded img_array, now) :: after ->
          forallb (fun c => negb (succeeded (fst c))) after = true ->
          error_count (grab_all self calls) = Z.of_nat (List.length after))).
Proof.
  intros self calls; split.
  - intros Hg outcome now; unfold grab_frame; rewrite Hg; reflexivity.
  - intros Hg.
    split; [intros outcome now; unfold grab_frame; rewrite Hg;
            destruct outcome; reflexivity|].
    split; [rewrite grab_all_grabbing; exact Hg|].
    split; [apply grab_all_failures, Hg|].
    intros before img now after -> Hf.
    rewrite grab_all_app. cbn [grab_all].
    set (s1 := grab_all self before).
    assert (Hg1 : is_grabbing s1 = true)
      by (unfold s1; rewrite grab_all_grabbing; exact Hg).
    rewrite grab_all_failures; [|rewrite grab_frame_grabbing; exact Hg1|exact Hf].
    unfold grab_frame; rewrite Hg1; cbn [negb snd error_count]. lia.
Qed.

(** A grabbing thread sees a failure, a success and two failures. *)
Lemma grab_frame_counts_failures_in_a_row_witness :
  error_count
    (grab_all (BaslerCameraThread.mk true true true 0 0 0 0 100 true)
       [(GrabFailed, 1); (GrabSucceeded Fixtures.frame_100, 2);
        (GrabRaised, 3); (GrabFailed, 4)]) = 2%Z.
Proof.
  destruct (grab_frame_counts_failures_in_a_row
              (BaslerCameraThread.mk true true true 0 0 0 0 100 true)
              [(GrabFailed, 1); (GrabSucceeded Fixtures.frame_100, 2);
               (GrabRaised, 3); (GrabFailed, 4)]) as [_ H].
  destruct (H eq_refl) as (_ & _ & _ & Hrun).
  apply (Hrun [(GrabFailed, 1)] Fixtures.frame_100 2
              [(GrabRaised, 3); (GrabFailed, 4)]); reflexivity.
Defined.

(** X6.  An iteration of the loop of [run] that comes sooner than the
    sampling interval after the last sample emits nothing and changes
    nothing.  Any other iteration takes the current time as the time of the
    last sample, whether or not a frame arrived.  No iteration changes
    [running] or the interval; it emits nothing, a frame, or a frame
    followed by one analysis result; and when a grabbing thread with an
    analyzer and processing switched on receives a frame of positive width
    and height, it emits that frame and one analysis result. *)
Theorem run_iteration_throttles :
  forall (self : BaslerCameraThread.t)
         (color_analyzer : option AdvancedColorAnalyzer.t)
         (last_sample_time current_time : R) (outcome : GrabOutcome)
         (t_fps t_result : R),
    let result := run_iteration self color_analyzer last_sample_time
                    current_time outcome t_fps t_result in
    let signals := fst (fst (fst result)) in
    let self' := snd (fst (fst result)) in
    (current_time - last_sample_time < IZR (sampling_interval self) ->
       result = ([], self, color_analyzer, last_sample_time)) /\
    (IZR (sampling_interval self) <= current_time - last_sample_time ->
       snd result = current_time) /\
    running self' = running self /\
    sampling_interval self' = sampling_interval self /\
    (signals = [] \/
     (exists img, signals = [frame_signal img]) \/
     (exists img r, signals = [frame_signal img; color_analysis_signal r])) /\
    (forall img analyzer,
       IZR (sampling_interval self) <= current_time - last_sample_time ->
       is_grabbing self = true -> apply_processing self = true ->
       outcome = GrabSucceeded img -> color_analyzer = Some analyzer ->
       (0 < AdvancedColorAnalyzer.width img)%Z ->
       (0 < AdvancedColorAnalyzer.height img)%Z ->
       exists r, signals = [frame_signal img; color_analysis_signal r]).
Proof.
  intros self ca last now outcome t_fps t_result result signals self'.
  unfold signals, self', result, run_iteration.
  cmp_cases (IZR (sampling_interval self)) (now - last).
  2: { repeat split; try reflexivity; try (intros; lra); auto. }
  unfold grab_frame.
  destruct (is_grabbing self) eqn:Hg; cbn [negb].
  2: { repeat split; try reflexivity; try (intros; lra); auto; discriminate. }
  destruct outcome as [img| |].
  2,3: repeat split; try reflexivity; try (intros; lra); auto; discriminate.
  cbn [apply_processing].
  destruct ca as [a|].
  2: { repeat split; try reflexivity; try (intros; lra);
       try (right; left; eexists; reflexivity); discriminate. }
  destruct (apply_processing self) eqn:Hp.
  2: { repeat split; try reflexivity; try (intros; lra);
       try (right; left; eexists; reflexivity); discriminate. }
  pose proof (analyze_frame_area a img (3 / 10) t_result) as Harea.
  destruct (AdvancedColorAnalyzer.analyze_frame a (Some img) (3 / 10) t_result)
    as [[r|] a'].
  - repeat split; try reflexivity; try (intros; lra);
      try (right; right; do 2 eexists; reflexivity).
    intros img0 a0 _ _ _ Ho _ _ _. injection Ho as <-. eexists; reflexivity.
  - repeat split; try reflexivity; try (intros; lra);
      try (right; left; eexists; reflexivity).
    intros img0 a0 _ _ _ Ho _ Hw Hh. injection Ho as <-.
    destruct (Harea Hw Hh) as [r [Hr _]]. discriminate.
Qed.

(** The default thread, grabbing, 40 ms and then 100 ms after a sample. *)
Lemma run_iteration_throttles_witness :
  run_iteration (BaslerCameraThread.mk true true true 0 0 0 0 100 true)
    (Some AdvancedColorAnalyzer.__init__) 1000 1040
    (GrabSucceeded Fixtures.frame_100) 1 1
  = ([], BaslerCameraThread.mk true true true 0 0 0 0 100 true,
     Some AdvancedColorAnalyzer.__init__, 1000) /\
  snd (run_iteration (BaslerCameraThread.mk true true true 0 0 0 0 100 true)
         (Some AdvancedColorAnalyzer.__init__) 1000 1100
         (GrabSucceeded Fixtures.frame_100) 1 1) = 1100.
Proof.
  split.
  - apply (run_iteration_throttles
             (BaslerCameraThread.mk true true true 0 0 0 0 100 true)
             (Some AdvancedColorAnalyzer.__init__) 1000 1040
             (GrabSucceeded Fixtures.frame_100) 1 1).
    cbn; lra.
  - apply (run_iteration_throttles
             (BaslerCameraThread.mk true true true 0 0 0 0 100 true)
             (Some AdvancedColorAnalyzer.__init__) 1000 1100
             (GrabSucceeded Fixtures.frame_100) 1 1).
    cbn; lra.
Defined.

End CameraThread.

(** ** The analyzer *)

Section Analyzer.

Import AdvancedColorAnalyzer.

(** X7.  [convert_opencv_lab_to_standard] maps 8-bit OpenCV values, each in
    [0, 255], to a standard LAB value: a lightness in [0, 100], [a] and [b]
    in [-128, 127].  It keeps the order of each component, the ends of the
    lightness scale go to 0 and 100 and the neutral 128 goes to 0.  An array
    shorter than three raises. *)
Theorem convert_opencv_lab_range :
  forall l a b : R,
    0 <= l <= 255 -> 0 <= a <= 255 -> 0 <= b <= 255 ->
    (exists L A B,
       convert_opencv_lab_to_standard [l; a; b] = Some [L; A; B] /\
       standard_lab L A B /\
       (forall l' a' b' L' A' B',
          l <= l' -> a <= a' -> b <= b' ->
          convert_opencv_lab_to_standard [l'; a'; b'] = Some [L'; A'; B'] ->
          L <= L' /\ A <= A' /\ B <= B')) /\
    convert_opencv_lab_to_standard [0; 128; 128] = Some [0; 0; 0] /\
    convert_opencv_lab_to_standard [255; 128; 128] = Some [100; 0; 0] /\
    convert_opencv_lab_to_standard [l; a] = None.
Proof.
  intros l a b Hl Ha Hb.
  split; [|split; [|split; [|reflexivity]]].
  - exists (l * 100 / 255), (a - 128), (b - 128).
    split; [reflexivity|].
    split; [unfold standard_lab; lra|].
    intros l' a' b' L' A' B' Hl' Ha' Hb' H.
    cbn in H. injection H as <- <- <-. lra.
  - cbn. do 2 f_equal; [lra|f_equal; [lra|f_equal; lra]].
  - cbn. do 2 f_equal; [lra|f_equal; [lra|f_equal; lra]].
Qed.

(** White: the largest lightness, no chroma. *)
Lemma convert_opencv_lab_range_witness :
  exists L A B,
    convert_opencv_lab_to_standard [255; 128; 0] = Some [L; A; B] /\
    standard_lab L A B.
Proof.
  destruct (convert_opencv_lab_range 255 128 0) as [(L & A & B & H) _]; try lra.
  exists L, A, B.
  destruct H as (H1 & H2 & _).
  split; [exact H1|exact H2].
Defined.

(** X8.  [calculate_pixels_per_cm] is never below 10.  A depth that is not
    positive is taken as 0.3 m and gives 30.  Over the positive depths the
    value does not grow with the depth: it is at least 30 up to 0.3 m and
    it is 10 from 0.9 m on.  Over all depths it is not monotone: the depth 0
    gives less than the depth 0.1 m. *)
Theorem calculate_pixels_per_cm_profile :
  forall depth : R,
    10 <= calculate_pixels_per_cm depth /\
    (depth <= 0 -> calculate_pixels_per_cm depth = 30) /\
    (0 < depth <= 3 / 10 -> 30 <= calculate_pixels_per_cm depth) /\
    (9 / 10 <= depth -> calculate_pixels_per_cm depth = 10) /\
    (forall deeper, 0 < depth <= deeper ->
       calculate_pixels_per_cm deeper <= calculate_pixels_per_cm depth) /\
    calculate_pixels_per_cm 0 < calculate_pixels_per_cm (1 / 10).
Proof.
  assert (Hpos : forall d, 0 < d ->
            calculate_pixels_per_cm d = Rmax 10 (30 * (3 / 10 / d))).
  { intros d Hd. unfold calculate_pixels_per_cm.
    cmp_cases d 0; [lra|]. reflexivity. }
  assert (Hinv : forall d e, 0 < d <= e ->
            30 * (3 / 10 / e) <= 30 * (3 / 10 / d)).
  { intros d e [Hd He]. apply Rmult_le_compat_l; [lra|].
    unfold Rdiv. apply Rmult_le_compat_l; [lra|].
    apply Rinv_le_contravar; lra. }
  assert (Hzero : forall d, d <= 0 -> calculate_pixels_per_cm d = 30).
  { intros d Hd. unfold calculate_pixels_per_cm.
    cmp_cases d 0; [|lra].
    replace (30 * (3 / 10 / (3 / 10))) with 30 by (field; lra).
    apply Rmax_right; lra. }
  intros depth.
  split; [apply calculate_pixels_per_cm_pos|].
  split; [apply Hzero|].
  split.
  { intros [Hd Hle]. rewrite Hpos by exact Hd.
    apply Rle_trans with (30 * (3 / 10 / depth)); [|apply Rmax_r].
    apply Rle_trans with (30 * (3 / 10 / (3 / 10))); [right; field|].
    apply Hinv; lra. }
  split.
  { intros Hd. rewrite Hpos by lra.
    apply Rmax_left.
    apply Rle_trans with (30 * (3 / 10 / (9 / 10))); [apply Hinv; lra|].
    right; field. }
  split.
  { intros deeper [Hd Hle]. rewrite !Hpos by lra.
    apply Rle_max_compat_l, Hinv; lra. }
  rewrite (Hzero 0) by lra. rewrite Hpos by lra.
  apply Rlt_le_trans with (30 * (3 / 10 / (1 / 10))); [|apply Rmax_r].
  replace (30 * (3 / 10 / (1 / 10))) with 90 by field. lra.
Qed.

Lemma calculate_pixels_per_cm_profile_witness :
  calculate_pixels_per_cm (- 1) = 30 /\
  30 <= calculate_pixels_per_cm (1 / 5) /\
  calculate_pixels_per_cm 2 = 10.
Proof.
  split; [|split].
  - apply (calculate_pixels_per_cm_profile (- 1)); lra.
  - apply (calculate_pixels_per_cm_profile (1 / 5)); lra.
  - apply (calculate_pixels_per_cm_profile 2); lra.
Defined.

Lemma rint_IZR (z : Z) : Py.rint (IZR z) = z.
Proof. apply rint_nearest; lra. Qed.

Lemma round_0 : Py.round 0 gb.COLOR_DIFF_PRECISION = 0.
Proof.
  unfold Py.round. rewrite Rmult_0_l, (rint_IZR 0). unfold Rdiv; ring.
Qed.

Lemma rint_nonneg (x : R) : 0 <= x -> (0 <= Py.rint x)%Z.
Proof.
  intros Hx.
  assert (Hf : (0 <= Int_part x)%Z).
  { destruct (base_Int_part x) as [_ Hlo].
    assert (Hz : IZR (-1) < IZR (Int_part x)) by lra.
    apply lt_IZR in Hz; lia. }
  unfold Py.rint.
  destruct (Py.ltb _ _); [exact Hf|].
  destruct (Py.ltb _ _); [lia|].
  destruct (Z.even _); lia.
Qed.

Lemma round_nonneg (x : R) (n : nat) : 0 <= x -> 0 <= Py.round x n.
Proof.
  intros Hx. unfold Py.round.
  assert (Hp : 0 < 10 ^ n) by (apply pow_lt; lra).
  apply Rmult_le_pos.
  - apply IZR_le, rint_nonneg, Rmult_le_pos; lra.
  - apply Rlt_le, Rinv_0_lt_compat, Hp.
Qed.

(** The bundle of two triples, entry by entry. *)
Lemma calculate_color_differences_triples
    (self : AdvancedColorAnalyzer.t) (L1 a1 b1 L2 a2 b2 : R) :
  let c1 := sqrt (a1 ^ 2 + b1 ^ 2) in
  let c2 := sqrt (a2 ^ 2 + b2 ^ 2) in
  let h1 := if Py.ltb 0 c1 then Py.arctan2 b1 a1 else 0 in
  let h2 := if Py.ltb 0 c2 then Py.arctan2 b2 a2 else 0 in
  let dhue := if Py.ltb PI (h2 - h1) then h2 - h1 - 2 * PI
              else if Py.ltb (h2 - h1) (- PI) then h2 - h1 + 2 * PI
              else h2 - h1 in
  let dh := if Py.eqb (c1 * c2) 0 then 0
            else 2 * sqrt (c1 * c2) * sin (dhue / 2) in
  let de_76 := sqrt ((L2 - L1) ^ 2 + (a2 - a1) ^ 2 + (b2 - b1) ^ 2) in
  let de_2000 := if is_cie2000 self
                 then ciede2000 L1 a1 b1 L2 a2 b2 1 1 1 else de_76 in
  calculate_color_differences self [L1; a1; b1] [L2; a2; b2]
  = Dict.mkColorDiffs (rnd (L2 - L1)) (rnd (a2 - a1)) (rnd (b2 - b1))
      (rnd (c2 - c1)) (rnd dh) (rnd de_76) (rnd de_2000) (rnd de_2000).
Proof.
  cbv beta iota zeta delta
    [calculate_color_differences calculate_delta_e_76 calculate_delta_e_2000
     item bind nth_error Py.or_default
     gb.CIEDE2000_KL gb.CIEDE2000_KC gb.CIEDE2000_KH].
  destruct (is_cie2000 self); reflexivity.
Qed.

(** The bundle of a triple against itself. *)
Lemma calculate_color_differences_same (self : AdvancedColorAnalyzer.t) (L a b : R) :
  calculate_color_differences self [L; a; b] [L; a; b] = zero_differences.
Proof.
  pose proof PI_RGT_0 as Hpi.
  rewrite calculate_color_differences_triples; cbv zeta.
  set (c := sqrt (a ^ 2 + b ^ 2)).
  set (h := if Py.ltb 0 c then Py.arctan2 b a else 0).
  replace (h - h) with 0 by ring.
  assert (E1 : Py.ltb PI 0 = false) by (apply ltb_false_iff; lra).
  assert (E2 : Py.ltb 0 (- PI) = false) by (apply ltb_false_iff; lra).
  rewrite E1, E2.
  replace (0 / 2) with 0 by lra. rewrite sin_0, Rmult_0_r.
  assert (Hdh : (if Py.eqb (c * c) 0 then 0 else 0) = 0)
    by (destruct (Py.eqb (c * c) 0); reflexivity).
  rewrite Hdh.
  replace (L - L) with 0 by ring.
  replace (a - a) with 0 by ring.
  replace (b - b) with 0 by ring.
  replace (c - c) with 0 by ring.
  replace (0 ^ 2 + 0 ^ 2 + 0 ^ 2) with 0 by ring.
  rewrite sqrt_0, ciede2000_same.
  assert (Hz : (if is_cie2000 self then 0 else 0) = 0)
    by (destruct (is_cie2000 self); reflexivity).
  rewrite Hz. unfold rnd. rewrite round_0. reflexivity.
Qed.

Lemma calculate_color_differences_short (self : AdvancedColorAnalyzer.t)
    (lab1 lab2 : ndarray) :
  (List.length lab1 < 3)%nat \/ (List.length lab2 < 3)%nat ->
  calculate_color_differences self lab1 lab2 = zero_differences.
Proof.
  intros H. unfold calculate_color_differences.
  destruct H as [H|H].
  - destruct lab1 as [|x1 [|x2 [|x3 l1]]]; [| | |cbn in H; lia];
      destruct lab2 as [|y1 [|y2 [|y3 l2]]]; reflexivity.
  - destruct lab2 as [|y1 [|y2 [|y3 l2]]]; [| | |cbn in H; lia];
      destruct lab1 as [|x1 [|x2 [|x3 l1]]]; reflexivity.
Qed.

(** X9.  [calculate_color_differences] returns the bundle of zeros when an
    array has fewer than three items (the handler of its [try]), and it
    returns the same bundle for a standard LAB value against itself, under
    either method: a failed computation reads as a perfect match, which
    [get_quality_grade] grades 'excellent'. *)
Theorem calculate_color_differences_zero_bundle :
  forall (self : AdvancedColorAnalyzer.t) (lab1 lab2 : ndarray) (L a b : R),
    ((List.length lab1 < 3)%nat \/ (List.length lab2 < 3)%nat ->
       calculate_color_differences self lab1 lab2 = zero_differences) /\
    (standard_lab L a b ->
       calculate_color_differences self [L; a; b] [L; a; b] = zero_differences) /\
    Dict.de zero_differences = Some 0 /\
    gb.get_quality_grade 0 = gb.excellent.
Proof.
  intros self lab1 lab2 L a b.
  split; [apply calculate_color_differences_short|].
  split; [intros _; apply calculate_color_differences_same|].
  split; [reflexivity|].
  unfold gb.get_quality_grade, gb.QUALITY_GRADE_EXCELLENT.
  rewrite Rabs_R0. cmp_cases 0 1; [reflexivity|lra].
Qed.

(** A reference of two items, and the default reference against itself. *)
Lemma calculate_color_differences_zero_bundle_witness :
  calculate_color_differences AdvancedColorAnalyzer.__init__ [50; 0] [60; 0; 0]
  = zero_differences /\
  calculate_color_differences AdvancedColorAnalyzer.__init__ [50; 0; 0] [50; 0; 0]
  = zero_differences.
Proof.
  split.
  - apply (calculate_color_differences_zero_bundle AdvancedColorAnalyzer.__init__
             [50; 0] [60; 0; 0] 0 0 0).
    left; cbn; lia.
  - apply (calculate_color_differences_zero_bundle AdvancedColorAnalyzer.__init__
             [] [] 50 0 0).
    unfold standard_lab; lra.
Defined.

(** X10.  For two LAB triples the entries ['de76'], ['de2000'] and ['de']
    of the bundle are present and not negative, under either method. *)
Theorem color_difference_magnitudes_nonnegative :
  forall (self : AdvancedColorAnalyzer.t) (L1 a1 b1 L2 a2 b2 : R),
    let bundle := calculate_color_differences self [L1; a1; b1] [L2; a2; b2] in
    exists v76 v2000 v,
      Dict.de76 bundle = Some v76 /\ Dict.de2000 bundle = Some v2000 /\
      Dict.de bundle = Some v /\ 0 <= v76 /\ 0 <= v2000 /\ 0 <= v.
Proof.
  intros self L1 a1 b1 L2 a2 b2 bundle.
  destruct (calculate_color_differences_de_fields self L1 a1 b1 L2 a2 b2)
    as (H76 & H2000 & Hde).
  cbv zeta in H76, H2000, Hde. fold bundle in H76, H2000, Hde.
  do 3 eexists.
  split; [exact H76|split; [exact H2000|split; [exact Hde|]]].
  assert (H : 0 <= (if is_cie2000 self
                    then ciede2000 L1 a1 b1 L2 a2 b2 1 1 1
                    else sqrt ((L2 - L1) ^ 2 + (a2 - a1) ^ 2 + (b2 - b1) ^ 2))).
  { destruct (is_cie2000 self); [unfold ciede2000|]; apply sqrt_pos. }
  repeat split; apply round_nonneg; try exact H; apply sqrt_pos.
Qed.

Lemma rint_tie (z : Z) :
  Py.rint (IZR z + 1 / 2) = if Z.even z then z else (z + 1)%Z.
Proof.
  unfold Py.rint.
  assert (Hf : z = Int_part (IZR z + 1 / 2)) by (apply Int_part_spec; lra).
  rewrite <- Hf.
  replace (IZR z + 1 / 2 - IZR z) with (1 / 2) by ring.
  assert (E : Py.ltb (1 / 2) (1 / 2) = false) by (apply ltb_false_iff; lra).
  rewrite E. reflexivity.
Qed.

(** Rounding to the nearest integer, ties to even, commutes with negation. *)
Lemma rint_opp (x : R) : Py.rint (- x) = (- Py.rint x)%Z.
Proof.
  destruct (base_Int_part x) as [Hlo Hhi].
  set (f := Int_part x) in *.
  destruct (Rtotal_order (x - IZR f) (1 / 2)) as [Hr|[Hr|Hr]].
  - rewrite (rint_nearest x f) by lra.
    apply rint_nearest. rewrite opp_IZR. lra.
  - assert (Hx : x = IZR f + 1 / 2) by lra.
    replace (- x) with (IZR (- f - 1) + 1 / 2)
      by (rewrite Hx, minus_IZR, opp_IZR; lra).
    rewrite Hx, !rint_tie.
    replace (- f - 1)%Z with (- (f + 1))%Z by lia.
    rewrite Z.even_opp, Z.even_add. cbn [Z.even].
    destruct (Z.even f); cbn; lia.
  - rewrite (rint_nearest x (f + 1)) by (rewrite plus_IZR; lra).
    apply rint_nearest. rewrite opp_IZR, plus_IZR. lra.
Qed.

Lemma round_opp (x : R) (n : nat) : Py.round (- x) n = - Py.round x n.
Proof.
  unfold Py.round.
  replace (- x * 10 ^ n) with (- (x * 10 ^ n)) by ring.
  rewrite rint_opp, opp_IZR. unfold Rdiv; ring.
Qed.

(** X11.  Exchanging the two triples negates the signed entries of the
    bundle (['dl'], ['da'], ['db'], ['dc'], ['dh']) and keeps the three
    magnitudes (['de76'], ['de2000'], ['de']). *)
Theorem calculate_color_differences_swap :
  forall (self : AdvancedColorAnalyzer.t) (L1 a1 b1 L2 a2 b2 : R),
    let forth := calculate_color_differences self [L1; a1; b1] [L2; a2; b2] in
    let back := calculate_color_differences self [L2; a2; b2] [L1; a1; b1] in
    Dict.dl back = option_map Ropp (Dict.dl forth) /\
    Dict.da back = option_map Ropp (Dict.da forth) /\
    Dict.db back = option_map Ropp (Dict.db forth) /\
    Dict.dc back = option_map Ropp (Dict.dc forth) /\
    Dict.dh back = option_map Ropp (Dict.dh forth) /\
    Dict.de76 back = Dict.de76 forth /\
    Dict.de2000 back = Dict.de2000 forth /\
    Dict.de back = Dict.de forth.
Proof.
  intros self L1 a1 b1 L2 a2 b2 forth back. unfold forth, back.
  rewrite !calculate_color_differences_triples; cbv zeta.
  cbn [Dict.dl Dict.da Dict.db Dict.dc Dict.dh Dict.de76 Dict.de2000 Dict.de].
  set (c1 := sqrt (a1 ^ 2 + b1 ^ 2)).
  set (c2 := sqrt (a2 ^ 2 + b2 ^ 2)).
  set (h1 := if Py.ltb 0 c1 then Py.arctan2 b1 a1 else 0).
  set (h2 := if Py.ltb 0 c2 then Py.arctan2 b2 a2 else 0).
  assert (Hneg : forall x y, rnd (x - y) = option_map Ropp (rnd (y - x))).
  { intros x y. unfold rnd; cbn [option_map].
    rewrite <- round_opp. do 2 f_equal. ring. }
  assert (H76 : sqrt ((L1 - L2) ^ 2 + (a1 - a2) ^ 2 + (b1 - b2) ^ 2)
                = sqrt ((L2 - L1) ^ 2 + (a2 - a1) ^ 2 + (b2 - b1) ^ 2))
    by (f_equal; ring).
  rewrite H76, (ciede2000_sym L2 a2 b2 L1 a1 b1).
  repeat split; try apply Hneg.
  unfold rnd; cbn [option_map]. rewrite <- round_opp. do 2 f_equal.
  rewrite (Rmult_comm c1 c2).
  destruct (Py.eqb (c2 * c1) 0); [ring|].
  assert (Hd : (if Py.ltb PI (h1 - h2) then h1 - h2 - 2 * PI
                else if Py.ltb (h1 - h2) (- PI) then h1 - h2 + 2 * PI
                else h1 - h2)
               = - (if Py.ltb PI (h2 - h1) then h2 - h1 - 2 * PI
                    else if Py.ltb (h2 - h1) (- PI) then h2 - h1 + 2 * PI
                    else h2 - h1)).
  { cmp_cases PI (h1 - h2); cmp_cases PI (h2 - h1);
      try cmp_cases (h1 - h2) (- PI); try cmp_cases (h2 - h1) (- PI);
      pose proof PI_RGT_0; lra. }
  rewrite Hd.
  match goal with |- context [sin (- ?d / 2)] =>
    replace (- d / 2) with (- (d / 2)) by lra
  end.
  rewrite sin_neg. ring.
Qed.

(** X13.  For two colours on the grey axis ([a = b = 0]) with a lightness
    in [0, 100], CIEDE2000 with the default weights never exceeds CIE76,
    neither is negative, CIE76 is at most 100, and the two agree when the
    mean lightness is 50, where the lightness weight is 1. *)
Theorem grey_axis_differences :
  forall L1 L2 : R,
    0 <= L1 <= 100 -> 0 <= L2 <= 100 ->
    exists d76 d2000,
      calculate_delta_e_76 [L1; 0; 0] [L2; 0; 0] = Some d76 /\
      calculate_delta_e_2000 [L1; 0; 0] [L2; 0; 0] None None None = Some d2000 /\
      0 <= d2000 <= d76 /\ d76 <= 100 /\
      (L1 + L2 = 100 -> d2000 = d76).
Proof.
  intros L1 L2 HL1 HL2.
  set (S_L := 1 + 15 / 1000 * ((L1 + L2) / 2 - 50) ^ 2
                  / sqrt (20 + ((L1 + L2) / 2 - 50) ^ 2)).
  assert (Hx : 0 <= ((L1 + L2) / 2 - 50) ^ 2) by apply pow2_ge_0.
  assert (Hd : 0 < sqrt (20 + ((L1 + L2) / 2 - 50) ^ 2))
    by (apply sqrt_lt_R0; lra).
  assert (HS : 1 <= S_L).
  { unfold S_L.
    assert (0 <= 15 / 1000 * ((L1 + L2) / 2 - 50) ^ 2
                 / sqrt (20 + ((L1 + L2) / 2 - 50) ^ 2)).
    { apply Rmult_le_pos; [lra|]. apply Rlt_le, Rinv_0_lt_compat, Hd. }
    lra. }
  pose proof (Rabs_pos (L2 - L1)) as Ha.
  assert (H76 : calculate_delta_e_76 [L1; 0; 0] [L2; 0; 0]
                = Some (Rabs (L2 - L1))).
  { cbn. f_equal.
    replace ((L2 - L1) * ((L2 - L1) * 1) + (0 - 0) * ((0 - 0) * 1)
             + (0 - 0) * ((0 - 0) * 1)) with (Rsqr (L2 - L1))
      by (unfold Rsqr; ring).
    apply sqrt_Rsqr_abs. }
  assert (H2000 : calculate_delta_e_2000 [L1; 0; 0] [L2; 0; 0] None None None
                  = Some (Rabs (L2 - L1) / S_L)).
  { unfold calculate_delta_e_2000, Py.or_default,
      gb.CIEDE2000_KL, gb.CIEDE2000_KC, gb.CIEDE2000_KH.
    rewrite ciede2000_neutral. fold S_L. f_equal.
    unfold Rdiv. rewrite Rabs_mult. f_equal.
    apply Rabs_pos_eq, Rlt_le, Rinv_0_lt_compat. lra. }
  exists (Rabs (L2 - L1)), (Rabs (L2 - L1) / S_L).
  split; [exact H76|]. split; [exact H2000|].
  split.
  { split.
    - apply Rmult_le_pos; [exact Ha|]. apply Rlt_le, Rinv_0_lt_compat. lra.
    - apply (Rmult_le_reg_r S_L); [lra|].
      replace (Rabs (L2 - L1) / S_L * S_L) with (Rabs (L2 - L1)) by (field; lra).
      nra. }
  split; [apply Rabs_le; lra|].
  intros H100. unfold S_L.
  replace ((L1 + L2) / 2 - 50) with 0 by lra.
  replace (15 / 1000 * 0 ^ 2 / sqrt (20 + 0 ^ 2)) with 0
    by (unfold Rdiv; ring).
  field.
Qed.

(** Two greys at equal distance from the lightness 50. *)
Lemma grey_axis_differences_witness :
  exists d76 d2000,
    calculate_delta_e_76 [40; 0; 0] [60; 0; 0] = Some d76 /\
    calculate_delta_e_2000 [40; 0; 0] [60; 0; 0] None None None = Some d2000 /\
    d2000 = d76.
Proof.
  destruct (grey_axis_differences 40 60) as (d76 & d2000 & H1 & H2 & _ & _ & H);
    try lra.
  exists d76, d2000. split; [exact H1|]. split; [exact H2|]. apply H. lra.
Defined.

End Analyzer.

(** ** Sessions of an analyzer *)

Section AnalyzerSessions.

Import AdvancedColorAnalyzer.

(** What every call keeps: the sample size within its bounds, the default
    reference, a calibration array whenever the calibrated flag is set, and
    at least 10 pixels per cm. *)
Lemma analyzer_step_invariant (self : AdvancedColorAnalyzer.t)
    (c : AnalyzerSession.Call) :
  (1 / 10 <= sample_size_cm self <= 5 /\
   reference_lab self = gb.REFERENCE_LAB /\
   (is_calibrated self = true <-> calibration_lab self <> None) /\
   10 <= pixels_per_cm self) ->
  let self' := AnalyzerSession.step self c in
  1 / 10 <= sample_size_cm self' <= 5 /\
  reference_lab self' = gb.REFERENCE_LAB /\
  (is_calibrated self' = true <-> calibration_lab self' <> None) /\
  10 <= pixels_per_cm self'.
Proof.
  intros (Hs & Hr & Hc & Hp).
  destruct c as [size_cm|lab| |m|frame depth now]; cbn [AnalyzerSession.step].
  - unfold set_sample_size, gb.MIN_SAMPLE_SIZE_CM, gb.MAX_SAMPLE_SIZE_CM.
    cmp_cases (1 / 10) size_cm; [cmp_cases size_cm 5|]; cbn;
      repeat split; try tauto; try lra; apply Hc.
  - cbn. repeat split; try tauto; try lra; intros; discriminate.
  - cbn. repeat split; try tauto; try lra; intros; try discriminate; congruence.
  - cbn. repeat split; try tauto; try lra; apply Hc.
  - unfold analyze_frame.
    destruct frame as [frame|]; [|cbn; repeat split; try tauto; lra].
    destruct (size frame =? 0)%Z; [cbn; repeat split; try tauto; lra|].
    cbn [sample_size_cm pixels_per_cm].
    destruct (mean_bgr frame _) as [[x1 x2] x3].
    destruct (mean_lab frame _) as [[y1 y2] y3].
    cbn. pose proof (calculate_pixels_per_cm_pos depth).
    repeat split; try tauto; lra.
Qed.

(** X14.  Whatever calls reach an analyzer made by [__init__] (sample
    sizes, accepted or not, calibrations, resets, method changes, frames),
    its sample size stays within [0.1, 5.0], its default reference stays
    (50, 0, 0), it holds a calibration array exactly when it is flagged as
    calibrated, and its pixels per cm stay at least 10. *)
Theorem analyzer_session_invariant :
  forall calls : list AnalyzerSession.Call,
    let self := AnalyzerSession.run AdvancedColorAnalyzer.__init__ calls in
    1 / 10 <= sample_size_cm self <= 5 /\
    reference_lab self = [50; 0; 0] /\
    (is_calibrated self = true <-> calibration_lab self <> None) /\
    10 <= pixels_per_cm self.
Proof.
  intros calls. unfold AnalyzerSession.run.
  assert (H0 : 1 / 10 <= sample_size_cm AdvancedColorAnalyzer.__init__ <= 5 /\
               reference_lab AdvancedColorAnalyzer.__init__ = gb.REFERENCE_LAB /\
               (is_calibrated AdvancedColorAnalyzer.__init__ = true
                <-> calibration_lab AdvancedColorAnalyzer.__init__ <> None) /\
               10 <= pixels_per_cm AdvancedColorAnalyzer.__init__).
  { cbn. unfold gb.DEFAULT_SAMPLE_SIZE_CM.
    repeat split; try lra; intros; try discriminate; congruence. }
  revert H0. generalize AdvancedColorAnalyzer.__init__.
  induction calls as [|c calls IH]; intros self H; cbn [fold_left].
  - exact H.
  - apply IH. apply (analyzer_step_invariant self c H).
Qed.

Lemma int_lower (x : R) (z : Z) : (0 <= z)%Z -> IZR z <= x -> (z <= Py.int x)%Z.
Proof.
  intros Hz Hx. unfold Py.int.
  assert (H : Py.leb 0 x = true).
  { apply leb_true_iff. apply IZR_le in Hz. lra. }
  rewrite H.
  destruct (base_Int_part x) as [_ Hlo].
  assert (Hlt : IZR (z - 1) < IZR (Int_part x)) by (rewrite minus_IZR; lra).
  apply lt_IZR in Hlt. lia.
Qed.

Lemma int_below (x : R) (z : Z) : 0 <= x -> x < IZR z -> (Py.int x < z)%Z.
Proof.
  intros H0 Hx. pose proof (int_upper x H0) as Hu.
  apply lt_IZR. lra.
Qed.

Lemma sampling_bounds_nonempty (w h p : Z) :
  (0 < w)%Z -> (0 < h)%Z -> (0 <= p)%Z ->
  let area := sampling_bounds w h p in
  ((Dict.x1 area < Dict.x2 area)%Z <-> (2 <= p)%Z) /\
  ((Dict.y1 area < Dict.y2 area)%Z <-> (2 <= p)%Z) /\
  ((p < 2)%Z -> Dict.x1 area = Dict.x2 area /\ Dict.y1 area = Dict.y2 area).
Proof.
  intros Hw Hh Hp; cbn.
  assert (Hcw : (0 <= w / 2 /\ w / 2 + 1 <= w)%Z).
  { pose proof (Z.div_mod w 2 ltac:(lia)).
    pose proof (Z.mod_pos_bound w 2 ltac:(lia)). lia. }
  assert (Hch : (0 <= h / 2 /\ h / 2 + 1 <= h)%Z).
  { pose proof (Z.div_mod h 2 ltac:(lia)).
    pose proof (Z.mod_pos_bound h 2 ltac:(lia)). lia. }
  assert (Hhalf : (0 <= p / 2 /\ (1 <= p / 2 <-> 2 <= p))%Z).
  { pose proof (Z.div_mod p 2 ltac:(lia)).
    pose proof (Z.mod_pos_bound p 2 ltac:(lia)). lia. }
  lia.
Qed.

(** X15.  For a frame of positive width and height and a sample size that
    is not negative, the sampling area of [analyze_frame] has pixels
    exactly when [int(sample_size_cm * pixels_per_cm)] is at least 2; below
    that its two corners coincide and the region averaged is empty.  At
    the default depth every sample size from 0.1 cm up gives an area with
    pixels; at a depth of 0.9 m or more a sample size below 0.2 cm gives
    the empty one. *)
Theorem analyze_frame_area_nonempty :
  forall (self : AdvancedColorAnalyzer.t) (frame : Frame) (depth now : R),
    (0 < width frame)%Z -> (0 < height frame)%Z ->
    0 <= sample_size_cm self ->
    let p := Py.int (sample_size_cm self * calculate_pixels_per_cm depth) in
    exists (r : Dict.AnalysisResult) (area : Dict.Rect),
      fst (analyze_frame self (Some frame) depth now) = Some r /\
      Dict.sampling_area r = Some area /\
      ((Dict.x1 area < Dict.x2 area)%Z /\ (Dict.y1 area < Dict.y2 area)%Z
         <-> (2 <= p)%Z) /\
      ((p < 2)%Z -> Dict.x1 area = Dict.x2 area /\ Dict.y1 area = Dict.y2 area) /\
      (1 / 10 <= sample_size_cm self -> depth = 3 / 10 -> (2 <= p)%Z) /\
      (sample_size_cm self < 2 / 10 -> 9 / 10 <= depth -> (p < 2)%Z).
Proof.
  intros self frame depth now Hw Hh Hs p.
  destruct (analyze_frame_area self frame depth now Hw Hh) as [r [Hr Ha]].
  fold p in Ha.
  pose proof (calculate_pixels_per_cm_pos depth) as Hppc.
  assert (Hp : (0 <= p)%Z) by (apply int_nonneg, Rmult_le_pos; lra).
  destruct (sampling_bounds_nonempty (width frame) (height frame) p Hw Hh Hp)
    as (Hx & Hy & He).
  exists r, (sampling_bounds (width frame) (height frame) p).
  split; [exact Hr|split; [exact Ha|]].
  split; [tauto|split; [exact He|split]].
  - intros Hmin Hd. unfold p. rewrite Hd, calculate_pixels_per_cm_default.
    apply int_lower; [lia|]. lra.
  - intros Hsmall Hdeep.
    assert (Hten : calculate_pixels_per_cm depth = 10).
    { unfold calculate_pixels_per_cm.
      cmp_cases depth 0; [lra|].
      apply Rmax_left.
      replace (30 * (3 / 10 / depth)) with (9 / depth) by (field; lra).
      apply (Rmult_le_reg_r depth); [lra|].
      replace (9 / depth * depth) with 9 by (field; lra). lra. }
    unfold p. rewrite Hten. apply int_below; lra.
Qed.

(** A sample of 0.1 cm seen from one metre: one pixel requested, none
    averaged. *)
Lemma analyze_frame_area_nonempty_witness :
  exists (r : Dict.AnalysisResult) (area : Dict.Rect),
    fst (analyze_frame Fixtures2.analyzer_1mm (Some Fixtures.frame_100) 1 0)
      = Some r /\
    Dict.sampling_area r = Some area /\
    Dict.x1 area = Dict.x2 area /\ Dict.y1 area = Dict.y2 area.
Proof.
  destruct (analyze_frame_area_nonempty Fixtures2.analyzer_1mm
              Fixtures.frame_100 1 0) as (r & area & Hr & Ha & _ & He & _ & Hp).
  - cbn; lia.
  - cbn; lia.
  - cbn; lra.
  - exists r, area. split; [exact Hr|split; [exact Ha|]].
    apply He, Hp; cbn; lra.
Defined.

(** What [analyze_frame] returns for a frame of positive area, given the
    two means over the sampling area. *)
Lemma analyze_frame_result (self : AdvancedColorAnalyzer.t) (frame : Frame)
    (depth now : R) :
  (0 < width frame)%Z -> (0 < height frame)%Z ->
  let area :=
    sampling_bounds (width frame) (height frame)
      (Py.int (sample_size_cm self * calculate_pixels_per_cm depth)) in
  let reference :=
    if is_calibrated self
    then match calibration_lab self with Some c => c | None => [] end
    else reference_lab self in
  let current :=
    [fst (fst (mean_lab frame area)) * 100 / 255;
     snd (fst (mean_lab frame area)) - 128;
     snd (mean_lab frame area) - 128] in
  exists r : Dict.AnalysisResult,
    fst (analyze_frame self (Some frame) depth now) = Some r /\
    Dict.color_diffs r
      = Some (calculate_color_differences
                (snd (analyze_frame self (Some frame) depth now))
                reference current) /\
    Dict.calibrated r = Some (is_calibrated self) /\
    Dict.de_method r = Some (de_method self) /\
    Dict.sample_size_cm r = Some (sample_size_cm self) /\
    Dict.timestamp r = Some now /\
    de_method (snd (analyze_frame self (Some frame) depth now)) = de_method self.
Proof.
  intros Hw Hh area reference current.
  unfold current, reference, area, analyze_frame.
  assert (Hsz : (size frame =? 0)%Z = false).
  { apply Z.eqb_neq; unfold size; nia. }
  rewrite Hsz; cbn [sample_size_cm pixels_per_cm].
  destruct (mean_bgr frame _) as [[avg_b avg_g] avg_r].
  destruct (mean_lab frame _) as [[avg_l avg_a] avg_b'].
  cbn.
  eexists; repeat split; reflexivity.
Qed.

Lemma calculate_color_differences_method (s1 s2 : AdvancedColorAnalyzer.t)
    (lab1 lab2 : ndarray) :
  de_method s1 = de_method s2 ->
  calculate_color_differences s1 lab1 lab2
  = calculate_color_differences s2 lab1 lab2.
Proof.
  intros H. unfold calculate_color_differences, is_cie2000. rewrite H.
  reflexivity.
Qed.

(** X16.  [calibrate] stores the array and sets the flag whatever the
    array is, and returns [True] exactly when the array has at least three
    items, which the log line reads.  Calibrating twice with the same value
    leaves the state of calibrating once, and a reset after a calibration
    is a reset.  A calibrated analyzer compares each frame of positive area
    with the stored array and flags its results as calibrated; after a
    calibration that returned [False] the stored array is too short, and
    every such result carries the bundle of zeros.  After a reset the
    analyzer compares with its default reference again and flags its
    results as not calibrated. *)
Theorem calibration_composes :
  forall (self : AdvancedColorAnalyzer.t) (lab_value : ndarray)
         (frame : Frame) (depth now : R),
    (0 < width frame)%Z -> (0 < height frame)%Z ->
    let calibrated := snd (calibrate self lab_value) in
    let area :=
      sampling_bounds (width frame) (height frame)
        (Py.int (sample_size_cm self * calculate_pixels_per_cm depth)) in
    let current :=
      [fst (fst (mean_lab frame area)) * 100 / 255;
       snd (fst (mean_lab frame area)) - 128;
       snd (mean_lab frame area) - 128] in
    (fst (calibrate self lab_value) = true
     <-> (3 <= List.length lab_value)%nat) /\
    calibration_lab calibrated = Some lab_value /\
    is_calibrated calibrated = true /\
    snd (calibrate calibrated lab_value) = calibrated /\
    reset_calibration calibrated = reset_calibration self /\
    (exists r,
       fst (analyze_frame calibrated (Some frame) depth now) = Some r /\
       Dict.calibrated r = Some true /\
       Dict.color_diffs r
         = Some (calculate_color_differences self lab_value current) /\
       (fst (calibrate self lab_value) = false ->
        Dict.color_diffs r = Some zero_differences)) /\
    (exists r,
       fst (analyze_frame (reset_calibration calibrated) (Some frame) depth now)
         = Some r /\
       Dict.calibrated r = Some false /\
       Dict.color_diffs r
         = Some (calculate_color_differences self (reference_lab self) current)).
Proof.
  intros self lab frame depth now Hw Hh calibrated area current.
  split; [unfold calibrate; cbn [fst]; apply Nat.leb_le|].
  split; [reflexivity|]. split; [reflexivity|].
  split; [reflexivity|]. split; [reflexivity|]. split.
  - destruct (analyze_frame_result calibrated frame depth now Hw Hh)
      as (r & Hr & Hd & Hc & _ & _ & _ & Hm).
    exists r. split; [exact Hr|split; [exact Hc|]].
    assert (Hd' : Dict.color_diffs r
                  = Some (calculate_color_differences self lab current)).
    { rewrite Hd. f_equal. apply calculate_color_differences_method.
      rewrite Hm. reflexivity. }
    split; [exact Hd'|].
    intros Hshort. rewrite Hd'. f_equal.
    apply calculate_color_differences_short. left.
    unfold calibrate in Hshort; cbn [fst] in Hshort.
    apply Nat.leb_gt in Hshort. exact Hshort.
  - destruct (analyze_frame_result (reset_calibration calibrated) frame depth now
                Hw Hh) as (r & Hr & Hd & Hc & _ & _ & _ & Hm).
    exists r. split; [exact Hr|split; [exact Hc|]].
    rewrite Hd. f_equal. apply calculate_color_differences_method.
    rewrite Hm. reflexivity.
Qed.

(** The default analyzer after a calibration with two items, shown a white
    frame: the call returned [False], the result is flagged calibrated and
    reports no difference. *)
Lemma calibration_composes_witness :
  fst (calibrate AdvancedColorAnalyzer.__init__ [50; 0]) = false /\
  exists r,
    fst (analyze_frame
           (snd (calibrate AdvancedColorAnalyzer.__init__ [50; 0]))
           (Some Fixtures2.frame_white) (3 / 10) 0) = Some r /\
    Dict.calibrated r = Some true /\
    Dict.color_diffs r = Some zero_differences.
Proof.
  split; [reflexivity|].
  destruct (calibration_composes AdvancedColorAnalyzer.__init__ [50; 0]
              Fixtures2.frame_white (3 / 10) 0)
    as (_ & _ & _ & _ & _ & (r & Hr & Hc & _ & Hz) & _).
  - cbn; lia.
  - cbn; lia.
  - exists r. split; [exact Hr|]. split; [exact Hc|]. apply Hz. reflexivity.
Defined.

End AnalyzerSessions.

(** ** Sessions of a history store *)

Section StoreSessions.

Import AdvancedDataManager.
Import StoreSession.

Lemma Forall_skipn_keep {A : Type} (P : A -> Prop) (n : nat) (l : list A) :
  Forall P l -> Forall P (skipn n l).
Proof.
  revert l; induction n as [|n IH]; intros l H; [exact H|].
  destruct l as [|x l]; [exact H|]. cbn. apply IH. inversion H; assumption.
Qed.

Lemma Forall_lastn {A : Type} (P : A -> Prop) (n : nat) (l : list A) :
  Forall P l -> Forall P (Deque.lastn n l).
Proof. apply Forall_skipn_keep. Qed.

Lemma data_point_of_timed (self : AdvancedDataManager.t) r dp :
  data_point_of self r = Some dp -> timed (start_time self) dp.
Proof.
  unfold data_point_of, bind.
  destruct (Dict.timestamp r); [|discriminate].
  destruct (Dict.color_diffs r) as [cd|]; [|discriminate].
  destruct (Dict.de cd); [|discriminate].
  destruct (Dict.de76 cd); [|discriminate].
  destruct (Dict.de2000 cd); [|discriminate].
  destruct (Dict.dl cd); [|discriminate].
  destruct (Dict.da cd); [|discriminate].
  destruct (Dict.db cd); [|discriminate].
  destruct (Dict.dc cd); [|discriminate].
  destruct (Dict.dh cd); [|discriminate].
  destruct (Dict.lab r); [|discriminate].
  destruct (Dict.rgb r); [|discriminate].
  destruct (Dict.calibrated r); [|discriminate].
  intros H; injection H as <-. reflexivity.
Qed.

Lemma save_history_ok (self : AdvancedDataManager.t) disk t_save t_done :
  store_ok self -> disk_ok disk ->
  store_ok (snd (fst (save_history self disk t_save t_done))) /\
  disk_ok (snd (save_history self disk t_save t_done)).
Proof.
  intros Hs Hd. unfold save_history.
  destruct (Nat.eqb _ 0); [split; assumption|].
  destruct (writable disk); [|split; assumption].
  cbn [fst snd]. split.
  - destruct Hs as (H1 & H2 & H3 & H4).
    exact (conj H1 (conj H2 (conj H3 H4))).
  - unfold disk_ok; cbn. exists (start_time self).
    split; [reflexivity|apply Hs].
Qed.

Lemma store_ok_intro (h : Deque.deque DataPoint) (start : R) (k : Z)
    (last : R) (cache : list (string * R)) (cache_time : R) :
  (List.length (Deque.items h) <= Deque.maxlen h)%nat ->
  Deque.maxlen h = gb.HISTORY_SIZE ->
  (0 <= k < gb.HISTORY_AUTO_SAVE_INTERVAL)%Z ->
  Forall (timed start) (Deque.items h) ->
  store_ok (AdvancedDataManager.mk h start k last cache cache_time).
Proof. intros H1 H2 H3 H4. exact (conj H1 (conj H2 (conj H3 H4))). Qed.

Lemma add_data_point_ok (self : AdvancedDataManager.t) disk ar t_save t_done :
  store_ok self -> disk_ok disk ->
  store_ok (snd (fst (add_data_point self disk ar t_save t_done))) /\
  disk_ok (snd (add_data_point self disk ar t_save t_done)).
Proof.
  intros Hs Hd. unfold add_data_point.
  destruct ar as [r|]; [|split; assumption].
  destruct (data_point_of self r) as [dp|] eqn:Hdp; [|split; assumption].
  pose proof (data_point_of_timed self r dp Hdp) as Ht.
  destruct Hs as (Hb & Hm & Hc & Hf).
  set (h1 := Deque.append (history_data self) dp).
  assert (Hitems : Forall (timed (start_time self)) (Deque.items h1)).
  { unfold h1. rewrite append_items by exact Hb. apply Forall_lastn.
    apply Forall_app; split; [exact Hf|constructor; [exact Ht|constructor]]. }
  assert (Hb1 : (List.length (Deque.items h1) <= Deque.maxlen h1)%nat).
  { unfold h1. rewrite append_maxlen. apply append_bounded, Hb. }
  assert (Hm1 : Deque.maxlen h1 = gb.HISTORY_SIZE) by exact Hm.
  cbn [save_counter].
  destruct (gb.HISTORY_AUTO_SAVE_INTERVAL <=? save_counter self + 1)%Z eqn:Hk.
  - match goal with |- context [save_history ?s ?d ?a ?b] =>
      pose proof (save_history_frame s d a b) as [Hh Hst];
      assert (Hdk : disk_ok (snd (save_history s d a b)));
      [|destruct (save_history s d a b) as [[ok s2] d2]]
    end.
    { unfold save_history.
      destruct (Nat.eqb _ 0); [exact Hd|].
      destruct (writable disk); [|exact Hd].
      unfold disk_ok; cbn. exists (start_time self).
      split; [reflexivity|exact Hitems]. }
    cbn [fst snd history_data start_time] in *. rewrite Hh, Hst.
    split; [|exact Hdk].
    apply store_ok_intro;
      [exact Hb1|exact Hm1|unfold gb.HISTORY_AUTO_SAVE_INTERVAL; cbn [save_counter]; lia|exact Hitems].
  - apply Z.leb_gt in Hk. cbn [fst snd history_data start_time save_counter].
    split; [|exact Hd].
    apply store_ok_intro; [exact Hb1|exact Hm1|cbn [save_counter]; lia|exact Hitems].
Qed.

Lemma load_history_ok (self : AdvancedDataManager.t) disk :
  store_ok self -> disk_ok disk -> store_ok (snd (load_history self disk)).
Proof.
  intros Hs Hd.
  destruct (file disk) as [| |h] eqn:Hf;
    try (unfold load_history; rewrite Hf; exact Hs).
  destruct (hd_data h) as [l|] eqn:Hl;
    [|unfold load_history; rewrite Hf, Hl; exact Hs].
  destruct Hs as (Hb & Hm & Hc & Ht).
  destruct (load_history_stored self disk h l Hf Hl Hb) as (_ & Hmax & Hitems).
  unfold disk_ok in Hd; rewrite Hf, Hl in Hd.
  destruct Hd as (start & Hstart & Hpoints).
  rewrite Hstart in Hitems.
  assert (Hrest : start_time (snd (load_history self disk)) = start_time self
                  /\ save_counter (snd (load_history self disk)) = save_counter self).
  { unfold load_history; rewrite Hf, Hl; split; reflexivity. }
  destruct Hrest as [Hst Hsc].
  unfold store_ok, bounded. rewrite Hmax, Hitems, Hst, Hsc.
  split; [rewrite lastn_length; lia|].
  split; [exact Hm|split; [exact Hc|]].
  apply Forall_lastn, Forall_app; split; [exact Ht|].
  apply Forall_forall. intros dp Hin.
  apply in_map_iff in Hin as (dp0 & <- & Hin0).
  rewrite Forall_forall in Hpoints. specialize (Hpoints dp0 Hin0).
  unfold timed in *; cbn. rewrite Hpoints. ring.
Qed.

Lemma get_statistics_frame (self : AdvancedDataManager.t) refresh now :
  history_data (snd (DataReports.get_statistics self refresh now)) = history_data self /\
  start_time (snd (DataReports.get_statistics self refresh now)) = start_time self /\
  save_counter (snd (DataReports.get_statistics self refresh now)) = save_counter self.
Proof.
  unfold DataReports.get_statistics.
  destruct (_ && _ && _); [repeat split|].
  destruct (Deque.items (history_data self)); repeat split.
Qed.

Lemma step_ok (state : AdvancedDataManager.t * Disk) (c : Call) :
  store_ok (fst state) /\ disk_ok (snd state) ->
  store_ok (fst (step state c)) /\ disk_ok (snd (step state c)).
Proof.
  destruct state as [self disk]; cbn [fst snd]; intros [Hs Hd].
  destruct c as [ar t1 t2|t1 t2| |now|refresh now]; cbn [step].
  - pose proof (add_data_point_ok self disk ar t1 t2 Hs Hd) as H.
    destruct (add_data_point self disk ar t1 t2) as [[ok s'] d']. exact H.
  - pose proof (save_history_ok self disk t1 t2 Hs Hd) as H.
    destruct (save_history self disk t1 t2) as [[ok s'] d']. exact H.
  - cbn [fst snd]. split; [apply load_history_ok; assumption|exact Hd].
  - cbn [fst snd]. split; [|exact Hd].
    destruct Hs as (Hb & Hm & Hc & Ht).
    unfold clear_history. apply store_ok_intro.
    + cbn; lia.
    + exact Hm.
    + unfold gb.HISTORY_AUTO_SAVE_INTERVAL; lia.
    + constructor.
  - cbn [fst snd]. split; [|exact Hd].
    destruct (get_statistics_frame self refresh now) as (Hh & Hst & Hsc).
    destruct Hs as (Hb & Hm & Hc & Ht).
    unfold store_ok, bounded. rewrite Hh, Hst, Hsc.
    exact (conj Hb (conj Hm (conj Hc Ht))).
Qed.

(** X17.  Take a file whose points, when it has any, are timed from the
    start time it records (no file, an unreadable one and each file written
    by [save_history] are such).  A store made by [__init__] over it, after
    any calls of [add_data_point], [save_history], [load_history],
    [clear_history] and [get_statistics], holds at most 1000 points, has a
    save counter from 0 to 9, and the ['time'] of each of its points is the
    point's ['absolute_time'] less the store's start time, for the points
    loaded from the file as for those added; and the file is still such a
    file. *)
Theorem store_session_invariant :
  forall (disk : Disk) (t_start t_last : R) (calls : list Call),
    disk_ok disk ->
    let state := run (__init__ disk t_start t_last, disk) calls in
    let self := fst state in
    (List.length (Deque.items (history_data self)) <= 1000)%nat /\
    Deque.maxlen (history_data self) = 1000%nat /\
    (0 <= save_counter self <= 9)%Z /\
    (forall dp, In dp (Deque.items (history_data self)) ->
       time dp = absolute_time dp - start_time self) /\
    disk_ok (snd state).
Proof.
  intros disk t_start t_last calls Hd state self.
  assert (H0 : store_ok (fresh t_start t_last)).
  { unfold fresh. apply store_ok_intro.
    - cbn; lia.
    - reflexivity.
    - unfold gb.HISTORY_AUTO_SAVE_INTERVAL; lia.
    - constructor. }
  assert (H1 : store_ok (__init__ disk t_start t_last) /\ disk_ok disk).
  { split; [apply load_history_ok; assumption|exact Hd]. }
  assert (H : store_ok (fst state) /\ disk_ok (snd state)).
  { unfold state, run.
    change (store_ok (fst (__init__ disk t_start t_last, disk))
            /\ disk_ok (snd (__init__ disk t_start t_last, disk))) in H1.
    revert H1. generalize (__init__ disk t_start t_last, disk).
    induction calls as [|c calls IH]; intros st Hst; cbn [fold_left].
    - exact Hst.
    - apply IH, step_ok, Hst. }
  destruct H as [(Hb & Hm & Hc & Ht) Hdk]. fold self in Hb, Hm, Hc, Ht.
  unfold bounded in Hb. rewrite Hm in Hb.
  unfold gb.HISTORY_AUTO_SAVE_INTERVAL in Hc.
  split; [exact Hb|split; [exact Hm|split; [lia|split; [|exact Hdk]]]].
  intros dp Hin. rewrite Forall_forall in Ht. apply (Ht dp Hin).
Qed.

(** A session over the snapshot of an earlier run: one point is added and
    the file is loaded a second time. *)
Lemma store_session_invariant_witness :
  (0 <= save_counter
          (fst (run (__init__ Fixtures.old_disk 10 10, Fixtures.old_disk)
                  [AddDataPoint (Some (Fixtures.result 12 1)) 12 12; LoadHistory]))
   <= 9)%Z /\
  disk_ok
    (snd (run (__init__ Fixtures.old_disk 10 10, Fixtures.old_disk)
            [AddDataPoint (Some (Fixtures.result 12 1)) 12 12; LoadHistory])).
Proof.
  destruct (store_session_invariant Fixtures.old_disk 10 10
              [AddDataPoint (Some (Fixtures.result 12 1)) 12 12; LoadHistory])
    as (_ & _ & Hc & _ & Hd).
  - unfold disk_ok; cbn. exists 0. split; [reflexivity|].
    constructor; [reflexivity|constructor].
  - split; [exact Hc|exact Hd].
Defined.

End StoreSessions.

(** ** Saving, loading and querying the store *)

Section StoreOperations.

Import AdvancedDataManager.

Lemma append_nonempty {A : Type} (d : Deque.deque A) (x : A) :
  (0 < Deque.maxlen d)%nat -> Deque.items (Deque.append d x) <> [].
Proof.
  intros Hn. unfold Deque.append; cbn [Deque.items].
  destruct (Deque.items d) as [|y l]; cbn [app List.length].
  - destruct (Nat.ltb_spec (Deque.maxlen d) 1); [lia|discriminate].
  - destruct (Nat.ltb _ _); cbn [tl]; [|discriminate].
    destruct l; discriminate.
Qed.

(** X18.  A successful [add_data_point] returns [True] and resets the time
    of the statistics cache.  Below the tenth addition since the last
    automatic save it counts one more and leaves the file alone.  On the
    tenth it resets the counter and saves: a writable file then holds the
    store's start time and all its points, the new one included; a file
    that cannot be written stays as it was, the failure is not reported
    and the next attempt comes ten additions later. *)
Theorem add_data_point_auto_save :
  forall (self : AdvancedDataManager.t) (disk : Disk)
         (r : Dict.AnalysisResult) (dp : DataPoint) (t_save t_done : R),
    data_point_of self r = Some dp ->
    (0 < Deque.maxlen (history_data self))%nat ->
    let result := add_data_point self disk (Some r) t_save t_done in
    let self' := snd (fst result) in
    fst (fst result) = true /\
    stats_cache_time self' = 0 /\
    history_data self' = Deque.append (history_data self) dp /\
    ((save_counter self + 1 < 10)%Z ->
       save_counter self' = (save_counter self + 1)%Z /\ snd result = disk /\
       last_save_time self' = last_save_time self) /\
    ((10 <= save_counter self + 1)%Z ->
       save_counter self' = 0%Z /\
       (writable disk = true ->
          last_save_time self' = t_done /\
          exists h, file (snd result) = Stored h /\
                    hd_start_time h = Some (start_time self) /\
                    hd_data h = Some (Deque.items (history_data self'))) /\
       (writable disk = false ->
          snd result = disk /\ last_save_time self' = last_save_time self)).
Proof.
  intros self disk r dp t_save t_done Hdp Hn result self'.
  pose proof (append_nonempty (history_data self) dp Hn) as Hne.
  unfold self', result, add_data_point. rewrite Hdp. cbn [save_counter].
  unfold gb.HISTORY_AUTO_SAVE_INTERVAL.
  destruct (10 <=? save_counter self + 1)%Z eqn:Hk.
  - apply Z.leb_le in Hk.
    unfold save_history, Deque.len; cbn [history_data].
    destruct (Deque.items (Deque.append (history_data self) dp)) as [|x l] eqn:Hi;
      [contradiction|].
    cbn [List.length Nat.eqb].
    destruct (writable disk) eqn:Hw; cbn [fst snd stats_cache_time history_data
      save_counter last_save_time file].
    + split; [reflexivity|split; [reflexivity|split; [reflexivity|]]].
      split; [intros; lia|]. intros _.
      split; [reflexivity|]. split; [|intros; discriminate].
      intros _. split; [reflexivity|].
      eexists. split; [reflexivity|]. split; [reflexivity|].
      cbn [hd_data]. rewrite Hi. reflexivity.
    + split; [reflexivity|split; [reflexivity|split; [reflexivity|]]].
      split; [intros; lia|]. intros _.
      split; [reflexivity|]. split; [intros; discriminate|].
      intros _. split; reflexivity.
  - apply Z.leb_gt in Hk.
    cbn [fst snd stats_cache_time history_data save_counter last_save_time].
    split; [reflexivity|split; [reflexivity|split; [reflexivity|]]].
    split; [intros _; repeat split|intros; lia].
Qed.

(** The tenth point of a store of capacity 1000 on a file that can be
    written. *)
Lemma add_data_point_auto_save_witness :
  exists h,
    file (snd (add_data_point
                 (AdvancedDataManager.mk (Deque.empty 1000) 0 9 0 [] 0)
                 Fixtures.blank_disk (Some (Fixtures.result 1 1)) 2 3))
      = Stored h /\
    hd_start_time h = Some 0.
Proof.
  destruct (add_data_point_auto_save
              (AdvancedDataManager.mk (Deque.empty 1000) 0 9 0 [] 0)
              Fixtures.blank_disk (Fixtures.result 1 1) (Fixtures.point 1 1) 2 3)
    as (_ & _ & _ & _ & Hten).
  - reflexivity.
  - cbn; lia.
  - destruct Hten as (_ & Hw & _); [cbn; lia|].
    destruct (Hw eq_refl) as (_ & h & Hf & Hs & _).
    exists h. split; [exact Hf|exact Hs].
Defined.

(** X19.  [load_history] returns [False] and leaves the store as it was
    when the file is absent, cannot be read or has no ['data'].  Otherwise
    it returns [True] and appends the file's points, rebased, to the points
    the store holds: nothing is cleared first, the start time, the save
    counter and the statistics cache stay, and the capacity applies.  So a
    second load into the store that [__init__] has filled from a file of
    at most 500 points holds every point of the file twice. *)
Theorem load_history_appends :
  forall (self : AdvancedDataManager.t) (disk : Disk),
    bounded self ->
    (file disk = Missing \/ file disk = Unreadable \/
     (exists h, file disk = Stored h /\ hd_data h = None) ->
       load_history self disk = (false, self)) /\
    (forall h points,
       file disk = Stored h -> hd_data h = Some points ->
       let offset :=
         start_time self
         - match hd_start_time h with Some s => s | None => start_time self end in
       let self' := snd (load_history self disk) in
       fst (load_history self disk) = true /\
       Deque.items (history_data self')
       = Deque.lastn (Deque.maxlen (history_data self))
           (Deque.items (history_data self)
            ++ map (fun dp => adjusted_point dp offset) points) /\
       start_time self' = start_time self /\
       save_counter self' = save_counter self /\
       stats_cache self' = stats_cache self /\
       stats_cache_time self' = stats_cache_time self) /\
    (forall h points t_start t_last,
       file disk = Stored h -> hd_data h = Some points ->
       (2 * List.length points <= 1000)%nat ->
       let offset :=
         t_start - match hd_start_time h with Some s => s | None => t_start end in
       let loaded := map (fun dp => adjusted_point dp offset) points in
       Deque.items
         (history_data (snd (load_history (__init__ disk t_start t_last) disk)))
       = loaded ++ loaded).
Proof.
  intros self disk Hb. split; [|split].
  - intros [H|[H|(h & H & Hd)]]; unfold load_history; rewrite H;
      try reflexivity. rewrite Hd; reflexivity.
  - intros h points Hf Hd offset self'.
    destruct (load_history_stored self disk h points Hf Hd Hb) as (Hok & _ & Hi).
    split; [exact Hok|split; [exact Hi|]].
    unfold self', load_history. rewrite Hf, Hd. repeat split.
  - intros h points t_start t_last Hf Hd Hlen offset loaded.
    assert (Hb0 : bounded (fresh t_start t_last)) by (unfold bounded; cbn; lia).
    destruct (load_history_stored (fresh t_start t_last) disk h points Hf Hd Hb0)
      as (_ & Hm1 & Hi1).
    assert (Hst : start_time (__init__ disk t_start t_last) = t_start).
    { unfold __init__, load_history. rewrite Hf, Hd. reflexivity. }
    assert (Hi1' : Deque.items (history_data (__init__ disk t_start t_last))
                   = loaded).
    { unfold __init__. rewrite Hi1. cbn [fresh history_data Deque.empty
        Deque.items Deque.maxlen app start_time].
      apply lastn_all. unfold loaded. rewrite length_map.
      unfold gb.HISTORY_SIZE. lia. }
    assert (Hm1' : Deque.maxlen (history_data (__init__ disk t_start t_last))
                   = 1000%nat) by exact Hm1.
    assert (Hb1 : bounded (__init__ disk t_start t_last)).
    { unfold bounded. rewrite Hi1', Hm1'. unfold loaded. rewrite length_map. lia. }
    destruct (load_history_stored (__init__ disk t_start t_last) disk h points
                Hf Hd Hb1) as (_ & _ & Hi2).
    rewrite Hi2, Hi1', Hm1', Hst. fold offset. fold loaded.
    apply lastn_all. rewrite length_app. unfold loaded.
    rewrite length_map. lia.
Qed.

Lemma load_history_appends_witness :
  List.length
    (Deque.items
       (history_data
          (snd (load_history (__init__ Fixtures.old_disk 10 10) Fixtures.old_disk))))
  = 2%nat.
Proof.
  destruct (load_history_appends (fresh 10 10) Fixtures.old_disk) as (_ & _ & H).
  - unfold bounded; cbn; lia.
  - rewrite (H Fixtures.old_snapshot [Fixtures.point 1 2] 10 10 eq_refl eq_refl).
    + reflexivity.
    + cbn; lia.
Defined.

(** X20.  [get_recent_data] without arguments returns the whole history in
    order; with a positive [count] it returns the last [count] points, all
    of them when there are fewer; with [count = 0] it returns the whole
    history, not the empty list; and with a [time_window] it ignores
    [count] and returns the points not older than the window. *)
Theorem get_recent_data_selects :
  forall (self : AdvancedDataManager.t) (now : R),
    let history := Deque.items (history_data self) in
    DataReports.get_recent_data self None None now = history /\
    (forall count : Z,
       (0 < count)%Z ->
       DataReports.get_recent_data self (Some count) None now
       = Deque.lastn (Z.to_nat count) history) /\
    DataReports.get_recent_data self (Some 0%Z) None now = history /\
    (forall count time_window,
       DataReports.get_recent_data self count (Some time_window) now
       = filter (fun dp => Py.leb (now - start_time self - time_window) (time dp))
           history) /\
    (forall count time_window dp,
       In dp (DataReports.get_recent_data self count (Some time_window) now) <->
       In dp history /\ now - start_time self - time_window <= time dp).
Proof.
  intros self now history.
  assert (Hw : forall count time_window,
            DataReports.get_recent_data self count (Some time_window) now
            = filter (fun dp => Py.leb (now - start_time self - time_window) (time dp))
                history).
  { intros count w. unfold DataReports.get_recent_data. fold history.
    destruct history; reflexivity. }
  split; [|split; [|split; [|split]]].
  - unfold DataReports.get_recent_data. fold history.
    destruct history; reflexivity.
  - intros count Hc. unfold DataReports.get_recent_data. fold history.
    destruct history as [|x l] eqn:Hh; [reflexivity|].
    unfold Np.slice_from, Deque.lastn.
    assert (E : (- count <? 0)%Z = true) by (apply Z.ltb_lt; lia).
    rewrite E. f_equal. lia.
  - unfold DataReports.get_recent_data. fold history.
    destruct history; reflexivity.
  - exact Hw.
  - intros count w dp. rewrite Hw, filter_In, leb_true_iff. reflexivity.
Qed.

Lemma get_recent_data_selects_witness :
  DataReports.get_recent_data Fixtures.store_ab (Some 1%Z) None 0
  = [Fixtures.point 3 4].
Proof.
  apply (get_recent_data_selects Fixtures.store_ab 0). lia.
Defined.

End StoreOperations.

(** ** Statistics and export *)

Section Statistics.

Import AdvancedDataManager.

Lemma fold_Rmin_le (l : list R) : forall x,
  fold_left Rmin l x <= x /\ forall y, In y l -> fold_left Rmin l x <= y.
Proof.
  induction l as [|z l IH]; intros x; cbn [fold_left].
  - split; [lra|intros y []].
  - destruct (IH (Rmin x z)) as [H1 H2].
    pose proof (Rmin_l x z). pose proof (Rmin_r x z).
    split; [lra|]. intros y [<-|Hy]; [lra|apply H2, Hy].
Qed.

Lemma fold_Rmax_ge (l : list R) : forall x,
  x <= fold_left Rmax l x /\ forall y, In y l -> y <= fold_left Rmax l x.
Proof.
  induction l as [|z l IH]; intros x; cbn [fold_left].
  - split; [lra|intros y []].
  - destruct (IH (Rmax x z)) as [H1 H2].
    pose proof (Rmax_l x z). pose proof (Rmax_r x z).
    split; [lra|]. intros y [<-|Hy]; [lra|apply H2, Hy].
Qed.

Lemma np_min_le (l : list R) (y : R) : In y l -> Np.min l <= y.
Proof.
  destruct l as [|x l]; [intros []|].
  intros [Heq|Hy]; cbn [Np.min];
    [rewrite <- Heq; apply (proj1 (fold_Rmin_le l x))
    |apply (proj2 (fold_Rmin_le l x)), Hy].
Qed.

Lemma np_max_ge (l : list R) (y : R) : In y l -> y <= Np.max l.
Proof.
  destruct l as [|x l]; [intros []|].
  intros [Heq|Hy]; cbn [Np.max];
    [rewrite <- Heq; apply (proj1 (fold_Rmax_ge l x))
    |apply (proj2 (fold_Rmax_ge l x)), Hy].
Qed.

Lemma fold_Rmin_in (l : list R) : forall x,
  fold_left Rmin l x = x \/ In (fold_left Rmin l x) l.
Proof.
  induction l as [|z l IH]; intros x; cbn [fold_left]; [left; reflexivity|].
  destruct (IH (Rmin x z)) as [H|H]; [|right; right; exact H].
  rewrite H. unfold Rmin. destruct (Rle_dec x z); [left|right; left]; reflexivity.
Qed.

Lemma fold_Rmax_in (l : list R) : forall x,
  fold_left Rmax l x = x \/ In (fold_left Rmax l x) l.
Proof.
  induction l as [|z l IH]; intros x; cbn [fold_left]; [left; reflexivity|].
  destruct (IH (Rmax x z)) as [H|H]; [|right; right; exact H].
  rewrite H. unfold Rmax. destruct (Rle_dec x z); [right; left|left]; reflexivity.
Qed.

Lemma np_min_in (l : list R) : l <> [] -> In (Np.min l) l.
Proof.
  destruct l as [|x l]; [contradiction|]. intros _. cbn [Np.min].
  destruct (fold_Rmin_in l x) as [H|H]; [left; symmetry; exact H|right; exact H].
Qed.

Lemma np_max_in (l : list R) : l <> [] -> In (Np.max l) l.
Proof.
  destruct l as [|x l]; [contradiction|]. intros _. cbn [Np.max].
  destruct (fold_Rmax_in l x) as [H|H]; [left; symmetry; exact H|right; exact H].
Qed.

Lemma filter_length_le {A : Type} (p : A -> bool) (l : list A) :
  (List.length (filter p l) <= List.length l)%nat.
Proof.
  induction l as [|x l IH]; cbn; [lia|]. destruct (p x); cbn; lia.
Qed.

Lemma filter_length_mono {A : Type} (p q : A -> bool) (l : list A) :
  (forall x, p x = true -> q x = true) ->
  (List.length (filter p l) <= List.length (filter q l))%nat.
Proof.
  intros H. induction l as [|x l IH]; cbn; [lia|].
  destruct (p x) eqn:Hp.
  - rewrite (H x Hp). cbn. lia.
  - destruct (q x); cbn; lia.
Qed.

(** X21.  For a store that holds points, [get_statistics(refresh=True)]
    returns a dictionary in which ['count'] is the number of points,
    ['de_min'] and ['de_max'] are the ['de'] of two of the points and bound
    the ['de'] of every point, the standard deviation is not negative, and
    ['critical_count'] (values above 5.0 in absolute value) is at most
    ['warning_count'] (above 3.0), which is at most ['count']; the
    dictionary becomes the cache, stamped with the time of the call, and
    the history is left as it was. *)
Theorem get_statistics_fields :
  forall (self : AdvancedDataManager.t) (current_time : R),
    Deque.items (history_data self) <> [] ->
    let history := Deque.items (history_data self) in
    let result := DataReports.get_statistics self true current_time in
    let stats := fst result in
    exists lo hi dev warnings criticals,
      DataReports.lookup "count" stats = Some (INR (List.length history)) /\
      DataReports.lookup "de_min" stats = Some lo /\
      DataReports.lookup "de_max" stats = Some hi /\
      DataReports.lookup "de_std" stats = Some dev /\
      DataReports.lookup "warning_count" stats = Some (INR warnings) /\
      DataReports.lookup "critical_count" stats = Some (INR criticals) /\
      (forall dp, In dp history -> lo <= de dp <= hi) /\
      (exists dp, In dp history /\ de dp = lo) /\
      (exists dp, In dp history /\ de dp = hi) /\
      0 <= dev /\
      (criticals <= warnings <= List.length history)%nat /\
      stats_cache (snd result) = stats /\
      stats_cache_time (snd result) = current_time /\
      history_data (snd result) = history_data self.
Proof.
  intros self now Hne history result stats.
  unfold stats, result, DataReports.get_statistics. cbn [negb andb].
  fold history.
  destruct history as [|x l] eqn:Hh; [contradiction|].
  rewrite <- Hh. clear Hne.
  set (des := map de history).
  assert (Hde : forall dp, In dp history -> Np.min des <= de dp <= Np.max des).
  { intros dp Hin.
    assert (Hin' : In (de dp) des) by (apply in_map, Hin).
    split; [apply np_min_le|apply np_max_ge]; exact Hin'. }
  assert (Hdes : des <> []) by (unfold des; rewrite Hh; discriminate).
  exists (Np.min des), (Np.max des), (Np.std des),
    (List.length (DataReports.exceeding gb.WARNING_THRESHOLD_DE des)),
    (List.length (DataReports.exceeding gb.CRITICAL_THRESHOLD_DE des)).
  cbn [fst snd stats_cache stats_cache_time history_data].
  split; [unfold DataReports.statistics, DataReports.len; cbn;
          fold des; unfold des; rewrite length_map; reflexivity|].
  do 5 (split; [reflexivity|]).
  split; [exact Hde|].
  split.
  { pose proof (np_min_in des Hdes) as Hin. unfold des in Hin at 2.
    apply in_map_iff in Hin as (dp & Heq & Hin). exists dp. split; assumption. }
  split.
  { pose proof (np_max_in des Hdes) as Hin. unfold des in Hin at 2.
    apply in_map_iff in Hin as (dp & Heq & Hin). exists dp. split; assumption. }
  split; [apply sqrt_pos|].
  split.
  { split.
    - apply filter_length_mono. intros v Hv.
      apply ltb_true_iff in Hv. apply ltb_true_iff.
      unfold gb.CRITICAL_THRESHOLD_DE, gb.WARNING_THRESHOLD_DE in *. lra.
    - unfold DataReports.exceeding.
      replace (List.length history) with (List.length des)
        by (unfold des; apply length_map).
      apply filter_length_le. }
  repeat split.
Qed.

Lemma get_statistics_fields_witness :
  DataReports.lookup "count"
    (fst (DataReports.get_statistics Fixtures.store_ab true 7))
  = Some (INR 2) /\
  DataReports.lookup "de_max"
    (fst (DataReports.get_statistics Fixtures.store_ab true 7))
  = Some 4.
Proof.
  destruct (get_statistics_fields Fixtures.store_ab 7)
    as (lo & hi & dev & w & c & Hcount & _ & Hmax & _ & _ & _ & Hb & _ & Hhi & _).
  - discriminate.
  - split; [exact Hcount|]. rewrite Hmax. f_equal.
    destruct Hhi as (dp & Hin & Heq).
    pose proof (Hb (Fixtures.point 3 4)) as Hb4.
    cbn in Hin. destruct Hin as [<-|[<-|[]]]; cbn in Heq.
    + assert (In (Fixtures.point 3 4)
                [Fixtures.point 1 2; Fixtures.point 3 4]) as Hi
        by (right; left; reflexivity).
      specialize (Hb4 Hi). cbn in Hb4. lra.
    + lra.
Defined.

End Statistics.

(** ** The statistics cache, the export and the reset *)

Section CacheAndExport.

Import AdvancedDataManager.

Lemma load_history_cache (self : AdvancedDataManager.t) (disk : Disk) :
  stats_cache (snd (load_history self disk)) = stats_cache self /\
  stats_cache_time (snd (load_history self disk)) = stats_cache_time self.
Proof.
  unfold load_history.
  destruct (file disk) as [| |h]; try (split; reflexivity).
  destruct (hd_data h); split; reflexivity.
Qed.

Lemma get_statistics_cached (self : AdvancedDataManager.t) (now : R) :
  0 < stats_cache_time self -> now - stats_cache_time self < 5 ->
  DataReports.get_statistics self false now = (stats_cache self, self).
Proof.
  intros H0 H5. unfold DataReports.get_statistics.
  apply ltb_true_iff in H0. apply ltb_true_iff in H5.
  rewrite H0, H5. reflexivity.
Qed.

Lemma get_statistics_recomputed (self : AdvancedDataManager.t) (now : R) :
  stats_cache_time self <= 0 \/ 5 <= now - stats_cache_time self ->
  DataReports.get_statistics self false now
  = DataReports.get_statistics self true now.
Proof.
  intros H. unfold DataReports.get_statistics.
  destruct H as [H|H].
  - apply ltb_false_iff in H. rewrite H. reflexivity.
  - apply ltb_false_iff in H. rewrite H.
    destruct (Py.ltb 0 (stats_cache_time self)); reflexivity.
Qed.

(** X22.  After [get_statistics] has computed the statistics of a store
    that holds points, at a positive time, a call without [refresh] less
    than 5 seconds later returns the same dictionary without computing; it
    does so even after [load_history] has added points in between, which
    the dictionary then leaves out.  Five seconds later or more, after a
    successful [add_data_point], or after [clear_history], the call
    computes again; after [clear_history] it returns the empty
    dictionary. *)
Theorem statistics_cache_lifetime :
  forall (self : AdvancedDataManager.t) (current_time : R),
    Deque.items (history_data self) <> [] -> 0 < current_time ->
    let stats := fst (DataReports.get_statistics self true current_time) in
    let self' := snd (DataReports.get_statistics self true current_time) in
    (forall later, later - current_time < 5 ->
       DataReports.get_statistics self' false later = (stats, self')) /\
    (forall later disk, later - current_time < 5 ->
       fst (DataReports.get_statistics (snd (load_history self' disk)) false later)
       = stats) /\
    (forall later, 5 <= later - current_time ->
       DataReports.get_statistics self' false later
       = DataReports.get_statistics self' true later) /\
    (forall later disk r dp t_save t_done,
       data_point_of self' r = Some dp ->
       let added := snd (fst (add_data_point self' disk (Some r) t_save t_done)) in
       DataReports.get_statistics added false later
       = DataReports.get_statistics added true later) /\
    (forall later now,
       DataReports.get_statistics (clear_history self' now) false later
       = ([], clear_history self' now)).
Proof.
  intros self now Hne Hpos stats self'.
  assert (Hc : stats_cache self' = stats /\ stats_cache_time self' = now).
  { unfold self', stats, DataReports.get_statistics. cbn [negb andb].
    destruct (Deque.items (history_data self)); [contradiction|].
    split; reflexivity. }
  destruct Hc as [Hcache Htime].
  split; [|split; [|split; [|split]]].
  - intros later Hl. rewrite get_statistics_cached; rewrite ?Htime; try lra.
    rewrite Hcache. reflexivity.
  - intros later disk Hl.
    destruct (load_history_cache self' disk) as [H1 H2].
    rewrite get_statistics_cached; rewrite ?H2, ?Htime; try lra.
    cbn [fst]. rewrite H1. exact Hcache.
  - intros later Hl. apply get_statistics_recomputed. rewrite Htime. right; lra.
  - intros later disk r dp t_save t_done Hdp added.
    apply get_statistics_recomputed. left.
    assert (Hz : stats_cache_time added = 0).
    { unfold added, add_data_point. rewrite Hdp.
      destruct (_ <=? _)%Z; [|reflexivity].
      destruct (save_history _ _ _ _) as [[ok s2] d2]. reflexivity. }
    rewrite Hz. lra.
  - intros later t. unfold DataReports.get_statistics, clear_history; cbn.
    assert (E : Py.ltb 0 0 = false) by (apply ltb_false_iff; lra).
    rewrite E. reflexivity.
Qed.

(** Statistics of two points computed at time 7 and asked again at 9. *)
Lemma statistics_cache_lifetime_witness :
  DataReports.get_statistics
    (snd (DataReports.get_statistics Fixtures.store_ab true 7)) false 9
  = DataReports.get_statistics Fixtures.store_ab true 7.
Proof.
  destruct (statistics_cache_lifetime Fixtures.store_ab 7) as (H & _);
    [discriminate|lra|].
  rewrite H by lra. reflexivity.
Defined.

(** X23.  [export_csv] returns [False] and writes nothing for a store
    without points, and when the file cannot be opened.  Otherwise it
    returns [True] and writes the header of 19 field names followed by one
    row per point, in the order of the history, each of 19 values with the
    point's ['time'] first and its ['de'] third. *)
Theorem export_csv_rows :
  forall (self : AdvancedDataManager.t) (can_open : bool),
    let history := Deque.items (history_data self) in
    (history = [] -> DataReports.export_csv self can_open = (false, None)) /\
    DataReports.export_csv self false = (false, None) /\
    (history <> [] ->
       exists rows,
         DataReports.export_csv self true
         = (true, Some (map DataReports.Str DataReports.fieldnames :: rows)) /\
         List.length rows = List.length history /\
         List.length DataReports.fieldnames = 19%nat /\
         Forall (fun row => List.length row = 19%nat) rows /\
         (forall i dp, nth_error history i = Some dp ->
            exists row, nth_error rows i = Some row /\
                        nth_error row 0 = Some (DataReports.Num (time dp)) /\
                        nth_error row 2 = Some (DataReports.Num (de dp)))).
Proof.
  intros self can_open history.
  unfold DataReports.export_csv. fold history.
  split; [intros ->; reflexivity|].
  split; [destruct history; reflexivity|].
  intros Hne. destruct history as [|x l] eqn:Hh; [contradiction|].
  exists (map DataReports.row (x :: l)).
  split; [reflexivity|].
  split; [apply length_map|].
  split; [reflexivity|].
  split.
  - apply Forall_forall. intros row Hin.
    apply in_map_iff in Hin as (dp & <- & _). reflexivity.
  - intros i dp Hi. exists (DataReports.row dp).
    split; [apply map_nth_error, Hi|split; reflexivity].
Qed.

Lemma export_csv_rows_witness :
  exists rows,
    DataReports.export_csv Fixtures.store_ab true
    = (true, Some (map DataReports.Str DataReports.fieldnames :: rows)) /\
    List.length rows = 2%nat.
Proof.
  destruct (export_csv_rows Fixtures.store_ab true) as (_ & _ & H).
  destruct H as (rows & Hr & Hl & _); [discriminate|].
  exists rows. split; [exact Hr|exact Hl].
Defined.

(** X24.  [clear_history] empties the store, restarts its clock at the time
    of the call, resets the save counter and the statistics cache and keeps
    the capacity.  The file is not touched, and a [save_history] that
    follows returns [True] and writes nothing, so the next store made by
    [__init__] loads the points that were cleared, when they had been
    saved: as many as the file holds, each with its time rebased. *)
Theorem clear_history_keeps_file :
  forall (self : AdvancedDataManager.t) (disk : Disk) (now t_save t_done : R),
    let cleared := clear_history self now in
    Deque.items (history_data cleared) = [] /\
    Deque.maxlen (history_data cleared) = Deque.maxlen (history_data self) /\
    start_time cleared = now /\ save_counter cleared = 0%Z /\
    stats_cache cleared = [] /\ stats_cache_time cleared = 0 /\
    save_history cleared disk t_save t_done = (true, cleared, disk) /\
    (forall h points t_start t_last,
       file disk = Stored h -> hd_data h = Some points ->
       (List.length points <= 1000)%nat ->
       let restored :=
         Deque.items
           (history_data
              (__init__ (snd (save_history cleared disk t_save t_done))
                 t_start t_last)) in
       List.length restored = List.length points /\
       restored
       = map (fun dp =>
                adjusted_point dp
                  (t_start
                   - match hd_start_time h with Some s => s | None => t_start end))
           points).
Proof.
  intros self disk now t_save t_done cleared.
  do 6 (split; [reflexivity|]).
  split; [reflexivity|].
  intros h points t_start t_last Hf Hd Hlen.
  change (snd (save_history cleared disk t_save t_done)) with disk.
  assert (Hb : bounded (fresh t_start t_last)) by (unfold bounded; cbn; lia).
  destruct (load_history_stored (fresh t_start t_last) disk h points Hf Hd Hb)
    as (_ & _ & Hi).
  cbv zeta. unfold __init__. rewrite Hi.
  cbn [fresh history_data Deque.empty Deque.items Deque.maxlen app start_time].
  rewrite lastn_all by (rewrite length_map; unfold gb.HISTORY_SIZE; exact Hlen).
  split; [apply length_map|reflexivity].
Qed.

Lemma clear_history_keeps_file_witness :
  List.length
    (Deque.items
       (history_data
          (__init__ (snd (save_history (clear_history Fixtures.store_ab 30)
                            Fixtures.old_disk 31 32)) 40 40)))
  = 1%nat.
Proof.
  destruct (clear_history_keeps_file Fixtures.store_ab Fixtures.old_disk 30 31 32)
    as (_ & _ & _ & _ & _ & _ & _ & H).
  destruct (H Fixtures.old_snapshot [Fixtures.point 1 2] 40 40 eq_refl eq_refl)
    as [Hlen _]; [cbn; lia|exact Hlen].
Defined.

End CacheAndExport.

(** ** The graph widget and the handlers of the window *)

Section Window.

Import AdvancedDataManager.

Lemma add_point_warns (self : DeltaEGraph.t) (disk : Disk) (de_value now : R) :
  fst (fst (DeltaEGraph.add_point self disk de_value now))
  = Py.ltb gb.QUALITY_GRADE_ACCEPTABLE (Rabs de_value).
Proof.
  unfold DeltaEGraph.add_point; cbn [fst].
  unfold gb.get_quality_grade, gb.QUALITY_GRADE_EXCELLENT, gb.QUALITY_GRADE_GOOD,
    gb.QUALITY_GRADE_ACCEPTABLE, gb.QUALITY_GRADE_DEFECTIVE.
  cmp_cases (Rabs de_value) 1; [symmetry; apply ltb_false_iff; lra|].
  cmp_cases (Rabs de_value) 2; [symmetry; apply ltb_false_iff; lra|].
  cmp_cases (Rabs de_value) 3; [symmetry; apply ltb_false_iff; lra|].
  cmp_cases (Rabs de_value) 5; symmetry; apply ltb_true_iff; lra.
Qed.

(** X25.  [DeltaEGraph.add_point] returns [True] exactly when the absolute
    value of the difference exceeds 3.0, whatever the state of the graph and
    of the file; these are the values that [get_statistics] counts in
    ['warning_count'], so the count of a history is the number of its
    points for which the graph reports a warning. *)
Theorem add_point_warning_criterion :
  forall (self : DeltaEGraph.t) (disk : Disk) (now : R),
    (forall de_value,
       fst (fst (DeltaEGraph.add_point self disk de_value now)) = true
       <-> 3 < Rabs de_value) /\
    (forall history : list DataPoint,
       DataReports.lookup "warning_count" (DataReports.statistics history)
       = Some (INR (List.length
                      (filter (fun dp =>
                                 fst (fst (DeltaEGraph.add_point self disk (de dp) now)))
                              history)))).
Proof.
  intros self disk now. split.
  - intros de_value. rewrite add_point_warns.
    unfold gb.QUALITY_GRADE_ACCEPTABLE. apply ltb_true_iff.
  - intros history. unfold DataReports.statistics.
    cbv [DataReports.lookup String.eqb Ascii.eqb Bool.eqb].
    f_equal. unfold DataReports.len. f_equal.
    unfold DataReports.exceeding.
    induction history as [|dp l IH]; [reflexivity|].
    cbn [map filter]. rewrite add_point_warns.
    change gb.WARNING_THRESHOLD_DE with gb.QUALITY_GRADE_ACCEPTABLE in *.
    destruct (Py.ltb gb.QUALITY_GRADE_ACCEPTABLE (Rabs (de dp)));
      cbn [List.length]; rewrite IH; reflexivity.
Qed.

Lemma graph_save_history_file (self : DeltaEGraph.t) (disk : Disk) :
  writable disk = true ->
  exists h, file (DeltaEGraph.save_history self disk) = Stored h /\
            hd_start_time h = Some (DeltaEGraph.start_time self) /\
            hd_data h = None /\
            writable (DeltaEGraph.save_history self disk) = true.
Proof.
  intros Hw. unfold DeltaEGraph.save_history. rewrite Hw.
  eexists; repeat split; reflexivity.
Qed.

Lemma load_history_without_data (self : AdvancedDataManager.t) (disk : Disk) h :
  file disk = Stored h -> hd_data h = None ->
  load_history self disk = (false, self).
Proof. intros Hf Hd. unfold load_history. rewrite Hf, Hd. reflexivity. Qed.

(** X26.  [DeltaEGraph.add_point] appends the value and the time since the
    graph was created, and saves when the number of values it then holds
    is a multiple of 10.  A graph that holds fewer values than its
    capacity holds one more afterwards; a graph that is full (1000 values)
    stays full, so from then on every point is followed by a save.  The
    save replaces a writable file by the graph's own dictionary, which has
    no ['data'] key, so that [AdvancedDataManager.load_history] returns
    [False] on it; a file that cannot be written is left as it was. *)
Theorem add_point_save_schedule :
  forall (self : DeltaEGraph.t) (disk : Disk) (de_value now : R),
    (List.length (Deque.items (DeltaEGraph.de_values self))
     <= Deque.maxlen (DeltaEGraph.de_values self))%nat ->
    let result := DeltaEGraph.add_point self disk de_value now in
    let self' := snd (fst result) in
    let n := Deque.len (DeltaEGraph.de_values self') in
    Deque.items (DeltaEGraph.de_values self')
    = Deque.lastn (Deque.maxlen (DeltaEGraph.de_values self))
        (Deque.items (DeltaEGraph.de_values self) ++ [de_value]) /\
    DeltaEGraph.times self'
    = Deque.append (DeltaEGraph.times self) (now - DeltaEGraph.start_time self) /\
    DeltaEGraph.start_time self' = DeltaEGraph.start_time self /\
    n = Nat.min (Deque.maxlen (DeltaEGraph.de_values self))
          (S (Deque.len (DeltaEGraph.de_values self))) /\
    ((Z.of_nat n mod 10 <> 0)%Z -> snd result = disk) /\
    (writable disk = false -> snd result = disk) /\
    ((Z.of_nat n mod 10 = 0)%Z -> writable disk = true ->
       exists h, file (snd result) = Stored h /\
                 hd_start_time h = Some (DeltaEGraph.start_time self) /\
                 hd_data h = None /\
                 forall store, load_history store (snd result) = (false, store)).
Proof.
  intros self disk de_value now Hb result self' n.
  assert (Hitems : Deque.items (DeltaEGraph.de_values self')
                   = Deque.lastn (Deque.maxlen (DeltaEGraph.de_values self))
                       (Deque.items (DeltaEGraph.de_values self) ++ [de_value])).
  { unfold self', result, DeltaEGraph.add_point; cbn [fst snd DeltaEGraph.de_values].
    apply append_items, Hb. }
  split; [exact Hitems|].
  split; [reflexivity|]. split; [reflexivity|].
  assert (Hn : n = Nat.min (Deque.maxlen (DeltaEGraph.de_values self))
                     (S (Deque.len (DeltaEGraph.de_values self)))).
  { unfold n, Deque.len. rewrite Hitems, lastn_length, length_app.
    cbn [List.length]. lia. }
  split; [exact Hn|].
  assert (Hd : snd result
               = if (Z.of_nat n mod gb.HISTORY_AUTO_SAVE_INTERVAL =? 0)%Z
                 then DeltaEGraph.save_history self' disk else disk)
    by reflexivity.
  unfold gb.HISTORY_AUTO_SAVE_INTERVAL in Hd.
  split; [|split].
  - intros Hm. apply Z.eqb_neq in Hm. rewrite Hd, Hm. reflexivity.
  - intros Hw. rewrite Hd. unfold DeltaEGraph.save_history. rewrite Hw.
    destruct (_ =? _)%Z; reflexivity.
  - intros Hm Hw. apply Z.eqb_eq in Hm. rewrite Hd, Hm.
    destruct (graph_save_history_file self' disk Hw) as (h & Hf & Hs & Hdata & _).
    exists h. split; [exact Hf|]. split; [exact Hs|]. split; [exact Hdata|].
    intros store. apply (load_history_without_data store _ h Hf Hdata).
Qed.

(** A full graph saves at the next point. *)
Lemma add_point_save_schedule_witness :
  exists h,
    file (snd (DeltaEGraph.add_point Fixtures2.graph_full Fixtures.old_disk 4 7))
    = Stored h /\
    hd_data h = None.
Proof.
  assert (Hb : (List.length (Deque.items (DeltaEGraph.de_values Fixtures2.graph_full))
                <= Deque.maxlen (DeltaEGraph.de_values Fixtures2.graph_full))%nat).
  { cbn [Fixtures2.graph_full DeltaEGraph.de_values Deque.items Deque.maxlen].
    rewrite repeat_length. unfold gb.HISTORY_SIZE. lia. }
  destruct (add_point_save_schedule Fixtures2.graph_full Fixtures.old_disk 4 7 Hb)
    as (_ & _ & _ & Hn & _ & _ & H).
  destruct H as (h & Hf & _ & Hd & _).
  - rewrite Hn. unfold Deque.len.
    cbn [Fixtures2.graph_full DeltaEGraph.de_values Deque.items Deque.maxlen].
    rewrite repeat_length. reflexivity.
  - reflexivity.
  - exists h. split; [exact Hf|exact Hd].
Defined.

Lemma save_history_writable (self : AdvancedDataManager.t) (disk : Disk)
    (t_save t_done : R) :
  writable (snd (save_history self disk t_save t_done)) = writable disk.
Proof.
  unfold save_history. destruct (Nat.eqb _ _); [reflexivity|].
  destruct (writable disk) eqn:Hw; cbn; auto.
Qed.

Lemma add_data_point_writable (self : AdvancedDataManager.t) (disk : Disk)
    (r : option Dict.AnalysisResult) (t_save t_done : R) :
  writable (snd (add_data_point self disk r t_save t_done)) = writable disk.
Proof.
  unfold add_data_point. destruct r as [r|]; [|reflexivity].
  destruct (data_point_of self r) as [dp|]; [|reflexivity].
  destruct (_ <=? _)%Z; [|reflexivity].
  match goal with
  | |- context [save_history ?s ?d ?a ?b] =>
    pose proof (save_history_writable s d a b) as H;
    destruct (save_history s d a b) as [[ok s2] d2]
  end.
  exact H.
Qed.

(** X27.  [MainWindow.closeEvent] saves the store and then the graph, both
    to [gb.HISTORY_FILE].  With a writable file the graph's dictionary is
    what remains, whatever the store held: the file has no ['data'] key,
    and the store that [AdvancedDataManager.__init__] makes in the next
    session loads nothing and starts empty.  With a file that cannot be
    written, the file stays as it was.  The points in memory are not
    changed by closing. *)
Theorem closeEvent_leaves_graph_file :
  forall (tab : ColorAnalyzerTab.t) (disk : Disk) (t_save t_done : R),
    let result := MainWindow.closeEvent tab disk t_save t_done in
    history_data (ColorAnalyzerTab.data_manager (fst result))
    = history_data (ColorAnalyzerTab.data_manager tab) /\
    ColorAnalyzerTab.de_graph (fst result) = ColorAnalyzerTab.de_graph tab /\
    (writable disk = false -> snd result = disk) /\
    (writable disk = true ->
       (exists h, file (snd result) = Stored h /\
                  hd_start_time h
                  = Some (DeltaEGraph.start_time (ColorAnalyzerTab.de_graph tab)) /\
                  hd_data h = None) /\
       forall t_start t_last,
         __init__ (snd result) t_start t_last = fresh t_start t_last).
Proof.
  intros tab disk t_save t_done result.
  unfold result, MainWindow.closeEvent.
  pose proof (save_history_frame (ColorAnalyzerTab.data_manager tab) disk t_save t_done)
    as [Hh _].
  pose proof (save_history_writable (ColorAnalyzerTab.data_manager tab) disk t_save t_done)
    as Hw'.
  assert (Hro : writable disk = false ->
                snd (save_history (ColorAnalyzerTab.data_manager tab) disk t_save t_done)
                = disk).
  { intros Hw. unfold save_history. rewrite Hw.
    destruct (Nat.eqb _ _); reflexivity. }
  destruct (save_history (ColorAnalyzerTab.data_manager tab) disk t_save t_done)
    as [[ok manager] disk1].
  cbn [fst snd] in *. cbn [ColorAnalyzerTab.data_manager ColorAnalyzerTab.de_graph].
  split; [exact Hh|]. split; [reflexivity|]. split.
  - intros Hw. rewrite (Hro Hw). unfold DeltaEGraph.save_history.
    rewrite Hw. reflexivity.
  - intros Hw. rewrite <- Hw' in Hw.
    destruct (graph_save_history_file (ColorAnalyzerTab.de_graph tab) disk1 Hw)
      as (h & Hf & Hs & Hd & _).
    split; [exists h; split; [exact Hf|split; [exact Hs|exact Hd]]|].
    intros t_start t_last. unfold __init__.
    rewrite (load_history_without_data _ _ h Hf Hd). reflexivity.
Qed.

(** Closing a session whose store holds two points, over the snapshot of an
    earlier session. *)
Lemma closeEvent_leaves_graph_file_witness :
  __init__ (snd (MainWindow.closeEvent Fixtures2.tab_ab Fixtures.old_disk 8 9)) 20 20
  = fresh 20 20.
Proof.
  destruct (closeEvent_leaves_graph_file Fixtures2.tab_ab Fixtures.old_disk 8 9)
    as (_ & _ & _ & H).
  destruct (H eq_refl) as (_ & Hi). apply Hi.
Defined.

Lemma data_point_of_keys (self : AdvancedDataManager.t)
    (a : Dict.AnalysisResult) (dp : DataPoint) :
  data_point_of self a = Some dp ->
  exists lab cd, Dict.lab a = Some lab /\ Dict.color_diffs a = Some cd /\
                 Dict.de cd = Some (de dp).
Proof.
  unfold data_point_of, bind.
  destruct (Dict.timestamp a); [|discriminate].
  destruct (Dict.color_diffs a) as [cd|]; [|discriminate].
  destruct (Dict.de cd) as [v|] eqn:Hde; [|discriminate].
  destruct (Dict.de76 cd); [|discriminate].
  destruct (Dict.de2000 cd); [|discriminate].
  destruct (Dict.dl cd); [|discriminate].
  destruct (Dict.da cd); [|discriminate].
  destruct (Dict.db cd); [|discriminate].
  destruct (Dict.dc cd); [|discriminate].
  destruct (Dict.dh cd); [|discriminate].
  destruct (Dict.lab a) as [lab|]; [|discriminate].
  destruct (Dict.rgb a); [|discriminate].
  destruct (Dict.calibrated a); [|discriminate].
  intros [= <-]. exists lab, cd.
  split; [reflexivity|]. split; [reflexivity|exact Hde].
Qed.

(** What [process_color_analysis] does with a result that has the keys
    ['lab'] and ['color_diffs']['de']. *)
Lemma process_color_analysis_steps (tab : ColorAnalyzerTab.t) (disk : Disk)
    (a : Dict.AnalysisResult) (lab : Dict.Lab) (cd : Dict.ColorDiffs) (v : R)
    (t_save t_done t_point t_warn : R) :
  Dict.lab a = Some lab -> Dict.color_diffs a = Some cd -> Dict.de cd = Some v ->
  let stored :=
    add_data_point (ColorAnalyzerTab.data_manager tab) disk (Some a) t_save t_done in
  let drawn :=
    DeltaEGraph.add_point (ColorAnalyzerTab.de_graph tab) (snd stored) v t_point in
  let shown :=
    Py.ltb 3 (Rabs v)
    && Py.ltb (ColorAnalyzerTab.warning_cooldown tab)
         (t_warn - ColorAnalyzerTab.last_warning_time tab) in
  ColorAnalyzerTab.process_color_analysis tab disk (Some a)
    t_save t_done t_point t_warn
  = (if shown then Some v else None,
     ColorAnalyzerTab.mk (snd (fst stored)) (snd (fst drawn))
       (if shown then t_warn else ColorAnalyzerTab.last_warning_time tab)
       (ColorAnalyzerTab.warning_cooldown tab) (Some a)
       (Some [Dict.l lab; Dict.a lab; Dict.b lab]),
     snd drawn).
Proof.
  intros Hlab Hcd Hde stored drawn shown.
  unfold ColorAnalyzerTab.process_color_analysis. rewrite Hlab.
  cbn [ColorAnalyzerTab.data_manager ColorAnalyzerTab.de_graph
       ColorAnalyzerTab.last_warning_time ColorAnalyzerTab.warning_cooldown
       ColorAnalyzerTab.current_analysis ColorAnalyzerTab.current_lab_values].
  fold stored. destruct stored as [[ok manager] disk1] eqn:Hs.
  cbn [ColorAnalyzerTab.data_manager ColorAnalyzerTab.de_graph
       ColorAnalyzerTab.last_warning_time ColorAnalyzerTab.warning_cooldown
       ColorAnalyzerTab.current_analysis ColorAnalyzerTab.current_lab_values].
  rewrite Hcd. cbn [bind]. rewrite Hde.
  cbn [fst snd] in drawn. fold drawn.
  pose proof (add_point_warns (ColorAnalyzerTab.de_graph tab) disk1 v t_point) as Hw.
  fold drawn in Hw.
  destruct drawn as [[w graph] disk2].
  cbn [fst snd] in Hw |- *. subst w.
  unfold gb_more.SHOW_WARNING_POPUP, gb.QUALITY_GRADE_ACCEPTABLE.
  rewrite andb_true_r. fold shown. reflexivity.
Qed.

Ltac no_box :=
  split; [reflexivity|split; [intros ? Hbox; discriminate Hbox|intros _; reflexivity]].

(** X28.  [process_color_analysis] shows a warning box for a result exactly
    when the result has the keys it reads, the absolute value of
    ['color_diffs']['de'] exceeds 3.0 and more than [warning_cooldown]
    seconds have passed since the last box; it then records the time of
    the box, and records nothing otherwise.  So the boxes of two successive
    results are more than [warning_cooldown] seconds apart, however large
    the differences. *)
Theorem process_color_analysis_warning_cooldown :
  forall (tab : ColorAnalyzerTab.t) (disk : Disk)
         (analysis_result : option Dict.AnalysisResult)
         (t_save t_done t_point t_warn : R),
    let result :=
      ColorAnalyzerTab.process_color_analysis tab disk analysis_result
        t_save t_done t_point t_warn in
    let shown := fst (fst result) in
    let tab' := snd (fst result) in
    ColorAnalyzerTab.warning_cooldown tab' = ColorAnalyzerTab.warning_cooldown tab /\
    (forall v, shown = Some v ->
       3 < Rabs v /\
       ColorAnalyzerTab.warning_cooldown tab
       < t_warn - ColorAnalyzerTab.last_warning_time tab /\
       ColorAnalyzerTab.last_warning_time tab' = t_warn /\
       exists a lab cd,
         analysis_result = Some a /\ Dict.lab a = Some lab /\
         Dict.color_diffs a = Some cd /\ Dict.de cd = Some v) /\
    (shown = None ->
       ColorAnalyzerTab.last_warning_time tab'
       = ColorAnalyzerTab.last_warning_time tab) /\
    (forall a lab cd v,
       analysis_result = Some a -> Dict.lab a = Some lab ->
       Dict.color_diffs a = Some cd -> Dict.de cd = Some v ->
       3 < Rabs v ->
       ColorAnalyzerTab.warning_cooldown tab
       < t_warn - ColorAnalyzerTab.last_warning_time tab ->
       shown = Some v) /\
    (forall next t_save2 t_done2 t_point2 t_warn2 v v2,
       shown = Some v ->
       fst (fst (ColorAnalyzerTab.process_color_analysis tab' (snd result) next
                   t_save2 t_done2 t_point2 t_warn2)) = Some v2 ->
       ColorAnalyzerTab.warning_cooldown tab < t_warn2 - t_warn).
Proof.
  assert (Hone : forall tab disk r t_save t_done t_point t_warn,
    let result :=
      ColorAnalyzerTab.process_color_analysis tab disk r t_save t_done t_point t_warn in
    ColorAnalyzerTab.warning_cooldown (snd (fst result))
    = ColorAnalyzerTab.warning_cooldown tab /\
    (forall v, fst (fst result) = Some v ->
       3 < Rabs v /\
       ColorAnalyzerTab.warning_cooldown tab
       < t_warn - ColorAnalyzerTab.last_warning_time tab /\
       ColorAnalyzerTab.last_warning_time (snd (fst result)) = t_warn /\
       exists a lab cd,
         r = Some a /\ Dict.lab a = Some lab /\
         Dict.color_diffs a = Some cd /\ Dict.de cd = Some v) /\
    (fst (fst result) = None ->
       ColorAnalyzerTab.last_warning_time (snd (fst result))
       = ColorAnalyzerTab.last_warning_time tab)).
  { intros tab disk r t_save t_done t_point t_warn result.
    destruct r as [a|]; [|no_box].
    destruct (Dict.lab a) as [lab|] eqn:Hlab.
    2:{ unfold result, ColorAnalyzerTab.process_color_analysis. rewrite Hlab.
        no_box. }
    destruct (Dict.color_diffs a) as [cd|] eqn:Hcd.
    2:{ unfold result, ColorAnalyzerTab.process_color_analysis.
        rewrite Hlab, Hcd.
        destruct (add_data_point _ _ _ _ _) as [[ok m] d1].
        no_box. }
    destruct (Dict.de cd) as [v0|] eqn:Hde.
    2:{ unfold result, ColorAnalyzerTab.process_color_analysis.
        rewrite Hlab, Hcd.
        destruct (add_data_point _ _ _ _ _) as [[ok m] d1].
        cbn [bind]. rewrite Hde.
        no_box. }
    unfold result.
    rewrite (process_color_analysis_steps tab disk a lab cd v0 _ _ _ _ Hlab Hcd Hde).
    cbn [fst snd ColorAnalyzerTab.warning_cooldown ColorAnalyzerTab.last_warning_time].
    destruct (Py.ltb 3 (Rabs v0)) eqn:H3;
      destruct (Py.ltb (ColorAnalyzerTab.warning_cooldown tab)
                  (t_warn - ColorAnalyzerTab.last_warning_time tab)) eqn:Hc;
      cbn [andb]; try no_box.
    split; [reflexivity|]. split; [|intros Hbox; discriminate Hbox].
    intros v [= <-].
    apply ltb_true_iff in H3. apply ltb_true_iff in Hc.
    split; [exact H3|]. split; [exact Hc|]. split; [reflexivity|].
    exists a, lab, cd. repeat split; assumption. }
  intros tab disk r t_save t_done t_point t_warn result shown tab'.
  destruct (Hone tab disk r t_save t_done t_point t_warn) as (Hcool & Hshown & Hnone).
  fold result in Hcool, Hshown, Hnone. fold shown in Hshown, Hnone.
  fold tab' in Hcool, Hshown, Hnone.
  split; [exact Hcool|]. split; [exact Hshown|]. split; [exact Hnone|]. split.
  - intros a lab cd v -> Hlab Hcd Hde H3 Hc.
    unfold shown, result.
    rewrite (process_color_analysis_steps tab disk a lab cd v _ _ _ _ Hlab Hcd Hde).
    cbn [fst].
    apply ltb_true_iff in H3. apply ltb_true_iff in Hc.
    rewrite H3, Hc. reflexivity.
  - intros next t_save2 t_done2 t_point2 t_warn2 v v2 H1 H2.
    destruct (Hshown v H1) as (_ & _ & Hlast & _).
    destruct (Hone tab' (snd result) next t_save2 t_done2 t_point2 t_warn2)
      as (_ & Hshown2 & _).
    destruct (Hshown2 v2 H2) as (_ & Hc2 & _).
    rewrite Hcool, Hlast in Hc2. exact Hc2.
Qed.

(** A result with a difference of 4, ten seconds into a session: the box is
    shown and its time recorded. *)
Lemma process_color_analysis_warning_cooldown_witness :
  fst (fst (ColorAnalyzerTab.process_color_analysis Fixtures2.tab_0
              Fixtures.blank_disk (Some (Fixtures.result 10 4)) 10 10 10 10))
  = Some 4 /\
  ColorAnalyzerTab.last_warning_time
    (snd (fst (ColorAnalyzerTab.process_color_analysis Fixtures2.tab_0
                 Fixtures.blank_disk (Some (Fixtures.result 10 4)) 10 10 10 10)))
  = 10.
Proof.
  destruct (process_color_analysis_warning_cooldown Fixtures2.tab_0
              Fixtures.blank_disk (Some (Fixtures.result 10 4)) 10 10 10 10)
    as (_ & Hshown & _ & Hconv & _).
  assert (H : fst (fst (ColorAnalyzerTab.process_color_analysis Fixtures2.tab_0
                          Fixtures.blank_disk (Some (Fixtures.result 10 4))
                          10 10 10 10)) = Some 4).
  { apply (Hconv (Fixtures.result 10 4) (Dict.mkLab 50 0 0) (Fixtures.bundle 4) 4);
      try reflexivity.
    - rewrite Rabs_pos_eq; lra.
    - cbn. unfold gb_more.WARNING_COOLDOWN. lra. }
  split; [exact H|]. apply (Hshown 4 H).
Defined.

(** X29.  For a result from which [add_data_point] can build a point,
    [process_color_analysis] stores the point and draws its ['de']: the
    store and the graph each receive one entry, with the same value, and
    the tab keeps the result and its LAB triple.  For a result that has
    ['lab'] and ['color_diffs']['de'] but lacks another key the store
    needs (such as ['timestamp']), the store is left as it was while the
    graph still receives the value, so the two no longer hold the same
    series.  [None] changes nothing. *)
Theorem process_color_analysis_records :
  forall (tab : ColorAnalyzerTab.t) (disk : Disk)
         (t_save t_done t_point t_warn : R),
    ColorAnalyzerTab.process_color_analysis tab disk None
      t_save t_done t_point t_warn = (None, tab, disk) /\
    (forall a dp,
       data_point_of (ColorAnalyzerTab.data_manager tab) a = Some dp ->
       let tab' :=
         snd (fst (ColorAnalyzerTab.process_color_analysis tab disk (Some a)
                     t_save t_done t_point t_warn)) in
       history_data (ColorAnalyzerTab.data_manager tab')
       = Deque.append (history_data (ColorAnalyzerTab.data_manager tab)) dp /\
       DeltaEGraph.de_values (ColorAnalyzerTab.de_graph tab')
       = Deque.append (DeltaEGraph.de_values (ColorAnalyzerTab.de_graph tab)) (de dp) /\
       DeltaEGraph.times (ColorAnalyzerTab.de_graph tab')
       = Deque.append (DeltaEGraph.times (ColorAnalyzerTab.de_graph tab))
           (t_point - DeltaEGraph.start_time (ColorAnalyzerTab.de_graph tab)) /\
       ColorAnalyzerTab.current_analysis tab' = Some a /\
       ColorAnalyzerTab.current_lab_values tab'
       = Some [Dict.l (lab dp); Dict.a (lab dp); Dict.b (lab dp)]) /\
    (forall a lab cd v,
       Dict.lab a = Some lab -> Dict.color_diffs a = Some cd ->
       Dict.de cd = Some v ->
       data_point_of (ColorAnalyzerTab.data_manager tab) a = None ->
       let tab' :=
         snd (fst (ColorAnalyzerTab.process_color_analysis tab disk (Some a)
                     t_save t_done t_point t_warn)) in
       ColorAnalyzerTab.data_manager tab' = ColorAnalyzerTab.data_manager tab /\
       DeltaEGraph.de_values (ColorAnalyzerTab.de_graph tab')
       = Deque.append (DeltaEGraph.de_values (ColorAnalyzerTab.de_graph tab)) v).
Proof.
  intros tab disk t_save t_done t_point t_warn.
  split; [reflexivity|]. split.
  - intros a dp Hdp tab'.
    destruct (data_point_of_keys _ a dp Hdp) as (lab0 & cd & Hlab & Hcd & Hde).
    unfold tab'.
    rewrite (process_color_analysis_steps tab disk a lab0 cd (de dp) _ _ _ _
               Hlab Hcd Hde).
    cbn [fst snd ColorAnalyzerTab.data_manager ColorAnalyzerTab.de_graph
         ColorAnalyzerTab.current_analysis ColorAnalyzerTab.current_lab_values].
    assert (Hl : lab dp = lab0).
    { revert Hdp. unfold data_point_of, bind. rewrite Hcd, Hlab.
      destruct (Dict.timestamp a); [|discriminate].
      destruct (Dict.de cd); [|discriminate].
      destruct (Dict.de76 cd); [|discriminate].
      destruct (Dict.de2000 cd); [|discriminate].
      destruct (Dict.dl cd); [|discriminate].
      destruct (Dict.da cd); [|discriminate].
      destruct (Dict.db cd); [|discriminate].
      destruct (Dict.dc cd); [|discriminate].
      destruct (Dict.dh cd); [|discriminate].
      destruct (Dict.rgb a); [|discriminate].
      destruct (Dict.calibrated a); [|discriminate].
      intros [= <-]. reflexivity. }
    rewrite Hl.
    split; [|repeat split; reflexivity].
    unfold add_data_point. rewrite Hdp.
    destruct (_ <=? _)%Z; [|reflexivity].
    match goal with
    | |- context [save_history ?s ?d ?x ?y] =>
      pose proof (save_history_frame s d x y) as [Hh _];
      destruct (save_history s d x y) as [[ok s2] d2]
    end.
    cbn [fst snd history_data] in *. exact Hh.
  - intros a lab0 cd v Hlab Hcd Hde Hnone tab'.
    unfold tab'.
    rewrite (process_color_analysis_steps tab disk a lab0 cd v _ _ _ _ Hlab Hcd Hde).
    cbn [fst snd ColorAnalyzerTab.data_manager ColorAnalyzerTab.de_graph].
    unfold add_data_point. rewrite Hnone. split; reflexivity.
Qed.

(** A result without ['timestamp'] reaches the graph and not the store. *)
Lemma process_color_analysis_records_witness :
  ColorAnalyzerTab.data_manager
    (snd (fst (ColorAnalyzerTab.process_color_analysis Fixtures2.tab_0
                 Fixtures.blank_disk (Some Fixtures.result_without_timestamp)
                 1 1 1 1)))
  = ColorAnalyzerTab.data_manager Fixtures2.tab_0 /\
  DeltaEGraph.de_values
    (ColorAnalyzerTab.de_graph
       (snd (fst (ColorAnalyzerTab.process_color_analysis Fixtures2.tab_0
                    Fixtures.blank_disk (Some Fixtures.result_without_timestamp)
                    1 1 1 1))))
  = Deque.append (DeltaEGraph.de_values (ColorAnalyzerTab.de_graph Fixtures2.tab_0)) 1.
Proof.
  destruct (process_color_analysis_records Fixtures2.tab_0 Fixtures.blank_disk 1 1 1 1)
    as (_ & _ & H).
  apply (H Fixtures.result_without_timestamp (Dict.mkLab 50 0 0) (Fixtures.bundle 1) 1);
    reflexivity.
Defined.

End Window.

(** ** CIE76 over binary64 *)

Section Binary64Distance.

Import PrimFloat SpecFloat FloatOps FloatAxioms.
Local Open Scope float_scope.

(** A finite binary64 value is a zero or has a mantissa. *)
Lemma is_finite_spec (x : float) :
  is_finite x = true ->
  (exists s, Prim2SF x = S754_zero s) \/
  (exists s m e, Prim2SF x = S754_finite s m e).
Proof.
  unfold is_finite, is_nan, is_infinity.
  rewrite !eqb_spec, abs_spec.
  change (Prim2SF infinity) with (S754_infinity false).
  destruct (Prim2SF x) as [s|s| |s m e]; intros H.
  - left. exists s. reflexivity.
  - destruct s; discriminate H.
  - discriminate H.
  - right. exists s, m, e. reflexivity.
Qed.

Lemma sub_diag_finite (x : float) : is_finite x = true -> x - x = 0.
Proof.
  intros H. apply Prim2SF_inj. rewrite sub_spec.
  change (Prim2SF 0) with (S754_zero false).
  destruct (is_finite_spec x H) as [[s ->]|(s & m & e & ->)].
  - destruct s; reflexivity.
  - unfold SF64sub, SFsub. rewrite Z.sub_diag. reflexivity.
Qed.

Lemma binary_round_opp (s : bool) (m : positive) (e : Z) :
  SFopp (binary_round prec emax s m e) = binary_round prec emax (negb s) m e.
Proof.
  unfold binary_round.
  destruct (shl_align m e _) as [mz ez].
  unfold binary_round_aux.
  destruct (shr_fexp prec emax (Z.pos mz) ez loc_Exact) as [mrs' e'].
  destruct (shr_fexp prec emax _ e' loc_Exact) as [mrs'' e''].
  destruct (shr_m mrs''); [reflexivity| |reflexivity].
  destruct (_ <=? _)%Z; reflexivity.
Qed.

Lemma binary_normalize_opp (z e : Z) :
  z <> 0%Z ->
  binary_normalize prec emax (- z) e false
  = SFopp (binary_normalize prec emax z e false).
Proof.
  intros Hz. destruct z as [|p|p]; [contradiction| |];
    cbn [Z.opp binary_normalize]; rewrite binary_round_opp; reflexivity.
Qed.

(** The square of a value and of its opposite. *)
Lemma SFmul_opp_opp (x : spec_float) :
  SFmul prec emax (SFopp x) (SFopp x) = SFmul prec emax x x.
Proof. destruct x as [s|s| |s m e]; try destruct s; reflexivity. Qed.

(** Subtraction the other way round gives the opposite value, or the same
    zero. *)
Lemma SFsub_swap (x y : spec_float) :
  SFsub prec emax y x = SFopp (SFsub prec emax x y) \/
  SFsub prec emax y x = SFsub prec emax x y.
Proof.
  destruct x as [sx|sx| |sx mx ex], y as [sy|sy| |sy my ey];
    try (destruct sx, sy; cbn; auto; fail);
    try (destruct sx; cbn; auto; fail);
    try (destruct sy; cbn; rewrite ?Bool.negb_involutive; auto; fail);
    try (cbn; auto; fail).
  unfold SFsub. rewrite (Z.min_comm ey ex).
  set (ez := Z.min ex ey).
  set (u := cond_Zopp sx (Z.pos (fst (shl_align mx ex ez)))).
  set (v := cond_Zopp sy (Z.pos (fst (shl_align my ey ez)))).
  destruct (Z.eq_dec (u - v) 0) as [Hz|Hz].
  - right. replace (v - u)%Z with 0%Z by lia. rewrite Hz. reflexivity.
  - left. replace (v - u)%Z with (- (u - v))%Z by lia.
    apply binary_normalize_opp, Hz.
Qed.

Lemma sq_sub_swap (x y : float) : (x - y) * (x - y) = (y - x) * (y - x).
Proof.
  apply Prim2SF_inj. rewrite !mul_spec, !sub_spec. unfold SF64mul, SF64sub.
  destruct (SFsub_swap (Prim2SF x) (Prim2SF y)) as [H|H]; rewrite H;
    [rewrite SFmul_opp_opp|]; reflexivity.
Qed.

(** X30.  Over binary64, with [** 2] taken as a product,
    [calculate_delta_e_76] gives exactly 0.0 for a triple of finite
    components against itself and the same value, bit for bit, whichever of
    two triples comes first; for a triple with an infinite lightness against
    itself it gives NaN, the difference of two infinities. *)
Theorem binary64_delta_e_76_identity_and_symmetry :
  forall L1 a1 b1 L2 a2 b2 : float,
    (is_finite L1 = true -> is_finite a1 = true -> is_finite b1 = true ->
     Binary64.calculate_delta_e_76 [L1; a1; b1] [L1; a1; b1] = Some 0) /\
    Binary64.calculate_delta_e_76 [L1; a1; b1] [L2; a2; b2]
    = Binary64.calculate_delta_e_76 [L2; a2; b2] [L1; a1; b1] /\
    Binary64.calculate_delta_e_76 [infinity; a1; b1] [infinity; a1; b1]
    = Some nan.
Proof.
  intros L1 a1 b1 L2 a2 b2.
  split; [|split].
  - intros HL Ha Hb. cbn. rewrite !sub_diag_finite by assumption. reflexivity.
  - cbn. rewrite (sq_sub_swap L2 L1), (sq_sub_swap a2 a1), (sq_sub_swap b2 b1).
    reflexivity.
  - unfold Binary64.calculate_delta_e_76; cbn [Binary64.item nth_error Binary64.bind].
    replace (infinity - infinity) with nan by reflexivity.
    change (Binary64.pow nan 2) with (nan * nan).
    rewrite mul_nan_l, !add_nan_l. reflexivity.
Qed.

Lemma binary64_delta_e_76_identity_and_symmetry_witness :
  Binary64.calculate_delta_e_76 Binary64.lab_huge_1 Binary64.lab_huge_1
  = Some 0.
Proof.
  apply (binary64_delta_e_76_identity_and_symmetry
           50 0x1.3e9e4e4c2f344p+199 0 0 0 0); reflexivity.
Defined.

End Binary64Distance.
